(** * BetterForward: the message/thread correlation engine

    A shallow embedding of the handlers of [main.py] (class [TGBot]),
    [src/handlers/command_handler.py] (class [CommandHandler]) and
    [src/handlers/callback_handler.py] (class [CallbackHandler]).

    The sqlite tables are lists of rows in insertion order, the lookup cache
    is a finite map, and every call made on the Telegram Bot API is appended
    to an outbox so that what a handler sent, and in which order, can be
    stated.  A handler is a computation in a state-and-exception monad: the
    state survives a raised exception, as the effects of a Python handler
    do. *)

From stdpp Require Import base option list gmap strings pretty.
From Stdlib Require Import ZArith Lia Ascii.

Local Open Scope Z_scope.

(** ** Python values *)

(** The exception classes the handlers raise, catch or let through. *)
Inductive exn :=
| TypeError
| ValueError
| KeyError
| IndexError
| AttributeError
| JSONDecodeError
| ApiTelegramException
| OtherException (cls : string).   (* any other class, such as a time-out of the HTTP layer *)

Global Instance exn_eq_dec : EqDecision exn.
Proof. solve_decision. Defined.

(** [except ApiTelegramException], [except json.JSONDecodeError] and
    [except Exception] as predicates on the raised class. *)
Definition except_ApiTelegramException (e : exn) : bool :=
  bool_decide (e = ApiTelegramException).
Definition except_JSONDecodeError (e : exn) : bool :=
  bool_decide (e = JSONDecodeError).
Definition except_Exception (e : exn) : bool := true.

(** The line feed of the Python literals. *)
Definition nl : string := String (Ascii.ascii_of_nat 10) EmptyString.

(** [str(n)] and [f"{n}"] for an integer. *)
Definition str (n : Z) : string := pretty n.

(** [s.format(a1, ..., an)] for templates whose only fields are [{}]. *)
Fixpoint format (s : string) (args : list string) : string :=
  match s with
  | String "{"%char (String "}"%char rest) =>
      match args with
      | a :: args' => a +:+ format rest args'
      | [] => format rest []
      end
  | String c rest => String c (format rest args)
  | EmptyString => EmptyString
  end.

(** [s.split(" ")]: cut at every single blank, empty pieces kept. *)
Fixpoint split_go (cur : string) (s : string) : list string :=
  match s with
  | EmptyString => [String.rev cur]
  | String " "%char rest => String.rev cur :: split_go EmptyString rest
  | String c rest => split_go (String c cur) rest
  end.
Definition split (s : string) : list string := split_go EmptyString s.

(** Values of a decoded JSON object, as far as the keyboards of the bot
    produce them. *)
Inductive jval :=
| JInt (n : Z)
| JStr (s : string).

Global Instance jval_eq_dec : EqDecision jval.
Proof. solve_decision. Defined.

(** What [json.loads] makes of a text: an object (a dict), or a value on
    which subscripting with a string raises [TypeError]. *)
Inductive json :=
| JObject (fields : gmap string jval)
| JNotObject.

(** [CallbackQuery.data], seen through [json.loads]. *)
Inductive callback_data :=
| DataNull                (* the text "null" *)
| DataInvalid (s : string) (* a text on which json.loads raises JSONDecodeError *)
| DataJson (j : json).    (* any other text, with what json.loads returns *)

(** ** Telegram objects *)

Record User := {
  u_id : Z;
  first_name : string;
  last_name : option string;
  username : option string;
}.

Record Message := {
  message_id : Z;
  chat_id : Z;                      (* message.chat.id *)
  from_user : User;
  message_thread_id : option Z;
  content_type : string;
  text : option string;
  caption : option string;
  photo : list string;              (* file_id of each PhotoSize *)
  sticker : option string;          (* file_id *)
  video : option string;
  document : option string;
  reply_to_message : option Z;      (* message_id of the replied message *)
}.

(** A [MessageReactionUpdated] update. *)
Record Reaction := {
  r_message_id : Z;
  r_chat_id : Z;
  new_reaction : list string;
}.

Record CallbackQuery := {
  c_id : Z;
  data : callback_data;
  c_message : Message;
}.

(** ** The store

    Modelled from the spec: the table declarations (the [db_migrate]
    scripts) are not among the sources.  The columns are those of the
    persisted state layout, [topics(user_id, thread_id, ban)],
    [messages(received_id, forwarded_id, topic_id, in_group)] and
    [auto_response(key, value, topic_action)], the columns are never NULL
    (so the tests [user_id[0] is None] of the handlers never hold), and no
    uniqueness is enforced by the table itself. *)

Record topics_row := {
  t_user_id : Z;
  t_thread_id : Z;
  t_ban : bool;
}.

Record messages_row := {
  m_received_id : Z;
  m_forwarded_id : Z;
  m_topic_id : Z;
  m_in_group : bool;
}.

Record auto_response_row := {
  a_key : string;
  a_value : string;
  a_topic_action : Z;
}.

Global Instance topics_row_eq_dec : EqDecision topics_row.
Proof. solve_decision. Defined.
Global Instance messages_row_eq_dec : EqDecision messages_row.
Proof. solve_decision. Defined.

(** [SELECT ... WHERE P LIMIT 1] followed by [fetchone()]. *)
Definition fetchone {R : Type} (P : R → Prop) `{∀ r, Decision (P r)}
    (table : list R) : option R :=
  head (filter P table).

(** [DELETE FROM table WHERE P]. *)
Definition delete_from {R : Type} (P : R → Prop) `{∀ r, Decision (P r)}
    (table : list R) : list R :=
  filter (λ r, ¬ P r) table.

(** ** Calls on the Bot API *)

(** The [message_thread_id] argument of a call: absent, an integer, or the
    one-element row that [fetchone()] returned and [TGBot.handle_messages]
    passes on as it is. *)
Inductive thread_arg :=
| NoThread
| ThreadId (t : Z)
| ThreadRow (t : Z).

Definition thread_of (a : thread_arg) : option Z :=
  match a with
  | NoThread => None
  | ThreadId t | ThreadRow t => Some t
  end.

Definition thread_arg_of (o : option Z) : thread_arg :=
  match o with
  | Some t => ThreadId t
  | None => NoThread
  end.

(** An inline keyboard: the decoded [callback_data] of each button. *)
Definition markup := list (gmap string jval).

Inductive Call :=
| SendMessage (chat : Z) (txt : string) (thread : thread_arg)
| ReplyTo (chat : Z) (msg : Z) (txt : string) (kb : markup)
| PinChatMessage (chat : Z) (msg : Z)
| ForwardMessage (chat : Z) (from_chat : Z) (thread : thread_arg) (msg : Z)
| SendPhoto (chat : Z) (file : string) (cap : option string)
| SendSticker (chat : Z) (file : string)
| SendVideo (chat : Z) (file : string) (cap : option string)
| SendDocument (chat : Z) (file : string) (cap : option string)
| EditMessageText (txt : string) (chat : Z) (msg : Z)
| DeleteMessage (chat : Z) (msg : Z)
| SetMessageReaction (chat : Z) (msg : Z) (reaction : list string)
| AnswerCallbackQuery (query : Z)
| GetChatMember (chat : Z) (user : Z)
| CreateForumTopic (chat : Z) (name : string)
| CloseForumTopic (chat : Z) (thread : thread_arg)
| DeleteForumTopic (chat : Z) (thread : thread_arg).

(** What the Bot API answers during one run of a handler.  A call either
    returns or raises; the values the handlers read from an answer are the
    thread of a created topic, the id of a sent message and the status of a
    chat member.  [now] is the wall clock already formatted with
    [strftime("%Y-%m-%d %H:%M:%S")]. *)
Record Env := {
  raises : Call → option exn;
  created_thread : Z;
  sent_message_id : Call → Z;
  member_status : Z → Z → string;
  now : string;
}.

(** A record of the logger; [LogException prefix e] is [prefix] followed by
    the text of the exception [e]. *)
Inductive log_record :=
| LogInfo (txt : string)
| LogError (txt : string)
| LogException (prefix : string) (e : exn).

(** ** The world a handler runs in

    The three tables, the lookup cache, the calls made on the Bot API so far
    and the log.  Modelled from the spec: the class of the cache is not
    among the sources; it is the map from text keys to the counterpart id
    that the specification describes, and [cache.delete(key)] removes the
    key. *)

Record World := {
  topics : list topics_row;
  messages : list messages_row;
  auto_response : list auto_response_row;
  cache : gmap string Z;
  outbox : list Call;
  log : list log_record;
}.

Definition set_topics (f : list topics_row → list topics_row) (w : World) : World :=
  {| topics := f (topics w); messages := messages w;
     auto_response := auto_response w; cache := cache w;
     outbox := outbox w; log := log w |}.

Definition set_messages (f : list messages_row → list messages_row) (w : World) : World :=
  {| topics := topics w; messages := f (messages w);
     auto_response := auto_response w; cache := cache w;
     outbox := outbox w; log := log w |}.

Definition set_cache (f : gmap string Z → gmap string Z) (w : World) : World :=
  {| topics := topics w; messages := messages w;
     auto_response := auto_response w; cache := f (cache w);
     outbox := outbox w; log := log w |}.

Definition set_outbox (f : list Call → list Call) (w : World) : World :=
  {| topics := topics w; messages := messages w;
     auto_response := auto_response w; cache := cache w;
     outbox := f (outbox w); log := log w |}.

Definition set_log (f : list log_record → list log_record) (w : World) : World :=
  {| topics := topics w; messages := messages w;
     auto_response := auto_response w; cache := cache w;
     outbox := outbox w; log := f (log w) |}.

(** ** The handler monad *)

Inductive outcome (A : Type) :=
| Returned (a : A)
| Raised (e : exn).
Arguments Returned {A} a.
Arguments Raised {A} e.

Definition M (A : Type) : Type := World → World * outcome A.

Definition ret {A} (a : A) : M A := λ w, (w, Returned a).
Definition raise {A} (e : exn) : M A := λ w, (w, Raised e).
Definition bind {A B} (c : M A) (k : A → M B) : M B :=
  λ w, match c w with
       | (w', Returned a) => k a w'
       | (w', Raised e) => (w', Raised e)
       end.

(** [try: c  except <classes>: h e]. *)
Definition try_except {A} (c : M A) (classes : exn → bool) (h : exn → M A) : M A :=
  λ w, match c w with
       | (w', Raised e) => if classes e then h e w' else (w', Raised e)
       | r => r
       end.

Definition get : M World := λ w, (w, Returned w).
Definition modify (f : World → World) : M unit := λ w, (f w, Returned tt).

Declare Scope handler_scope.
Delimit Scope handler_scope with handler.
Notation "x <- c ;; k" := (bind c (λ x, k))
  (at level 100, c at next level, right associativity) : handler_scope.
Notation "c ;; k" := (bind c (λ _, k))
  (at level 100, right associativity) : handler_scope.
Local Open Scope handler_scope.

Definition pass : M unit := ret tt.

Definition logger (r : log_record) : M unit := modify (set_log (λ l, l ++ [r])).

(** A call on the Bot API: it is recorded, then returns or raises as the
    environment says. *)
Definition call (env : Env) (c : Call) : M unit :=
  λ w, (set_outbox (λ o, o ++ [c]) w,
        match raises env c with
        | Some e => Raised e
        | None => Returned tt
        end).

(** [str(x)] for an optional value and the [None] it prints. *)
Definition str_opt {A} (f : A → string) (o : option A) : string :=
  match o with
  | Some a => f a
  | None => "None"
  end.

(** [bot.reply_to(message, text, reply_markup=kb)]. *)
Definition reply_to (env : Env) (message : Message) (txt : string) (kb : markup) : M unit :=
  call env (ReplyTo (chat_id message) (message_id message) txt kb).

Definition set_auto_response (f : list auto_response_row → list auto_response_row)
    (w : World) : World :=
  {| topics := topics w; messages := messages w;
     auto_response := f (auto_response w); cache := cache w;
     outbox := outbox w; log := log w |}.

(** [with sqlite3.connect(...) as db: body] for a body whose only commit is
    the one that ends it: the tables are those the body leaves when it
    returns, and those it found when an exception leaves it (the connection
    rolls back).  Calls already made and log records stay. *)
Definition rollback (saved w : World) : World :=
  {| topics := topics saved; messages := messages saved;
     auto_response := auto_response saved; cache := cache w;
     outbox := outbox w; log := log w |}.

Definition with_connection {A} (body : M A) : M A :=
  λ w, match body w with
       | (w', Raised e) => (rollback w w', Raised e)
       | r => r
       end.

(** The integers sqlite3 binds as a statement parameter: a Python [int] is
    passed as a 64-bit signed INTEGER, and any other raises
    [OverflowError], before the statement runs. *)
Definition sqlite_int (n : Z) : Prop := - 2 ^ 63 ≤ n < 2 ^ 63.

Global Instance sqlite_int_dec (n : Z) : Decision (sqlite_int n).
Proof. unfold sqlite_int. apply _. Defined.

Definition OverflowError : exn := OtherException "OverflowError".

(** The binding of a value that a statement stores. *)
Definition bind_int (n : Z) : M unit :=
  if bool_decide (sqlite_int n) then ret tt else raise OverflowError.

(** The binding of an id that a statement compares with the column whose
    values are [stored].  What a table holds was bound when it was stored,
    so an id found there is bound again without an error; the range is
    looked at for the others. *)
Definition bind_id (n : Z) (stored : list Z) : M unit :=
  if bool_decide (n ∈ stored) then ret tt else bind_int n.

(** * [main.py]: class [TGBot] *)

Module TGBot.
Section TGBot.

(** [self.group_id], the catalogue lookup [_] of gettext, Python's [int]
    on a text ([None] where it raises [ValueError]) and the Bot API. *)
Variable group_id : Z.
Variable tr : string → string.
Variable int : string → option Z.
Variable env : Env.

(** The message that is pinned in a new thread. *)
Definition identity_card (message : Message) (thread_id : thread_arg) : Call :=
  let userid := u_id (from_user message) in
  let username := match username (from_user message) with
                  | None => tr "Not set"
                  | Some u => "@" +:+ u
                  end in
  let last_name := match last_name (from_user message) with
                   | None => ""
                   | Some l => " " +:+ l
                   end in
  SendMessage group_id
    ("User ID: " +:+ str userid +:+ nl +:+
     "Full Name: " +:+ first_name (from_user message) +:+ last_name +:+ nl +:+
     "Username: " +:+ username +:+ nl)
    thread_id.

(** The thread lookup and creation step of [handle_messages] (the lines
    from [userid = message.from_user.id] to [pin_chat_message]).  The
    result is the value left in [thread_id], or [None] when the creation
    failed and [handle_messages] returns. *)
Definition resolve_or_create_thread (message : Message) : M (option thread_arg) :=
  let userid := u_id (from_user message) in
  w <- get ;;
  match fetchone (λ r, t_user_id r = userid) (topics w) with
  | Some row => ret (Some (ThreadRow (t_thread_id row)))
  | None =>
      logger (LogInfo (format (tr "Creating a new thread for user {}") [str userid])) ;;
      created <- try_except
        (call env (CreateForumTopic group_id (first_name (from_user message))) ;;
         ret (Some (created_thread env)))
        except_Exception
        (λ e, logger (LogException "" e) ;; ret None) ;;
      match created with
      | None => ret None
      | Some topic_thread =>
          modify (set_topics (λ t, t ++ [{| t_user_id := userid;
                                            t_thread_id := topic_thread;
                                            t_ban := false |}])) ;;
          let thread_id := ThreadId topic_thread in
          let card := identity_card message thread_id in
          call env card ;;
          call env (PinChatMessage group_id (sent_message_id env card)) ;;
          ret (Some thread_id)
      end
  end.

(** The user side of [handle_messages] from the thread lookup on;
    [hit] is the auto-response row found for the text, if any. *)
Definition forward_to_group (message : Message) (hit : option auto_response_row) : M unit :=
  resolved <- resolve_or_create_thread message ;;
  match resolved with
  | None => ret tt
  | Some thread_id =>
      let failed := tr (format "Failed to forward message from user {}"
                               [str (u_id (from_user message))]) in
      try_except
        (call env (ForwardMessage group_id (chat_id message) thread_id (message_id message)))
        except_ApiTelegramException
        (λ e, logger (LogException (failed +:+ " ") e) ;;
              call env (SendMessage group_id failed NoThread) ;;
              call env (ForwardMessage group_id (chat_id message) NoThread (message_id message))) ;;
      match hit with
      | Some row =>
          if bool_decide (a_topic_action row = 0) then ret tt
          else call env (SendMessage group_id (tr "[Auto Response]" +:+ a_value row) thread_id)
      | None => ret tt
      end
  end.

(** The group side of [handle_messages]. *)
Definition forward_to_user (message : Message) : M unit :=
  w <- get ;;
  match fetchone (λ r, Some (t_thread_id r) = message_thread_id message) (topics w) with
  | Some row =>
      let user_id := t_user_id row in
      if String.eqb (content_type message) "photo" then
        match last (photo message) with
        | Some file => call env (SendPhoto user_id file (caption message))
        | None => raise IndexError
        end
      else if String.eqb (content_type message) "text" then
        match text message with
        | Some t => call env (SendMessage user_id t NoThread)
        | None => raise ApiTelegramException   (* the Bot API refuses a message without text *)
        end
      else if String.eqb (content_type message) "sticker" then
        match sticker message with
        | Some file => call env (SendSticker user_id file)
        | None => raise AttributeError
        end
      else if String.eqb (content_type message) "video" then
        match video message with
        | Some file => call env (SendVideo user_id file (caption message))
        | None => raise AttributeError
        end
      else if String.eqb (content_type message) "document" then
        match document message with
        | Some file => call env (SendDocument user_id file (caption message))
        | None => raise AttributeError
        end
      else logger (LogError (tr "Unsupported message type" +:+ content_type message))
  | None =>
      call env (SendMessage group_id (tr "Chat not found, please remove this topic manually")
                            (thread_arg_of (message_thread_id message))) ;;
      call env (CloseForumTopic group_id (thread_arg_of (message_thread_id message)))
  end.

Definition handle_messages (message : Message) : M unit :=
  (* Not responding in General topic *)
  if bool_decide (message_thread_id message = None ∧ chat_id message = group_id) then ret tt
  else if bool_decide (chat_id message ≠ group_id) then
    logger (LogInfo (format (tr "Received message from {}, content: {}, type: {}")
                            [str (u_id (from_user message));
                             str_opt id (text message);
                             content_type message])) ;;
    (* Auto response *)
    w <- get ;;
    match fetchone (λ r, Some (a_key r) = text message) (auto_response w) with
    | Some row =>
        call env (SendMessage (chat_id message) (a_value row) NoThread) ;;
        if bool_decide (a_topic_action row = 0) then ret tt
        else forward_to_group message (Some row)
    | None => forward_to_group message None
    end
  else forward_to_user message.

(** Get thread_id to terminate when needed. *)
Definition terminate_thread (thread_id user_id : option Z) : M (option Z) :=
  thread_id <-
    match thread_id, user_id with
    | Some t, _ =>
        w <- get ;;
        bind_id t (t_thread_id <$> topics w) ;;
        modify (set_topics (delete_from (λ r, t_thread_id r = t))) ;;
        ret thread_id
    | None, Some u =>
        w <- get ;;
        bind_id u (t_user_id <$> topics w) ;;
        match fetchone (λ r, t_user_id r = u) (topics w) with
        | Some row =>
            modify (set_topics (delete_from (λ r, t_user_id r = u))) ;;
            ret (Some (t_thread_id row))
        | None => raise TypeError      (* fetchone()[0] on None *)
        end
    | None, None => ret None
    end ;;
  try_except
    (call env (DeleteForumTopic group_id (thread_arg_of thread_id)))
    except_ApiTelegramException
    (λ _, pass) ;;
  logger (LogInfo (tr "Terminating thread" +:+ str_opt str thread_id)) ;;
  ret thread_id.

Definition usage_terminate : string :=
  "Invalid command" +:+ nl +:+ "Correct usage:```" +:+ nl +:+ "/terminate <user ID>```".

(** To terminate and totally delete the topic. *)
Definition handle_terminate (message : Message) : M unit :=
  if bool_decide (chat_id message = group_id) then
    parsed <-
      match message_thread_id message with
      | None =>
          match text message with
          | None => raise AttributeError
          | Some t =>
              let msg_split := split t in
              if bool_decide (length msg_split ≠ 2%nat) then
                reply_to env message usage_terminate [] ;;
                ret None
              else
                match int (default "" (msg_split !! 1%nat)) with
                | Some u => ret (Some (None, Some u))
                | None => raise ValueError
                end
          end
      | Some t => ret (Some (Some t, None))
      end ;;
    match parsed with
    | None => ret tt
    | Some (thread_id, user_id) =>
        if bool_decide (thread_id = Some 1) then
          reply_to env message (tr "Cannot terminate main thread") []
        else
          try_except
            (terminate_thread thread_id user_id ;;
             if bool_decide (message_thread_id message = None)
             then reply_to env message (tr "Thread terminated") []
             else ret tt)
            except_Exception
            (λ _, logger (LogError (tr "Failed to terminate the thread" +:+ str_opt str thread_id)) ;;
                  reply_to env message (tr "Failed to terminate the thread") [])
    end
  else ret tt.

Definition get_auto_response_help : string :=
  tr ("Invalid command" +:+ nl +:+
      "Correct usage:" +:+ nl +:+
      "`/auto_response set <key> <value> <topic_action(0/1)>`" +:+ nl +:+
      "`/auto_response delete <key>`" +:+ nl +:+
      "`/auto_response list`").

(** ["-" * 20]. *)
Definition dashes : string := "--------------------".

(** The text of [/auto_response list]: a heading, then one entry per row. *)
Definition auto_response_list (rows : list auto_response_row) : string :=
  foldl (λ content row,
           content +:+
           format (tr ("Trigger: {}" +:+ nl +:+ "Response: {}" +:+ nl +:+
                       "Forward message: {}" +:+ nl))
                  [a_key row; a_value row;
                   if bool_decide (a_topic_action row = 0) then tr "Disable" else tr "Enable"]
           +:+ dashes +:+ nl)
        (tr "Auto response list" +:+ nl +:+ dashes +:+ nl)
        rows.

(** [UPDATE auto_response SET value = ?, topic_action = ? WHERE key = ?]. *)
Definition update_auto_response (key value : string) (topic_action : Z)
    (rows : list auto_response_row) : list auto_response_row :=
  (λ r, if bool_decide (a_key r = key)
        then {| a_key := a_key r; a_value := value; a_topic_action := topic_action |}
        else r) <$> rows.

Definition manage_auto_response (message : Message) : M unit :=
  if bool_decide (chat_id message = group_id) then
    match text message with
    | None => raise AttributeError
    | Some t =>
        let msg_split := split t in
        if bool_decide (length msg_split < 2)%nat then
          reply_to env message get_auto_response_help []
        else
          with_connection
            (let operation := default "" (msg_split !! 1%nat) in
             if String.eqb operation "list" then
               w <- get ;;
               reply_to env message (auto_response_list (auto_response w)) []
             else if String.eqb operation "set" then
               if bool_decide (length msg_split ≠ 4%nat ∧ length msg_split ≠ 5%nat) then
                 reply_to env message get_auto_response_help []
               else
                 let key := default "" (msg_split !! 2%nat) in
                 let value := default "" (msg_split !! 3%nat) in
                 topic_action <-
                   (if bool_decide (length msg_split = 5%nat) then
                      match int (default "" (msg_split !! 4%nat)) with
                      | Some a => ret a
                      | None => raise ValueError
                      end
                    else ret 0) ;;
                 (* Check if key exists *)
                 w <- get ;;
                 match fetchone (λ r, a_key r = key) (auto_response w) with
                 | Some _ =>
                     bind_int topic_action ;;
                     modify (set_auto_response (update_auto_response key value topic_action))
                 | None =>
                     bind_int topic_action ;;
                     modify (set_auto_response
                               (λ rows, rows ++ [{| a_key := key; a_value := value;
                                                    a_topic_action := topic_action |}]))
                 end ;;
                 reply_to env message (tr "Auto response set") []
             else if String.eqb operation "delete" then
               if bool_decide (length msg_split ≠ 3%nat) then
                 reply_to env message get_auto_response_help []
               else
                 let key := default "" (msg_split !! 2%nat) in
                 modify (set_auto_response (delete_from (λ r, a_key r = key))) ;;
                 reply_to env message (tr "Auto response deleted") []
             else reply_to env message (tr "Invalid operation") [])
    end
  else ret tt.

End TGBot.
End TGBot.

(** * [src/handlers/command_handler.py]: class [CommandHandler] *)

Module CommandHandler.
Section CommandHandler.

Variable group_id : Z.
Variable tr : string → string.
Variable int : string → option Z.
Variable env : Env.

(** Check if message is in valid chat context. *)
Definition check_valid_chat (message : Message) : bool :=
  bool_decide (chat_id message = group_id ∧ message_thread_id message = None).

(** The keys of the lookup cache. *)
Definition chat_key (user_id : Z) : string := "chat_" +:+ str user_id +:+ "_threadid".
Definition thread_key (thread_id : Z) : string := "threadid_" +:+ str thread_id +:+ "_userid".

(** The head of [terminate_thread]: the lookup of the identifier that was
    not given and the deletion of the Topic.  It leaves in
    [(thread_id, user_id)] what the two Python variables hold when the test
    [if user_id and thread_id] is reached. *)
Definition resolve_topic (thread_id user_id : option Z) : M (option Z * option Z) :=
  match thread_id with
  | Some t =>
      w <- get ;;
      bind_id t (t_thread_id <$> topics w) ;;
      match fetchone (λ r, t_thread_id r = t) (topics w) with
      | Some row =>
          modify (set_topics (delete_from (λ r, t_thread_id r = t))) ;;
          ret (thread_id, Some (t_user_id row))
      | None => ret (thread_id, None)
      end
  | None =>
      match user_id with
      | Some u =>
          w <- get ;;
          bind_id u (t_user_id <$> topics w) ;;
          match fetchone (λ r, t_user_id r = u) (topics w) with
          | Some row =>
              modify (set_topics (delete_from (λ r, t_user_id r = u))) ;;
              ret (Some (t_thread_id row), user_id)
          | None => ret (None, user_id)
          end
      | None => ret (None, None)
      end
  end.

(** Terminate and delete a thread. *)
Definition terminate_thread (thread_id user_id : option Z) : M unit :=
  ids <- resolve_topic thread_id user_id ;;
  match ids with
  | (Some t, Some u) =>
      if bool_decide (u ≠ 0 ∧ t ≠ 0) then
        modify (set_cache (delete (chat_key u))) ;;
        modify (set_cache (delete (thread_key t))) ;;
        try_except
          (call env (DeleteForumTopic group_id (ThreadId t)))
          except_ApiTelegramException
          (λ _, pass) ;;
        modify (set_messages (delete_from (λ r, m_topic_id r = t)))
      else ret tt
  | _ => ret tt
  end ;;
  logger (LogInfo (tr "Terminating thread" +:+ str_opt str (fst ids))).

Definition usage_terminate : string :=
  "Invalid command" +:+ nl +:+ "Correct usage:```" +:+ nl +:+ "/terminate <user ID>```".

Definition confirm_button (thread_id user_id : option Z) : gmap string jval :=
  match thread_id with
  | Some t => <["action" := JStr "confirm_terminate"]> {["thread_id" := JInt t]}
  | None =>
      match user_id with
      | Some u => <["action" := JStr "confirm_terminate"]> {["user_id" := JInt u]}
      | None => {["action" := JStr "confirm_terminate"]}
      end
  end.

Definition cancel_button : gmap string jval := {["action" := JStr "cancel_terminate"]}.

Definition is_admin (status : string) : bool :=
  String.eqb status "administrator" || String.eqb status "creator".

(** Handle /terminate command. *)
Definition handle_terminate (message : Message) : M unit :=
  let not_admin :=
    call env (SendMessage (chat_id message)
                (tr "This command is only available to admin users.") NoThread) in
  if bool_decide (chat_id message = group_id) then
    call env (GetChatMember (chat_id message) (u_id (from_user message))) ;;
    if is_admin (member_status env (chat_id message) (u_id (from_user message))) then
      parsed <-
        match message_thread_id message with
        | None =>
            match text message with
            | None => raise AttributeError
            | Some t =>
                let msg_split := split t in
                if bool_decide (length msg_split ≠ 2%nat) then
                  reply_to env message usage_terminate [] ;;
                  ret None
                else
                  match int (default "" (msg_split !! 1%nat)) with
                  | Some u => ret (Some (None, Some u))
                  | None => raise ValueError
                  end
            end
        | Some t => ret (Some (Some t, None))
        end ;;
      match parsed with
      | None => ret tt
      | Some (thread_id, user_id) =>
          if bool_decide (thread_id = Some 1) then
            reply_to env message (tr "Cannot terminate main thread") []
          else
            reply_to env message (tr "Are you sure you want to terminate this thread?")
                     [confirm_button thread_id user_id; cancel_button]
      end
    else not_admin
  else not_admin.

(** Handle edited messages. *)
Definition handle_edit (message : Message) : M unit :=
  if check_valid_chat message then ret tt
  else
    w <- get ;;
    let in_group := bool_decide (chat_id message = group_id) in
    match fetchone (λ r, m_received_id r = message_id message ∧ m_in_group r = in_group)
                   (messages w) with
    | None => ret tt
    | Some result =>
        let topic_id := m_topic_id result in
        let forwarded_id := m_forwarded_id result in
        let edit_time := now env in
        match text message with
        | None => raise TypeError      (* None + str *)
        | Some t =>
            let edited_text :=
              t +:+ nl +:+ nl +:+ "(" +:+ tr "Edited at" +:+ " " +:+ edit_time +:+ ")" in
            if in_group then
              match fetchone (λ r, t_thread_id r = topic_id) (topics w) with
              | None => ret tt
              | Some row =>
                  if String.eqb (content_type message) "text" then
                    call env (EditMessageText edited_text (t_user_id row) forwarded_id)
                  else ret tt
              end
            else
              if String.eqb (content_type message) "text" then
                call env (EditMessageText edited_text group_id forwarded_id)
              else ret tt
        end
    end.

(** The Message Pair a reaction on [mid] belongs to and, of its two ids,
    the one that is not searched: [forwarded_id] is looked up first and
    yields [received_id], then [received_id] yields [forwarded_id]. *)
Definition reaction_pair (msgs : list messages_row) (mid : Z) : option (Z * Z) :=
  match fetchone (λ r, m_forwarded_id r = mid) msgs with
  | Some r => Some (m_topic_id r, m_received_id r)
  | None =>
      match fetchone (λ r, m_received_id r = mid) msgs with
      | Some r => Some (m_topic_id r, m_forwarded_id r)
      | None => None
      end
  end.

(** Handle message reactions. *)
Definition handle_reaction (message : Reaction) : M unit :=
  w <- get ;;
  match reaction_pair (messages w) (r_message_id message) with
  | None => ret tt
  | Some (topic_id, forwarded_id) =>
      let reaction := match last (new_reaction message) with
                      | Some r => [r]
                      | None => []
                      end in
      if bool_decide (r_chat_id message = group_id) then
        match fetchone (λ r, t_thread_id r = topic_id) (topics w) with
        | None => ret tt
        | Some row => call env (SetMessageReaction (t_user_id row) forwarded_id reaction)
        end
      else call env (SetMessageReaction group_id forwarded_id reaction)
  end.

(** Delete a forwarded message.  [bot.send_message(..., reply_to_message_id=m)]
    is the call [bot.reply_to] makes, without a keyboard.  The result of the
    first step tells whether the [with] block was left by its end, after
    which the replied message and the command are deleted, or by a
    [return]. *)
Definition delete_pair (message : Message) (msg_id : Z) : M bool :=
  let in_group := bool_decide (chat_id message = group_id) in
  w <- get ;;
  match fetchone (λ r, m_received_id r = msg_id ∧ m_in_group r = in_group) (messages w) with
  | None => ret false
  | Some result =>
      let topic_id := m_topic_id result in
      let forwarded_id := m_forwarded_id result in
      found <-
        (if in_group then
           match fetchone (λ r, t_thread_id r = topic_id) (topics w) with
           | None => ret false
           | Some row =>
               call env (DeleteMessage (t_user_id row) forwarded_id) ;;
               ret true
           end
         else
           call env (ReplyTo group_id forwarded_id
                       (tr "[Alert]" +:+ tr "Message deleted by user") []) ;;
           ret true) ;;
      if found : bool then
        (* Delete the message from the database *)
        modify (set_messages
                  (delete_from (λ r, m_received_id r = msg_id ∧ m_in_group r = in_group))) ;;
        ret true
      else ret false
  end.

Definition delete_message (message : Message) : M unit :=
  if check_valid_chat message then ret tt
  else
    match reply_to_message message with
    | None =>
        reply_to env message (tr "Please reply to the message you want to delete") []
    | Some msg_id =>
        finished <- delete_pair message msg_id ;;
        if finished : bool then
          (* Delete the current message *)
          call env (DeleteMessage (chat_id message) msg_id) ;;
          call env (DeleteMessage (chat_id message) (message_id message))
        else ret tt
    end.

End CommandHandler.
End CommandHandler.

(** * [src/handlers/callback_handler.py]: class [CallbackHandler] *)

Module CallbackHandler.
Section CallbackHandler.

Variable group_id : Z.
Variable tr : string → string.
Variable env : Env.

(** The collaborators that are reached from here and whose code is not
    looked into: the menus of [AdminHandler] (a method name, the query and
    the decoded payload), [CommandHandler.unban_user] with the [user_id]
    it is given, and the captcha side of the verify button. *)
Variable admin_handler : string → CallbackQuery → gmap string jval → M unit.
Variable unban_user : Message → jval → M unit.
Variable _handle_verify_button : CallbackQuery → gmap string jval → M unit.

(** [CommandHandler.terminate_thread] on a [thread_id] and a [user_id] of
    which the one that is looked up is a text.  Which rows of the id columns
    a text is equal to depends on the types the schema declares for them,
    and the schema is created by the migration scripts, which are not
    modelled; the keyboards of the bot carry integers. *)
Variable terminate_thread_text : option jval → option jval → M unit.

(** [json.loads(call.data)] and [data["action"]]. *)
Definition json_loads (d : callback_data) : M json :=
  match d with
  | DataNull => ret JNotObject
  | DataInvalid _ => raise JSONDecodeError
  | DataJson j => ret j
  end.

Definition subscript (j : json) (k : string) : M jval :=
  match j with
  | JObject fields =>
      match fields !! k with
      | Some v => ret v
      | None => raise KeyError
      end
  | JNotObject => raise TypeError
  end.

Definition fields_of (j : json) : gmap string jval :=
  match j with
  | JObject fields => fields
  | JNotObject => ∅
  end.

(** The reply of the actions that need an ["id"] and have none. *)
Definition invalid_action (query : CallbackQuery) : M unit :=
  call env (DeleteMessage group_id (message_id (c_message query))) ;;
  call env (SendMessage group_id (tr "Invalid action") NoThread).

Definition with_id (query : CallbackQuery) (payload : gmap string jval)
    (k : jval → M unit) : M unit :=
  match payload !! "id" with
  | None => invalid_action query
  | Some v => k v
  end.

(** The [confirm_terminate] case: [terminate_thread] is called with
    [data.get("thread_id")] and [data.get("user_id")].  A [user_id] is only
    looked at when there is no [thread_id]. *)
Definition confirm_terminate (payload : gmap string jval) : M unit :=
  let terminate_thread := CommandHandler.terminate_thread group_id tr env in
  let thread_id := payload !! "thread_id" in
  let user_id := payload !! "user_id" in
  try_except
    match thread_id, user_id with
    | Some (JInt t), Some (JInt u) => terminate_thread (Some t) (Some u)
    | Some (JInt t), _ => terminate_thread (Some t) None
    | Some (JStr _), _ => terminate_thread_text thread_id user_id
    | None, Some (JInt u) => terminate_thread None (Some u)
    | None, Some (JStr _) => terminate_thread_text thread_id user_id
    | None, None => terminate_thread None None
    end
    except_Exception
    (λ _, logger (LogError (tr "Failed to terminate the thread")) ;;
          call env (SendMessage group_id (tr "Failed to terminate the thread") NoThread)).

(** The action names [_handle_admin_callback] has a case for. *)
Definition known_actions : list string :=
  ["menu"; "auto_reply"; "set_auto_response_time"; "start_add_auto_reply";
   "add_auto_reply"; "manage_auto_reply"; "select_auto_reply";
   "delete_auto_reply"; "ban_user"; "unban_user"; "select_ban_user";
   "default_msg"; "edit_default_msg"; "empty_default_msg";
   "captcha_settings"; "set_captcha"; "broadcast_message";
   "confirm_broadcast"; "cancel_broadcast"; "time_zone_settings";
   "confirm_terminate"; "cancel_terminate"].

(** Handle admin callbacks.  The [match action] statement compares the
    value with each text in turn. *)
Definition _handle_admin_callback (query : CallbackQuery) (action : jval)
    (payload : gmap string jval) : M unit :=
  let case (name : string) : bool := bool_decide (action = JStr name) in
  if case "menu" then admin_handler "menu" query payload
  else if case "auto_reply" then admin_handler "auto_reply_menu" query payload
  else if case "set_auto_response_time" then
    admin_handler "handle_auto_response_time_callback" query payload
  else if case "start_add_auto_reply" then admin_handler "add_auto_response" query payload
  else if case "add_auto_reply" then admin_handler "process_add_auto_reply" query payload
  else if case "manage_auto_reply" then
    admin_handler "manage_auto_reply" query
      (<["page" := default (JInt 1) (payload !! "page")]> payload)
  else if case "select_auto_reply" then
    with_id query payload (λ _, admin_handler "select_auto_reply" query payload)
  else if case "delete_auto_reply" then
    with_id query payload (λ _, admin_handler "delete_auto_reply" query payload)
  else if case "ban_user" then admin_handler "manage_ban_user" query payload
  else if case "unban_user" then
    with_id query payload (λ v, unban_user (c_message query) v)
  else if case "select_ban_user" then
    with_id query payload (λ _, admin_handler "select_ban_user" query payload)
  else if case "default_msg" then admin_handler "default_msg_menu" query payload
  else if case "edit_default_msg" then admin_handler "edit_default_msg" query payload
  else if case "empty_default_msg" then admin_handler "empty_default_msg" query payload
  else if case "captcha_settings" then admin_handler "captcha_settings_menu" query payload
  else if case "set_captcha" then
    match payload !! "value" with
    | None => raise KeyError
    | Some _ => admin_handler "set_captcha" query payload
    end
  else if case "broadcast_message" then admin_handler "broadcast_message" query payload
  else if case "confirm_broadcast" then
    call env (DeleteMessage group_id (message_id (c_message query))) ;;
    admin_handler "confirm_broadcast_message" query payload
  else if case "cancel_broadcast" then
    call env (DeleteMessage group_id (message_id (c_message query))) ;;
    call env (SendMessage group_id (tr "Broadcast cancelled") NoThread) ;;
    admin_handler "cancel_broadcast" query payload
  else if case "time_zone_settings" then admin_handler "time_zone_settings_menu" query payload
  else if case "confirm_terminate" then confirm_terminate payload
  else if case "cancel_terminate" then
    call env (EditMessageText (tr "Operation cancelled")
                (chat_id (c_message query)) (message_id (c_message query)))
  else
    match action with
    | JStr name => logger (LogError (tr "Invalid action received" +:+ name))
    | JInt _ => raise TypeError      (* str + int in the log line *)
    end.

(** Main callback query handler. *)
Definition handle_callback_query (query : CallbackQuery) : M unit :=
  match data query with
  | DataNull => logger (LogError (tr "Invalid callback data received"))
  | d =>
      parsed <- try_except
        (j <- json_loads d ;;
         action <- subscript j "action" ;;
         ret (Some (j, action)))
        except_JSONDecodeError
        (λ _, logger (LogError (tr "Invalid JSON data received")) ;; ret None) ;;
      match parsed with
      | None => ret tt
      | Some (j, action) =>
          call env (AnswerCallbackQuery (c_id query)) ;;
          (* User end callbacks *)
          if bool_decide (action = JStr "verify_button") then
            _handle_verify_button query (fields_of j)
          (* Admin end callbacks *)
          else if bool_decide (chat_id (c_message query) ≠ group_id) then ret tt
          else _handle_admin_callback query action (fields_of j)
      end
  end.

End CallbackHandler.
End CallbackHandler.

(** * Auxiliary definitions for the statements *)

(** The [topics] table once [DELETE FROM topics] of a termination request
    has run. *)
Definition terminated_topics (thread_id user_id : option Z) (t : list topics_row) :=
  match thread_id, user_id with
  | Some T, _ => delete_from (λ r, t_thread_id r = T) t
  | None, Some u => delete_from (λ r, t_user_id r = u) t
  | None, None => t
  end.

(** The lookup of the reaction propagation in the order the specification
    words it, "search received first": [received_id], and [forwarded_id]
    on a miss.  It is not what [CommandHandler.reaction_pair] does and is
    only compared with it. *)
Definition reaction_pair_received_first (msgs : list messages_row) (mid : Z)
    : option (Z * Z) :=
  match fetchone (λ r, m_received_id r = mid) msgs with
  | Some r => Some (m_topic_id r, m_forwarded_id r)
  | None =>
      match fetchone (λ r, m_forwarded_id r = mid) msgs with
      | Some r => Some (m_topic_id r, m_received_id r)
      | None => None
      end
  end.

(** The actions of [_handle_admin_callback] that ask for an ["id"]. *)
Definition id_actions : list string :=
  ["select_auto_reply"; "delete_auto_reply"; "unban_user"; "select_ban_user"].

(** [[message.new_reaction[-1]] if message.new_reaction else []]. *)
Definition last_reaction (ev : Reaction) : list string :=
  match last (new_reaction ev) with
  | Some r => [r]
  | None => []
  end.

(** The invariants of the data model: one Topic per user, one rule per key. *)
Definition one_topic_per_user (rows : list topics_row) : Prop :=
  NoDup (t_user_id <$> rows).

Definition unique_keys (rows : list auto_response_row) : Prop :=
  NoDup (a_key <$> rows).

(** The id a termination request has [terminate_thread] look up: the thread
    when one is given, the user otherwise. *)
Definition looked_up (thread_id user_id : option Z) : option Z :=
  match thread_id with
  | Some t => Some t
  | None => user_id
  end.

(** The chat a call delivers a message to, for the calls that deliver one. *)
Definition recipient (c : Call) : option Z :=
  match c with
  | SendMessage chat _ _ | ReplyTo chat _ _ _ | ForwardMessage chat _ _ _
  | SendPhoto chat _ _ | SendSticker chat _ | SendVideo chat _ _
  | SendDocument chat _ _ => Some chat
  | _ => None
  end.

(** * Sample data

    A group, an environment in which the Bot API answers every call, and a
    few messages and stores, for the concrete runs below. *)

Module Sample.

Definition gid : Z := -1001.

(** gettext without a catalogue returns its argument. *)
Definition tr : string → string := λ s, s.

(** Decimal digits, as much of [int] as the runs below need. *)
Fixpoint digits (acc : Z) (s : string) : option Z :=
  match s with
  | EmptyString => Some acc
  | String c rest =>
      let n := Z.of_nat (Ascii.nat_of_ascii c) - 48 in
      if bool_decide (0 ≤ n ≤ 9) then digits (10 * acc + n) rest else None
  end.
Definition int (s : string) : option Z :=
  match s with
  | EmptyString => None
  | _ => digits 0 s
  end.

Definition quiet : Env :=
  {| raises := λ _, None;
     created_thread := 7;
     sent_message_id := λ _, 900;
     member_status := λ _ _, "administrator";
     now := "2024-05-01 12:00:00" |}.

(** The Bot API out of reach: every call raises [e]. *)
Definition down (e : exn) : Env :=
  {| raises := λ _, Some e;
     created_thread := 0;
     sent_message_id := λ _, 0;
     member_status := λ _ _, "";
     now := "" |}.

(** The Bot API with [delete_forum_topic] raising [e]. *)
Definition delete_raises (e : exn) : Env :=
  {| raises := λ c, match c with DeleteForumTopic _ _ => Some e | _ => None end;
     created_thread := 7;
     sent_message_id := λ _, 900;
     member_status := λ _ _, "administrator";
     now := "2024-05-01 12:00:00" |}.

Definition alice : User :=
  {| u_id := 42; first_name := "Alice"; last_name := None; username := Some "alice" |}.

Definition admin : User :=
  {| u_id := 1; first_name := "Op"; last_name := None; username := None |}.

Definition message_of (mid chat : Z) (sender : User) (thread : option Z)
    (kind : string) (txt : option string) : Message :=
  {| message_id := mid; chat_id := chat; from_user := sender;
     message_thread_id := thread; content_type := kind; text := txt;
     caption := None; photo := []; sticker := None; video := None;
     document := None; reply_to_message := None |}.

(** "hello" sent by Alice to the bot. *)
Definition hello : Message := message_of 10 42 alice None "text" (Some "hello").

(** A photo of Alice whose caption she has edited: no text. *)
Definition snapshot : Message :=
  {| message_id := 10; chat_id := 42; from_user := alice;
     message_thread_id := None; content_type := "photo"; text := None;
     caption := Some "a better caption"; photo := ["small"; "large"];
     sticker := None; video := None; document := None; reply_to_message := None |}.

(** A message that replies to the message [replied]. *)
Definition reply_of (mid chat : Z) (sender : User) (thread : option Z)
    (txt : string) (replied : Z) : Message :=
  {| message_id := mid; chat_id := chat; from_user := sender;
     message_thread_id := thread; content_type := "text"; text := Some txt;
     caption := None; photo := []; sticker := None; video := None;
     document := None; reply_to_message := Some replied |}.

Definition reaction_on (mid chat : Z) (reactions : list string) : Reaction :=
  {| r_message_id := mid; r_chat_id := chat; new_reaction := reactions |}.

(** A menu message of the bot in the group, and a callback on it. *)
Definition menu : Message := message_of 60 gid admin None "text" (Some "menu").

Definition query_of (d : callback_data) : CallbackQuery :=
  {| c_id := 500; data := d; c_message := menu |}.

(** Collaborators that do nothing. *)
Definition idle_admin_handler : string → CallbackQuery → gmap string jval → M unit :=
  λ _ _ _, ret tt.
Definition idle_unban_user : Message → jval → M unit := λ _ _, ret tt.
Definition idle_verify_button : CallbackQuery → gmap string jval → M unit := λ _ _, ret tt.
Definition idle_terminate_thread_text : option jval → option jval → M unit := λ _ _, ret tt.

Definition empty : World :=
  {| topics := []; messages := []; auto_response := []; cache := ∅;
     outbox := []; log := [] |}.

Definition store (t : list topics_row) (m : list messages_row)
    (a : list auto_response_row) (c : gmap string Z) : World :=
  {| topics := t; messages := m; auto_response := a; cache := c;
     outbox := []; log := [] |}.

Definition topic (user thread : Z) : topics_row :=
  {| t_user_id := user; t_thread_id := thread; t_ban := false |}.

Definition pair (received forwarded thread : Z) (in_group : bool) : messages_row :=
  {| m_received_id := received; m_forwarded_id := forwarded;
     m_topic_id := thread; m_in_group := in_group |}.

Definition rule (key value : string) (action : Z) : auto_response_row :=
  {| a_key := key; a_value := value; a_topic_action := action |}.

End Sample.

(** * Properties *)

(** ** Lookups and deletions on a table *)

Section Tables.
Context {R : Type} (P : R → Prop) `{∀ r, Decision (P r)}.

Lemma fetchone_Some (table : list R) (r : R) :
  fetchone P table = Some r → P r ∧ r ∈ table.
Proof.
  unfold fetchone. intros Hhead.
  apply head_Some_elem_of in Hhead.
  by apply list_elem_of_filter in Hhead.
Qed.

Lemma fetchone_None (table : list R) :
  fetchone P table = None ↔ ∀ r, r ∈ table → ¬ P r.
Proof.
  unfold fetchone. rewrite head_None. split.
  - intros Hnil r Hin HP. eapply filter_nil_not_elem_of; eauto.
  - intros Hall. induction table as [|x table IH]; [done|].
    rewrite filter_cons_False.
    + apply IH. intros r Hin. apply Hall. by right.
    + apply Hall. by left.
Qed.

Lemma fetchone_snoc_None (table : list R) (x : R) :
  fetchone P table = None → P x → fetchone P (table ++ [x]) = Some x.
Proof.
  unfold fetchone. rewrite head_None. intros Hnil HP.
  rewrite filter_app, Hnil. simpl. by rewrite filter_cons_True.
Qed.

Lemma fetchone_delete_from (table : list R) :
  fetchone P (delete_from P table) = None.
Proof.
  apply fetchone_None. intros r Hin. unfold delete_from in Hin.
  apply list_elem_of_filter in Hin. tauto.
Qed.

Lemma elem_of_delete_from (table : list R) (r : R) :
  r ∈ delete_from P table ↔ ¬ P r ∧ r ∈ table.
Proof. unfold delete_from. by rewrite list_elem_of_filter. Qed.

Lemma delete_from_id (table : list R) :
  (∀ r, r ∈ table → ¬ P r) → delete_from P table = table.
Proof.
  intros Hall. unfold delete_from.
  induction table as [|x table IH]; [done|].
  rewrite filter_cons_True by (apply Hall; by left).
  f_equal. apply IH. intros r Hin. apply Hall. by right.
Qed.
End Tables.

(** ** The binding of integers *)

Lemma bind_int_sqlite (n : Z) (w : World) :
  sqlite_int n → bind_int n w = (w, Returned ()).
Proof. intros Hn. unfold bind_int. by rewrite bool_decide_eq_true_2. Qed.

Lemma bind_int_overflow (n : Z) (w : World) :
  ¬ sqlite_int n → bind_int n w = (w, Raised OverflowError).
Proof. intros Hn. unfold bind_int. by rewrite bool_decide_eq_false_2. Qed.

(** An id that is found in the column is bound. *)
Lemma bind_id_found {R : Type} (f : R → Z) (rows : list R) (n : Z) (row : R) (w : World) :
  fetchone (λ r, f r = n) rows = Some row → bind_id n (f <$> rows) w = (w, Returned ()).
Proof.
  intros [Hn Hin]%fetchone_Some. unfold bind_id.
  rewrite bool_decide_eq_true_2; [done|].
  apply list_elem_of_fmap. by exists row.
Qed.

Lemma bind_id_sqlite (n : Z) (stored : list Z) (w : World) :
  sqlite_int n → bind_id n stored w = (w, Returned ()).
Proof. intros Hn. unfold bind_id. case_bool_decide; [done|]. by apply bind_int_sqlite. Qed.

Lemma bind_id_overflow {R : Type} (f : R → Z) (rows : list R) (n : Z) (w : World) :
  fetchone (λ r, f r = n) rows = None → ¬ sqlite_int n →
  bind_id n (f <$> rows) w = (w, Raised OverflowError).
Proof.
  intros Hnone Hn. unfold bind_id. rewrite bool_decide_eq_false_2.
  - by apply bind_int_overflow.
  - intros (r & Hr & Hin)%list_elem_of_fmap.
    by apply (proj1 (fetchone_None _ rows) Hnone r).
Qed.

(** The binding of an id leaves the world as it is, and raises only for an
    id that is out of range and matches no row. *)
Lemma bind_id_cases {R : Type} (f : R → Z) (rows : list R) (n : Z) (w : World) :
  bind_id n (f <$> rows) w = (w, Returned ()) ∨
  ¬ sqlite_int n ∧ fetchone (λ r, f r = n) rows = None ∧
  bind_id n (f <$> rows) w = (w, Raised OverflowError).
Proof.
  unfold bind_id, bind_int. case_bool_decide as Hin; [by left|].
  case_bool_decide as Hn; [by left|]. right. split; [done|]. split; [|done].
  apply fetchone_None. intros r Hr Heq. apply Hin.
  apply list_elem_of_fmap. by exists r.
Qed.

(** Unfolding of the monad in a goal about a run. *)
Ltac run :=
  unfold bind, ret, raise, get, modify, try_except, logger, call, pass, reply_to in *;
  simpl in *.

(** ** Thread resolution *)

Section Resolve.
Variable group_id : Z.
Variable tr : string → string.

Local Abbreviation resolve := (TGBot.resolve_or_create_thread group_id tr).
Local Abbreviation card := (TGBot.identity_card group_id tr).

(** A topic of the user is reused as it is: nothing is created, stored or
    sent. *)
Lemma resolve_reuses env message w row :
  fetchone (λ r, t_user_id r = u_id (from_user message)) (topics w) = Some row →
  resolve env message w = (w, Returned (Some (ThreadRow (t_thread_id row)))).
Proof.
  intros Hrow. unfold TGBot.resolve_or_create_thread. run. by rewrite Hrow.
Qed.

(** Without a topic, and with the Bot API answering, a forum thread is
    created, one row is stored and the card is sent and pinned. *)
Lemma resolve_creates env message w :
  let T := created_thread env in
  let create := CreateForumTopic group_id (first_name (from_user message)) in
  let pin := PinChatMessage group_id (sent_message_id env (card message (ThreadId T))) in
  fetchone (λ r, t_user_id r = u_id (from_user message)) (topics w) = None →
  raises env create = None →
  raises env (card message (ThreadId T)) = None →
  raises env pin = None →
  ∃ w1,
    resolve env message w = (w1, Returned (Some (ThreadId T))) ∧
    topics w1 = topics w ++ [{| t_user_id := u_id (from_user message);
                                t_thread_id := T; t_ban := false |}] ∧
    messages w1 = messages w ∧ auto_response w1 = auto_response w ∧
    cache w1 = cache w ∧
    outbox w1 = outbox w ++ [create; card message (ThreadId T); pin].
Proof.
  intros T create pin Hnone Hcreate Hcard Hpin.
  unfold TGBot.resolve_or_create_thread. run.
  rewrite Hnone. simpl. fold create. rewrite Hcreate. simpl.
  fold T. rewrite Hcard. simpl. fold pin. rewrite Hpin.
  eexists. split; [reflexivity|]. simpl.
  repeat split. by rewrite <- !app_assoc.
Qed.

(** When the creation fails nothing is stored and no thread comes back. *)
Lemma resolve_creation_failed env message w e :
  fetchone (λ r, t_user_id r = u_id (from_user message)) (topics w) = None →
  raises env (CreateForumTopic group_id (first_name (from_user message))) = Some e →
  ∃ w1,
    resolve env message w = (w1, Returned None) ∧
    topics w1 = topics w ∧ messages w1 = messages w ∧ cache w1 = cache w ∧
    outbox w1 = outbox w ++ [CreateForumTopic group_id (first_name (from_user message))].
Proof.
  intros Hnone Hcreate.
  unfold TGBot.resolve_or_create_thread. run.
  rewrite Hnone. simpl. rewrite Hcreate. simpl.
  eexists. split; [reflexivity|]. done.
Qed.

(** Whatever thread a run has returned, every later run returns it again
    from the store, and leaves the world as it is. *)
Lemma resolve_again env env' message w w1 a :
  resolve env message w = (w1, Returned (Some a)) →
  ∃ t, thread_of a = Some t ∧
       resolve env' message w1 = (w1, Returned (Some (ThreadRow t))).
Proof.
  unfold TGBot.resolve_or_create_thread. run.
  destruct (fetchone _ (topics w)) as [row|] eqn:Hrow.
  - intros [= <- <-]. exists (t_thread_id row). split; [done|].
    by rewrite Hrow.
  - simpl.
    destruct (raises env (CreateForumTopic _ _)); simpl; [done|].
    destruct (raises env (card _ _)); simpl; [done|].
    destruct (raises env (PinChatMessage _ _)); simpl; [done|].
    intros [= <- <-]. exists (created_thread env). split; [done|]. simpl.
    erewrite fetchone_snoc_None; [done|done|done].
Qed.
End Resolve.

(** ** Termination *)

Section Terminate.
Variable group_id : Z.
Variable tr : string → string.

Local Abbreviation terminate := (CommandHandler.terminate_thread group_id tr).

Lemma resolve_topic_topics thread_id user_id w :
  topics (CommandHandler.resolve_topic thread_id user_id w).1
  = terminated_topics thread_id user_id (topics w).
Proof.
  unfold CommandHandler.resolve_topic, terminated_topics. run.
  destruct thread_id as [T|]; [|destruct user_id as [u|]]; simpl; [| |done].
  - destruct (bind_id_cases t_thread_id (topics w) T w) as [->|(_ & Hnone & ->)]; simpl.
    + destruct (fetchone _ (topics w)) as [row|] eqn:Hrow; simpl; [done|].
      symmetry. apply delete_from_id. by apply (fetchone_None _ (topics w)).
    + symmetry. apply delete_from_id. by apply (fetchone_None _ (topics w)).
  - destruct (bind_id_cases t_user_id (topics w) u w) as [->|(_ & Hnone & ->)]; simpl.
    + destruct (fetchone _ (topics w)) as [row|] eqn:Hrow; simpl; [done|].
      symmetry. apply delete_from_id. by apply (fetchone_None _ (topics w)).
    + symmetry. apply delete_from_id. by apply (fetchone_None _ (topics w)).
Qed.

(** What is left of a run of [resolve_topic]: the world with the Topic rows
    of the request deleted, and the two ids or the exception of the
    binding. *)
Lemma resolve_topic_world thread_id user_id w :
  ∃ o, CommandHandler.resolve_topic thread_id user_id w
       = (set_topics (λ _, terminated_topics thread_id user_id (topics w)) w, o)
       ∨ CommandHandler.resolve_topic thread_id user_id w = (w, o).
Proof.
  unfold CommandHandler.resolve_topic, terminated_topics. run.
  destruct thread_id as [T|]; [|destruct user_id as [u|]]; simpl; [| |by eexists; right].
  - destruct (bind_id_cases t_thread_id (topics w) T w) as [->|(_ & _ & ->)]; simpl;
      [|by eexists; right].
    destruct (fetchone _ (topics w)); simpl; eexists; [by left|by right].
  - destruct (bind_id_cases t_user_id (topics w) u w) as [->|(_ & _ & ->)]; simpl;
      [|by eexists; right].
    destruct (fetchone _ (topics w)); simpl; eexists; [by left|by right].
Qed.

Lemma terminate_thread_topics env thread_id user_id w :
  topics (terminate env thread_id user_id w).1
  = terminated_topics thread_id user_id (topics w).
Proof.
  rewrite <- resolve_topic_topics.
  unfold CommandHandler.terminate_thread. run.
  destruct (CommandHandler.resolve_topic thread_id user_id w) as [w1 [[[t|] [u|]]|e]];
    simpl; try done.
  case_bool_decide; simpl; [|done].
  destruct (raises env _) as [e|]; simpl; [|done].
  unfold except_ApiTelegramException. by case_bool_decide.
Qed.

Lemma terminate_thread_auto_response env thread_id user_id w :
  auto_response (terminate env thread_id user_id w).1 = auto_response w.
Proof.
  unfold CommandHandler.terminate_thread. run.
  destruct (resolve_topic_world thread_id user_id w) as [o [->| ->]];
    destruct o as [[[t|] [u|]]|e]; simpl; try done;
    (case_bool_decide; simpl; [|done]);
    (destruct (raises env _) as [e|]; simpl; [|done]);
    unfold except_ApiTelegramException; by case_bool_decide.
Qed.

End Terminate.

(** C1. Repeated thread resolutions for a user return the same thread: a
    topics row of the user is reused as it is; only when there is none is a
    forum thread created, one row inserted, and the identity card posted in
    that thread and pinned: a message to the group, in the new thread, whose
    text gives the user id, the full name (first name, and last name when
    there is one) and the username (or "Not set").  A further resolution,
    whatever the Bot API answers then, returns the same thread from the
    store and changes nothing. *)
Theorem resolve_or_create_thread_idempotent
    (group_id : Z) (tr : string → string) (env env' : Env) (message : Message) (w : World) :
  let user := from_user message in
  let userid := u_id user in
  let T := created_thread env in
  let create := CreateForumTopic group_id (first_name user) in
  let surname := match last_name user with
                 | Some l => " " +:+ l
                 | None => ""
                 end in
  let name := match username user with
              | Some n => "@" +:+ n
              | None => tr "Not set"
              end in
  let card := SendMessage group_id
                ("User ID: " +:+ str userid +:+ nl +:+
                 "Full Name: " +:+ first_name user +:+ surname +:+ nl +:+
                 "Username: " +:+ name +:+ nl)
                (ThreadId T) in
  let pin := PinChatMessage group_id (sent_message_id env card) in
  (fetchone (λ r, t_user_id r = userid) (topics w) = None →
   raises env create = None ∧ raises env card = None ∧ raises env pin = None) →
  ∃ w1 a t,
    TGBot.resolve_or_create_thread group_id tr env message w = (w1, Returned (Some a)) ∧
    thread_of a = Some t ∧
    match fetchone (λ r, t_user_id r = userid) (topics w) with
    | Some row => t = t_thread_id row ∧ w1 = w
    | None =>
        t = T ∧
        topics w1 = topics w ++ [{| t_user_id := userid; t_thread_id := T; t_ban := false |}] ∧
        messages w1 = messages w ∧ auto_response w1 = auto_response w ∧
        cache w1 = cache w ∧
        outbox w1 = outbox w ++ [create; card; pin]
    end ∧
    TGBot.resolve_or_create_thread group_id tr env' message w1
      = (w1, Returned (Some (ThreadRow t))).
Proof.
  intros user userid T create surname name card pin Hapi.
  assert (Hcard_eq : TGBot.identity_card group_id tr message (ThreadId T) = card).
  { unfold TGBot.identity_card, card, name, surname, userid, user.
    by destruct (last_name _), (username _). }
  destruct (fetchone (λ r, t_user_id r = userid) (topics w)) as [row|] eqn:Hrow.
  - exists w, (ThreadRow (t_thread_id row)), (t_thread_id row).
    rewrite !(resolve_reuses _ _ _ _ _ row Hrow). done.
  - destruct Hapi as (Hcreate & Hcard & Hpin); [done|].
    rewrite <- Hcard_eq in Hcard. unfold pin in Hpin. rewrite <- Hcard_eq in Hpin.
    destruct (resolve_creates group_id tr env message w Hrow Hcreate Hcard Hpin)
      as (w1 & Hrun & Htopics & Hrest).
    destruct (resolve_again group_id tr env env' message w w1 _ Hrun)
      as (t & [= <-] & Hagain).
    exists w1, (ThreadId T), T. rewrite Hrun. unfold pin. rewrite <- Hcard_eq. done.
Qed.

Lemma resolve_or_create_thread_idempotent_witness :
  ∃ w1 a t,
    TGBot.resolve_or_create_thread Sample.gid Sample.tr Sample.quiet Sample.hello Sample.empty
      = (w1, Returned (Some a)) ∧
    thread_of a = Some t ∧
    (t = 7 ∧ topics w1 = [Sample.topic 42 7] ∧ messages w1 = [] ∧
     auto_response w1 = [] ∧ cache w1 = ∅ ∧
     outbox w1 =
       [CreateForumTopic Sample.gid "Alice";
        SendMessage Sample.gid
          ("User ID: 42" +:+ nl +:+ "Full Name: Alice" +:+ nl +:+ "Username: @alice" +:+ nl)
          (ThreadId 7);
        PinChatMessage Sample.gid 900]) ∧
    TGBot.resolve_or_create_thread Sample.gid Sample.tr (Sample.down ApiTelegramException)
      Sample.hello w1 = (w1, Returned (Some (ThreadRow t))).
Proof.
  apply (resolve_or_create_thread_idempotent Sample.gid Sample.tr Sample.quiet
           (Sample.down ApiTelegramException) Sample.hello Sample.empty).
  intros _. repeat split; reflexivity.
Defined.

(** C8, as the code has it.  Once the Topic [(u, T)] of a user has been
    terminated, by its thread or by its user, the next message of that user
    that is not stopped by an auto-response rule with [topic_action] 0 finds
    no Topic: with the Bot API answering, a forum thread is created, a fresh
    Topic is stored whose thread is the one just created, and the message is
    forwarded there.  That thread is not [T], as the Bot API gives a new
    forum thread an identifier of its own. *)
Theorem terminated_topic_is_not_reused
    (group_id : Z) (tr : string → string) (env0 env : Env)
    (message : Message) (w : World) (T : Z) (thread_id user_id : option Z) :
  let u := u_id (from_user message) in
  let T' := created_thread env in
  let create := CreateForumTopic group_id (first_name (from_user message)) in
  let card := TGBot.identity_card group_id tr message (ThreadId T') in
  let pin := PinChatMessage group_id (sent_message_id env card) in
  let forward := ForwardMessage group_id (chat_id message) (ThreadId T') (message_id message) in
  let w1 := (CommandHandler.terminate_thread group_id tr env0 thread_id user_id w).1 in
  let run := TGBot.handle_messages group_id tr env message w1 in
  (* a message of the user that passes the auto-response gate *)
  chat_id message ≠ group_id →
  (∀ rule, fetchone (λ r, Some (a_key r) = text message) (auto_response w) = Some rule →
           a_topic_action rule ≠ 0) →
  (* the Topic of the user is T, and it is the only one *)
  (∃ row, row ∈ topics w ∧ t_user_id row = u ∧ t_thread_id row = T) →
  (∀ row, row ∈ topics w → t_user_id row = u → t_thread_id row = T) →
  (* it is terminated by thread or by user *)
  (thread_id = Some T ∧ user_id = None) ∨ (thread_id = None ∧ user_id = Some u) →
  (* the Bot API answers, and creates a thread of its own *)
  (∀ c, raises env c = None) →
  T' ≠ T →
  (∀ row, row ∈ topics w1 → t_user_id row ≠ u) ∧
  run.2 = Returned () ∧
  topics run.1 = topics w1 ++ [{| t_user_id := u; t_thread_id := T'; t_ban := false |}] ∧
  (∃ pre post, outbox run.1 = outbox w1 ++ pre ++ [create; card; pin; forward] ++ post) ∧
  (∀ row, row ∈ topics run.1 → t_user_id row = u → t_thread_id row = T' ∧ t_thread_id row ≠ T).
Proof.
  intros u T' create card pin forward w1 run Hchat Hgate _ Honly Hrequest Hapi Hfresh.
  assert (Hgone : ∀ row, row ∈ topics w1 → t_user_id row ≠ u).
  { intros row. unfold w1. rewrite terminate_thread_topics.
    destruct Hrequest as [[-> ->]|[-> ->]]; simpl;
      rewrite elem_of_delete_from; intros [Hkept Hin] Hu; [|done].
    apply Hkept. by apply Honly. }
  split; [done|].
  assert (Hrules : auto_response w1 = auto_response w)
    by apply terminate_thread_auto_response.
  assert (Hrun : run.2 = Returned () ∧
            topics run.1 = topics w1 ++ [{| t_user_id := u; t_thread_id := T'; t_ban := false |}] ∧
            ∃ pre post, outbox run.1 = outbox w1 ++ pre ++ [create; card; pin; forward] ++ post).
  { unfold run, TGBot.handle_messages. clear run. clearbody w1. unfold u in *.
    rewrite bool_decide_eq_false_2 by tauto.
    rewrite bool_decide_eq_true_2 by done.
    unfold TGBot.forward_to_group, TGBot.resolve_or_create_thread.
    run. rewrite Hrules.
    destruct (fetchone _ (auto_response w)) as [rule|] eqn:Hrule.
    - rewrite bool_decide_eq_false_2 by (by apply Hgate).
      run.
      destruct (fetchone _ (topics w1)) as [row|] eqn:Hrow;
        [apply fetchone_Some in Hrow as [Hu Hin]; by destruct (Hgone row Hin)|].
      simpl.
      repeat (rewrite ?Hapi; simpl).
      split; [done|]. split; [done|].
      exists [SendMessage (chat_id message) (a_value rule) NoThread],
        [SendMessage group_id (tr "[Auto Response]" +:+ a_value rule) (ThreadId T')].
      by rewrite <- !app_assoc.
    - run.
      destruct (fetchone _ (topics w1)) as [row|] eqn:Hrow;
        [apply fetchone_Some in Hrow as [Hu Hin]; by destruct (Hgone row Hin)|].
      simpl. repeat (rewrite ?Hapi; simpl).
      split; [done|]. split; [done|].
      exists [], []. by rewrite <- !app_assoc. }
  destruct Hrun as (Hreturn & Htopics & Hsent).
  split; [done|]. split; [done|]. split; [done|].
  intros row Hin Hu.
  rewrite Htopics, elem_of_app, list_elem_of_singleton in Hin.
  destruct Hin as [Hin| ->]; [|done]. by destruct (Hgone row Hin).
Qed.

Lemma terminated_topic_is_not_reused_witness :
  let w := Sample.store [Sample.topic 42 5] [Sample.pair 10 20 5 false] [] ∅ in
  let w1 := (CommandHandler.terminate_thread Sample.gid Sample.tr Sample.quiet
               (Some 5) None w).1 in
  let run := TGBot.handle_messages Sample.gid Sample.tr Sample.quiet Sample.hello w1 in
  topics w1 = [] ∧ run.2 = Returned () ∧ topics run.1 = [Sample.topic 42 7].
Proof.
  intros w w1 run.
  destruct (terminated_topic_is_not_reused Sample.gid Sample.tr Sample.quiet Sample.quiet
              Sample.hello w 5 (Some 5) None)
    as (_ & Hreturn & Htopics & _).
  - vm_compute. discriminate.
  - intros rule Hrule. discriminate Hrule.
  - exists (Sample.topic 42 5). split; [by left|done].
  - intros row Hin _. apply list_elem_of_singleton in Hin. by subst.
  - by left.
  - reflexivity.
  - simpl. lia.
  - split; [reflexivity|]. split; [exact Hreturn|exact Htopics].
Defined.

(** C8 fails as stated for a message that an auto-response rule answers in
    full: after the termination of her Topic, the "hello" of Alice gets the
    response of the rule, and no Topic is created for her. *)
Lemma answered_message_creates_no_topic :
  let w := Sample.store [Sample.topic 42 5] [] [Sample.rule "hello" "hi there" 0] ∅ in
  let w1 := (CommandHandler.terminate_thread Sample.gid Sample.tr Sample.quiet
               (Some 5) None w).1 in
  let run := TGBot.handle_messages Sample.gid Sample.tr Sample.quiet Sample.hello w1 in
  topics w1 = [] ∧ run.2 = Returned () ∧ topics run.1 = [] ∧
  outbox run.1 = [DeleteForumTopic Sample.gid (ThreadId 5);
                  SendMessage 42 "hi there" NoThread].
Proof. vm_compute. repeat split. Qed.

(** C2. A message of a user whose text is the key of an auto-response rule is
    first answered with the value of the rule.  With [topic_action] 0 that
    is all: nothing is forwarded and the store is left alone.  With another
    [topic_action], and the Bot API answering, the message is forwarded to
    the thread of the user (created first when there is none) and the
    response, behind the "[Auto Response]" tag, is posted in that thread. *)
Theorem auto_response_gate
    (group_id : Z) (tr : string → string) (env : Env) (message : Message) (w : World)
    (rule : auto_response_row) :
  let T := created_thread env in
  let create := CreateForumTopic group_id (first_name (from_user message)) in
  let card := TGBot.identity_card group_id tr message (ThreadId T) in
  let pin := PinChatMessage group_id (sent_message_id env card) in
  let reply := SendMessage (chat_id message) (a_value rule) NoThread in
  let forward thread :=
    ForwardMessage group_id (chat_id message) thread (message_id message) in
  let echo thread :=
    SendMessage group_id (tr "[Auto Response]" +:+ a_value rule) thread in
  let run := TGBot.handle_messages group_id tr env message w in
  chat_id message ≠ group_id →
  fetchone (λ r, Some (a_key r) = text message) (auto_response w) = Some rule →
  (a_topic_action rule ≠ 0 → ∀ c, raises env c = None) →
  if decide (a_topic_action rule = 0) then
    outbox run.1 = outbox w ++ [reply] ∧
    topics run.1 = topics w ∧ messages run.1 = messages w ∧ cache run.1 = cache w
  else
    run.2 = Returned tt ∧
    match fetchone (λ r, t_user_id r = u_id (from_user message)) (topics w) with
    | Some row =>
        outbox run.1 = outbox w ++ [reply; forward (ThreadRow (t_thread_id row));
                                    echo (ThreadRow (t_thread_id row))]
    | None =>
        outbox run.1 = outbox w ++ [reply; create; card; pin; forward (ThreadId T);
                                    echo (ThreadId T)]
    end.
Proof.
  intros T create card pin reply forward echo run Hchat Hrule Hapi.
  unfold run, TGBot.handle_messages. clear run.
  rewrite bool_decide_eq_false_2 by tauto.
  rewrite bool_decide_eq_true_2 by done.
  run. rewrite Hrule.
  destruct (decide (a_topic_action rule = 0)) as [Hzero|Hnonzero].
  - rewrite bool_decide_eq_true_2 by done.
    by destruct (raises env _).
  - rewrite bool_decide_eq_false_2 by done.
    specialize (Hapi Hnonzero).
    unfold TGBot.forward_to_group, TGBot.resolve_or_create_thread.
    rewrite bool_decide_eq_false_2 by done.
    run. rewrite !Hapi. simpl.
    destruct (fetchone _ (topics w)) as [row|]; simpl;
      repeat (rewrite ?Hapi; simpl);
      (split; [done|]); by rewrite <- !app_assoc.
Qed.

Lemma auto_response_gate_witness :
  let silent := Sample.store [Sample.topic 42 5] [] [Sample.rule "hello" "hi there" 0] ∅ in
  let relayed := Sample.store [Sample.topic 42 5] [] [Sample.rule "hello" "hi there" 1] ∅ in
  outbox (TGBot.handle_messages Sample.gid Sample.tr Sample.quiet Sample.hello silent).1
    = [SendMessage 42 "hi there" NoThread] ∧
  outbox (TGBot.handle_messages Sample.gid Sample.tr Sample.quiet Sample.hello relayed).1
    = [SendMessage 42 "hi there" NoThread;
       ForwardMessage Sample.gid 42 (ThreadRow 5) 10;
       SendMessage Sample.gid "[Auto Response]hi there" (ThreadRow 5)].
Proof.
  intros silent relayed. split.
  - apply (auto_response_gate Sample.gid Sample.tr Sample.quiet Sample.hello silent
             (Sample.rule "hello" "hi there" 0)).
    + vm_compute. discriminate.
    + reflexivity.
    + intros _ c. reflexivity.
  - apply (auto_response_gate Sample.gid Sample.tr Sample.quiet Sample.hello relayed
             (Sample.rule "hello" "hi there" 1)).
    + vm_compute. discriminate.
    + reflexivity.
    + intros _ c. reflexivity.
Defined.

(** C10. A message posted in a thread of the group that no topics row knows
    is forwarded nowhere and changes no row: whatever the Bot API answers,
    the store is as before and the only calls made are the
    "Chat not found, please remove this topic manually" notice to that
    thread and the closing of that thread; both are made, in this order,
    when the notice goes through. *)
Theorem orphan_thread_is_closed
    (group_id : Z) (tr : string → string) (env : Env) (message : Message) (w : World)
    (thread : Z) :
  let notice := SendMessage group_id (tr "Chat not found, please remove this topic manually")
                            (ThreadId thread) in
  let close := CloseForumTopic group_id (ThreadId thread) in
  let run := TGBot.handle_messages group_id tr env message w in
  chat_id message = group_id →
  message_thread_id message = Some thread →
  (∀ row, row ∈ topics w → t_thread_id row ≠ thread) →
  topics run.1 = topics w ∧ messages run.1 = messages w ∧
  auto_response run.1 = auto_response w ∧ cache run.1 = cache w ∧
  (∃ sent, outbox run.1 = outbox w ++ sent ∧ ∀ c, c ∈ sent → c = notice ∨ c = close) ∧
  (raises env notice = None → outbox run.1 = outbox w ++ [notice; close]).
Proof.
  intros notice close run Hchat Hthread Hnone.
  assert (Hmiss : fetchone (λ r, Some (t_thread_id r) = message_thread_id message)
                    (topics w) = None).
  { apply fetchone_None. intros row Hin. rewrite Hthread. intros [= Heq].
    by apply (Hnone row). }
  unfold run, TGBot.handle_messages, TGBot.forward_to_user. clear run.
  rewrite bool_decide_eq_false_2 by (rewrite Hthread; intros [? _]; done).
  rewrite bool_decide_eq_false_2 by tauto.
  run. rewrite Hmiss, Hthread. simpl. fold notice close.
  destruct (raises env notice) as [e|]; simpl.
  - do 4 (split; [done|]). split; [|done].
    exists [notice]. split; [done|]. intros c Hc%list_elem_of_singleton. by left.
  - assert (Hsent : ∀ c, c ∈ [notice; close] → c = notice ∨ c = close).
    { intros c Hc. apply elem_of_cons in Hc as [->|Hc]; [by left|].
      apply list_elem_of_singleton in Hc. by right. }
    destruct (raises env close); simpl; rewrite <- app_assoc;
      do 4 (split; [done|]); (split; [|done]); by exists [notice; close].
Qed.

Lemma orphan_thread_is_closed_witness :
  let orphan := Sample.message_of 31 Sample.gid Sample.admin (Some 9) "text" (Some "anyone?") in
  let w := Sample.store [Sample.topic 42 5] [Sample.pair 10 20 5 false] [] ∅ in
  let run := TGBot.handle_messages Sample.gid Sample.tr Sample.quiet orphan w in
  topics run.1 = [Sample.topic 42 5] ∧
  messages run.1 = [Sample.pair 10 20 5 false] ∧
  outbox run.1 =
    [SendMessage Sample.gid "Chat not found, please remove this topic manually" (ThreadId 9);
     CloseForumTopic Sample.gid (ThreadId 9)].
Proof.
  intros orphan w run.
  destruct (orphan_thread_is_closed Sample.gid Sample.tr Sample.quiet orphan w 9)
    as (Htopics & Hmessages & _ & _ & _ & Hsent).
  - reflexivity.
  - reflexivity.
  - intros row Hin%list_elem_of_singleton. subst row. simpl. lia.
  - split; [exact Htopics|]. split; [exact Hmessages|]. apply Hsent. reflexivity.
Defined.

(** C4. A /terminate command sent in the group whose thread is 1 is
    answered with "Cannot terminate main thread", by [TGBot.handle_terminate]
    and, for an administrator, by [CommandHandler.handle_terminate]; neither
    handler touches the topics, the message pairs, the auto-responses or the
    cache, whatever the Bot API answers. *)
Theorem main_thread_is_not_terminated
    (group_id : Z) (tr : string → string) (int : string → option Z) (env : Env)
    (message : Message) (w : World) :
  let refusal := ReplyTo (chat_id message) (message_id message)
                         (tr "Cannot terminate main thread") [] in
  let member := GetChatMember (chat_id message) (u_id (from_user message)) in
  let old := TGBot.handle_terminate group_id tr int env message w in
  let new := CommandHandler.handle_terminate group_id tr int env message w in
  chat_id message = group_id →
  message_thread_id message = Some 1 →
  (outbox old.1 = outbox w ++ [refusal] ∧
   topics old.1 = topics w ∧ messages old.1 = messages w ∧
   auto_response old.1 = auto_response w ∧ cache old.1 = cache w) ∧
  (topics new.1 = topics w ∧ messages new.1 = messages w ∧
   auto_response new.1 = auto_response w ∧ cache new.1 = cache w) ∧
  (raises env member = None →
   CommandHandler.is_admin
     (member_status env (chat_id message) (u_id (from_user message))) = true →
   outbox new.1 = outbox w ++ [member; refusal]).
Proof.
  intros refusal member old new Hchat Hthread.
  unfold old, new, TGBot.handle_terminate, CommandHandler.handle_terminate.
  clear old new.
  rewrite !bool_decide_eq_true_2 by done.
  rewrite Hthread. run. fold member refusal.
  split; [by destruct (raises env refusal)|].
  split.
  - destruct (raises env member); simpl; [done|].
    destruct (CommandHandler.is_admin _); simpl.
    + by destruct (raises env refusal).
    + done.
  - intros -> ->. simpl. rewrite <- app_assoc.
    by destruct (raises env refusal).
Qed.

Lemma main_thread_is_not_terminated_witness :
  let command := Sample.message_of 77 Sample.gid Sample.admin (Some 1) "text"
                                   (Some "/terminate") in
  let w := Sample.store [Sample.topic 42 1] [Sample.pair 10 20 1 false] [] ∅ in
  let refusal := ReplyTo Sample.gid 77 "Cannot terminate main thread" [] in
  let old := TGBot.handle_terminate Sample.gid Sample.tr Sample.int Sample.quiet command w in
  let new := CommandHandler.handle_terminate Sample.gid Sample.tr Sample.int Sample.quiet
               command w in
  (outbox old.1 = [refusal] ∧ topics old.1 = [Sample.topic 42 1]) ∧
  (outbox new.1 = [GetChatMember Sample.gid 1; refusal] ∧ topics new.1 = [Sample.topic 42 1]).
Proof.
  intros command w refusal old new.
  destruct (main_thread_is_not_terminated Sample.gid Sample.tr Sample.int Sample.quiet
              command w) as ((Hsent & Htopics & _) & (Htopics' & _) & Hsent').
  - reflexivity.
  - reflexivity.
  - split; [split; [exact Hsent|exact Htopics]|].
    split; [|exact Htopics']. apply Hsent'; reflexivity.
Defined.

(** C3, as the code has it.  For a request that names the thread or the user
    of a Topic [(u, t)] with both ids different from 0,
    [CommandHandler.terminate_thread] deletes the Topic rows of the request,
    invalidates the two cache keys and attempts the remote deletion once.
    When that call returns or raises [ApiTelegramException] the Message
    Pairs of [t] are deleted and the handler returns; any other exception
    leaves the handler with the pairs still stored.
    [TGBot.terminate_thread] deletes the Topic rows and attempts the remote
    deletion in the same way, and leaves pairs and cache as they are. *)
Theorem terminate_thread_deletes
    (group_id : Z) (tr : string → string) (env : Env) (w : World)
    (thread_id user_id : option Z) (t u : Z) :
  let remote := DeleteForumTopic group_id (ThreadId t) in
  let run := CommandHandler.terminate_thread group_id tr env thread_id user_id w in
  let old := TGBot.terminate_thread group_id tr env thread_id user_id w in
  let swallowed := raises env remote = None ∨ raises env remote = Some ApiTelegramException in
  (thread_id = Some t ∧ user_id = None ∧
   ∃ row, fetchone (λ r, t_thread_id r = t) (topics w) = Some row ∧ t_user_id row = u) ∨
  (thread_id = None ∧ user_id = Some u ∧
   ∃ row, fetchone (λ r, t_user_id r = u) (topics w) = Some row ∧ t_thread_id row = t) →
  u ≠ 0 → t ≠ 0 →
  (topics run.1 = terminated_topics thread_id user_id (topics w) ∧
   cache run.1 = delete (CommandHandler.thread_key t)
                   (delete (CommandHandler.chat_key u) (cache w)) ∧
   cache run.1 !! CommandHandler.chat_key u = None ∧
   cache run.1 !! CommandHandler.thread_key t = None ∧
   outbox run.1 = outbox w ++ [remote] ∧
   (swallowed →
    run.2 = Returned () ∧
    messages run.1 = delete_from (λ r, m_topic_id r = t) (messages w)) ∧
   (∀ e, raises env remote = Some e → e ≠ ApiTelegramException →
    run.2 = Raised e ∧ messages run.1 = messages w)) ∧
  (topics old.1 = terminated_topics thread_id user_id (topics w) ∧
   messages old.1 = messages w ∧ cache old.1 = cache w ∧
   outbox old.1 = outbox w ++ [remote] ∧
   (swallowed → old.2 = Returned (Some t)) ∧
   (∀ e, raises env remote = Some e → e ≠ ApiTelegramException → old.2 = Raised e)).
Proof.
  intros remote run old swallowed Hrequest Hu Ht.
  assert (Hcache : ∀ c : gmap string Z,
             delete (CommandHandler.thread_key t) (delete (CommandHandler.chat_key u) c)
               !! CommandHandler.chat_key u = None ∧
             delete (CommandHandler.thread_key t) (delete (CommandHandler.chat_key u) c)
               !! CommandHandler.thread_key t = None).
  { intros c. split; [|by rewrite lookup_delete_eq].
    rewrite lookup_delete. case_decide; [done|]. by rewrite lookup_delete_eq. }
  unfold swallowed, run, old, CommandHandler.terminate_thread, CommandHandler.resolve_topic,
    TGBot.terminate_thread.
  clear swallowed run old.
  destruct Hrequest as [(-> & -> & row & Hrow & <-)|(-> & -> & row & Hrow & <-)];
    run; rewrite !(bind_id_found _ _ _ _ _ Hrow); simpl; rewrite Hrow; simpl; fold remote;
    rewrite bool_decide_eq_true_2 by done; simpl;
    unfold except_ApiTelegramException;
    (destruct (raises env remote) as [e|]; simpl; [case_bool_decide; simpl|]);
    (split; [split; [done|]; split; [done|]; split; [apply Hcache|];
             split; [apply Hcache|]; split; [done|]
            |do 4 (split; [done|])]);
    (split; [intros [?|?]; simplify_eq; done | intros ? ? ?; simplify_eq; done]).
Qed.

Lemma terminate_thread_deletes_witness :
  let w := Sample.store [Sample.topic 42 5; Sample.topic 43 6]
             [Sample.pair 10 20 5 false; Sample.pair 11 21 6 false] []
             {["chat_42_threadid" := 5; "threadid_5_userid" := 42; "chat_43_threadid" := 6]} in
  let run := CommandHandler.terminate_thread Sample.gid Sample.tr
               (Sample.delete_raises ApiTelegramException) (Some 5) None w in
  run.2 = Returned () ∧
  topics run.1 = [Sample.topic 43 6] ∧
  messages run.1 = [Sample.pair 11 21 6 false] ∧
  cache run.1 = {["chat_43_threadid" := 6]} ∧
  outbox run.1 = [DeleteForumTopic Sample.gid (ThreadId 5)].
Proof.
  intros w run.
  destruct (terminate_thread_deletes Sample.gid Sample.tr
              (Sample.delete_raises ApiTelegramException) w (Some 5) None 5 42)
    as ((Htopics & Hcache & _ & _ & Hsent & Hswallowed & _) & _).
  - left. split; [reflexivity|]. split; [reflexivity|].
    exists (Sample.topic 42 5). split; reflexivity.
  - lia.
  - lia.
  - destruct Hswallowed as [Hreturn Hmessages]; [right; reflexivity|].
    split; [exact Hreturn|]. split; [exact Htopics|]. split; [exact Hmessages|].
    split; [|exact Hsent]. etrans; [exact Hcache|]. vm_compute. reflexivity.
Defined.

(** C3 fails as stated, in two ways.  When the remote deletion raises
    another exception than [ApiTelegramException] the handler is left while
    the pairs of the thread are still stored; and a Topic whose user id is 0
    is deleted without its pairs, without the cache and without a remote
    deletion. *)
Lemma terminate_thread_failure_not_swallowed :
  let cached : gmap string Z := {["chat_42_threadid" := 5; "threadid_5_userid" := 42]} in
  let w := Sample.store [Sample.topic 42 5] [Sample.pair 10 20 5 false] [] cached in
  let run := CommandHandler.terminate_thread Sample.gid Sample.tr
               (Sample.delete_raises (OtherException "ReadTimeout")) (Some 5) None w in
  let w0 := Sample.store [Sample.topic 0 5] [Sample.pair 10 20 5 false] []
              {["chat_0_threadid" := 5]} in
  let run0 := CommandHandler.terminate_thread Sample.gid Sample.tr Sample.quiet
                (Some 5) None w0 in
  (run.2 = Raised (OtherException "ReadTimeout") ∧
   topics run.1 = [] ∧
   messages run.1 = [Sample.pair 10 20 5 false]) ∧
  (run0.2 = Returned () ∧
   topics run0.1 = [] ∧
   messages run0.1 = [Sample.pair 10 20 5 false] ∧
   cache run0.1 !! "chat_0_threadid" = Some 5 ∧
   outbox run0.1 = []).
Proof. vm_compute. repeat split. Qed.

(** ** Edits *)

Section Edit.
Variable group_id : Z.
Variable tr : string → string.
Variable env : Env.

Local Abbreviation handle_edit := (CommandHandler.handle_edit group_id tr env).

(** The Message Pair of an edited message: [received_id] is its id and
    [in_group] tells whether it was sent in the group. *)
Local Abbreviation origin_pair message :=
  (fetchone (λ r, m_received_id r = message_id message ∧
                  m_in_group r = bool_decide (chat_id message = group_id))).

(** The text that replaces the counterpart of an edited message. *)
Local Abbreviation edited t :=
  (t +:+ nl +:+ nl +:+ "(" +:+ tr "Edited at" +:+ " " +:+ now env +:+ ")").

(** The edit of a text by its user rewrites the copy in the group. *)
Lemma handle_edit_user_text message w pair t :
  chat_id message ≠ group_id →
  origin_pair message (messages w) = Some pair →
  text message = Some t → content_type message = "text" →
  (handle_edit message w).1
  = set_outbox (λ o, o ++ [EditMessageText (edited t) group_id (m_forwarded_id pair)]) w.
Proof.
  intros Hchat Hpair Htext Hkind.
  unfold CommandHandler.handle_edit, CommandHandler.check_valid_chat.
  rewrite bool_decide_eq_false_2 by tauto.
  run. rewrite Hpair, Htext, Hkind. simpl.
  by rewrite bool_decide_eq_false_2.
Qed.

(** The edit of a text in a thread of the group rewrites the copy held by
    the user of the Topic. *)
Lemma handle_edit_group_text message w pair row t :
  chat_id message = group_id → message_thread_id message ≠ None →
  origin_pair message (messages w) = Some pair →
  fetchone (λ r, t_thread_id r = m_topic_id pair) (topics w) = Some row →
  text message = Some t → content_type message = "text" →
  (handle_edit message w).1
  = set_outbox (λ o, o ++ [EditMessageText (edited t) (t_user_id row) (m_forwarded_id pair)]) w.
Proof.
  intros Hchat Hthread Hpair Hrow Htext Hkind.
  unfold CommandHandler.handle_edit, CommandHandler.check_valid_chat.
  rewrite bool_decide_eq_false_2 by tauto.
  run. rewrite Hpair, Htext, Hkind. simpl.
  rewrite bool_decide_eq_true_2 by done. by rewrite Hrow.
Qed.

(** Without a Message Pair, and in the group without the Topic of the pair,
    nothing happens. *)
Lemma handle_edit_miss message w :
  origin_pair message (messages w) = None ∨
  (chat_id message = group_id ∧ is_Some (text message) ∧
   ∃ pair, origin_pair message (messages w) = Some pair ∧
           fetchone (λ r, t_thread_id r = m_topic_id pair) (topics w) = None) →
  handle_edit message w = (w, Returned ()).
Proof.
  intros Hmiss. unfold CommandHandler.handle_edit.
  destruct (CommandHandler.check_valid_chat _ _); [done|]. run.
  destruct Hmiss as [-> | (Hchat & [t Htext] & pair & -> & Hrow)]; [done|].
  rewrite Htext. rewrite bool_decide_eq_true_2 by done. by rewrite Hrow.
Qed.

End Edit.

(** C5, where the code departs from it.  An edited message that has a
    Message Pair and no text (a photo, a video, a document or a sticker: its
    [content_type] is not "text") makes [handle_edit] raise [TypeError]:
    the new text is built from [message.text] before the content type is
    looked at.  Nothing is sent and nothing is stored. *)
Theorem handle_edit_without_text_raises
    (group_id : Z) (tr : string → string) (env : Env) (message : Message) (w : World)
    (pair : messages_row) :
  CommandHandler.check_valid_chat group_id message = false →
  fetchone (λ r, m_received_id r = message_id message ∧
                 m_in_group r = bool_decide (chat_id message = group_id))
           (messages w) = Some pair →
  text message = None →
  CommandHandler.handle_edit group_id tr env message w = (w, Raised TypeError).
Proof.
  intros Hvalid Hpair Htext. unfold CommandHandler.handle_edit.
  rewrite Hvalid. run. by rewrite Hpair, Htext.
Qed.

Lemma handle_edit_without_text_raises_witness :
  let w := Sample.store [Sample.topic 42 5] [Sample.pair 10 20 5 false] [] ∅ in
  content_type Sample.snapshot ≠ "text" ∧
  CommandHandler.handle_edit Sample.gid Sample.tr Sample.quiet Sample.snapshot w
    = (w, Raised TypeError).
Proof.
  intros w. split; [discriminate|].
  apply (handle_edit_without_text_raises Sample.gid Sample.tr Sample.quiet Sample.snapshot w
           (Sample.pair 10 20 5 false)); reflexivity.
Defined.

(** ** Reactions *)

Section React.
Variable group_id : Z.
Variable env : Env.

Local Abbreviation handle_reaction := (CommandHandler.handle_reaction group_id env).

(** What [handle_reaction] does once the pair lookup has answered: in a user
    chat the reaction goes to the group, in the group to the user of the
    Topic of the pair, and nowhere when that Topic is missing. *)
Lemma handle_reaction_found ev w topic_id counterpart :
  CommandHandler.reaction_pair (messages w) (r_message_id ev) = Some (topic_id, counterpart) →
  handle_reaction ev w =
    if bool_decide (r_chat_id ev = group_id) then
      match fetchone (λ r, t_thread_id r = topic_id) (topics w) with
      | Some row => call env (SetMessageReaction (t_user_id row) counterpart (last_reaction ev)) w
      | None => (w, Returned ())
      end
    else call env (SetMessageReaction group_id counterpart (last_reaction ev)) w.
Proof.
  intros Hpair. unfold CommandHandler.handle_reaction. run. rewrite Hpair.
  case_bool_decide; [|done]. by destruct (fetchone _ (topics w)).
Qed.

Lemma handle_reaction_not_found ev w :
  CommandHandler.reaction_pair (messages w) (r_message_id ev) = None →
  handle_reaction ev w = (w, Returned ()).
Proof. intros Hpair. unfold CommandHandler.handle_reaction. run. by rewrite Hpair. Qed.

End React.

(** C6, as the code has it.  The pair of a reaction is the first row whose
    [forwarded_id] is the id of the event or, when there is none, the first
    row whose [received_id] is; the reaction goes to the other id of that
    pair, in the group for an event of a user chat and in the chat of the
    Topic's user for an event of the group, and it is the last reaction of
    the event or none.  Nothing happens when no row matches on either
    column, nor for an event of the group whose pair has lost its Topic. *)
Theorem reaction_reaches_counterpart
    (group_id : Z) (env : Env) (ev : Reaction) (w : World) :
  let mid := r_message_id ev in
  let run := CommandHandler.handle_reaction group_id env ev w in
  (∀ p chat,
     fetchone (λ r, m_forwarded_id r = mid) (messages w) = Some p ∨
     (fetchone (λ r, m_forwarded_id r = mid) (messages w) = None ∧
      fetchone (λ r, m_received_id r = mid) (messages w) = Some p) →
     (r_chat_id ev ≠ group_id ∧ chat = group_id) ∨
     (r_chat_id ev = group_id ∧
      ∃ row, fetchone (λ r, t_thread_id r = m_topic_id p) (topics w) = Some row ∧
             chat = t_user_id row) →
     let counterpart :=
       if decide (m_forwarded_id p = mid) then m_received_id p else m_forwarded_id p in
     p ∈ messages w ∧
     run.1 = set_outbox (λ o, o ++ [SetMessageReaction chat counterpart (last_reaction ev)]) w) ∧
  ((∀ p, p ∈ messages w → m_forwarded_id p ≠ mid ∧ m_received_id p ≠ mid) →
   run = (w, Returned ())) ∧
  (∀ topic_id counterpart,
     CommandHandler.reaction_pair (messages w) mid = Some (topic_id, counterpart) →
     r_chat_id ev = group_id →
     (∀ row, row ∈ topics w → t_thread_id row ≠ topic_id) →
     run = (w, Returned ())).
Proof.
  intros mid run. unfold run. clear run. split; [|split].
  - intros p chat Hfound Hchat.
    set (counterpart := if decide (m_forwarded_id p = mid) then _ else _).
    assert (Hpair : CommandHandler.reaction_pair (messages w) mid
                    = Some (m_topic_id p, counterpart) ∧ p ∈ messages w).
    { unfold CommandHandler.reaction_pair, counterpart.
      destruct Hfound as [Hfwd|[Hfwd Hrcv]]; rewrite Hfwd.
      - apply fetchone_Some in Hfwd as [Hid Hin]. by rewrite decide_True.
      - rewrite Hrcv. apply fetchone_Some in Hrcv as [Hid Hin].
        rewrite decide_False; [done|].
        by apply (proj1 (fetchone_None _ (messages w)) Hfwd p). }
    destruct Hpair as [Hpair Hin]. split; [done|].
    rewrite (handle_reaction_found _ _ _ _ _ _ Hpair).
    destruct Hchat as [[Hchat ->]|(Hchat & row & Hrow & ->)].
    + by rewrite bool_decide_eq_false_2.
    + rewrite bool_decide_eq_true_2 by done. by rewrite Hrow.
  - intros Hnone. apply handle_reaction_not_found.
    unfold CommandHandler.reaction_pair.
    rewrite (proj2 (fetchone_None (λ r, m_forwarded_id r = mid) (messages w)))
      by (intros p Hin; by apply Hnone).
    rewrite (proj2 (fetchone_None (λ r, m_received_id r = mid) (messages w)))
      by (intros p Hin; by apply Hnone).
    done.
  - intros topic_id counterpart Hpair Hchat Hnone.
    rewrite (handle_reaction_found _ _ _ _ _ _ Hpair).
    rewrite bool_decide_eq_true_2 by done.
    rewrite (proj2 (fetchone_None (λ r, t_thread_id r = topic_id) (topics w))); [done|].
    intros row Hin. by apply Hnone.
Qed.

Lemma reaction_reaches_counterpart_witness :
  let w := Sample.store [Sample.topic 42 5] [Sample.pair 10 20 5 false] [] ∅ in
  let in_group := Sample.reaction_on 20 Sample.gid ["+1"; "heart"] in
  let in_chat := Sample.reaction_on 10 42 [] in
  (CommandHandler.handle_reaction Sample.gid Sample.quiet in_group w).1
    = set_outbox (λ o, o ++ [SetMessageReaction 42 10 ["heart"]]) w ∧
  (CommandHandler.handle_reaction Sample.gid Sample.quiet in_chat w).1
    = set_outbox (λ o, o ++ [SetMessageReaction Sample.gid 20 []]) w.
Proof.
  intros w in_group in_chat. split.
  - apply (proj1 (reaction_reaches_counterpart Sample.gid Sample.quiet in_group w)
             (Sample.pair 10 20 5 false) 42).
    + left. reflexivity.
    + right. split; [reflexivity|]. exists (Sample.topic 42 5). split; reflexivity.
  - apply (proj1 (reaction_reaches_counterpart Sample.gid Sample.quiet in_chat w)
             (Sample.pair 10 20 5 false) Sample.gid).
    + right. split; reflexivity.
    + left. split; [|reflexivity]. vm_compute. discriminate.
Defined.

(** C6 fails as stated for an event of the group whose pair has no Topic
    left.  The store below is the one [CommandHandler.terminate_thread]
    leaves when the remote deletion ends in a time-out: the Topic is gone,
    its pair is not.  A reaction in the group on the forwarded copy matches
    that pair by [forwarded_id], and nothing is set. *)
Lemma reaction_without_topic_is_dropped :
  let before := Sample.store [Sample.topic 42 5] [Sample.pair 10 20 5 false] [] ∅ in
  let w := (CommandHandler.terminate_thread Sample.gid Sample.tr
              (Sample.delete_raises (OtherException "ReadTimeout")) (Some 5) None before).1 in
  let ev := Sample.reaction_on 20 Sample.gid ["+1"] in
  Sample.pair 10 20 5 false ∈ messages w ∧
  m_forwarded_id (Sample.pair 10 20 5 false) = r_message_id ev ∧
  CommandHandler.handle_reaction Sample.gid Sample.quiet ev w = (w, Returned ()).
Proof.
  intros before w ev. split; [|split].
  - vm_compute. left.
  - reflexivity.
  - vm_compute. reflexivity.
Qed.

(** C7, as the code has it.  For a reaction whose id is the [received_id]
    of a row, the lookup by [forwarded_id] comes first: when it has a match
    that row is the one used, and the reaction goes to its [received_id];
    the row matched by [received_id] is used, and the reaction goes to its
    [forwarded_id], only when no row matches by [forwarded_id]. *)
Theorem reaction_forwarded_id_wins
    (group_id : Z) (env : Env) (ev : Reaction) (w : World) (q : messages_row) :
  let mid := r_message_id ev in
  let run := CommandHandler.handle_reaction group_id env ev w in
  let reaches (used : messages_row) (target : Z) :=
    CommandHandler.reaction_pair (messages w) mid = Some (m_topic_id used, target) ∧
    ∀ chat,
      (r_chat_id ev ≠ group_id ∧ chat = group_id) ∨
      (r_chat_id ev = group_id ∧
       ∃ row, fetchone (λ r, t_thread_id r = m_topic_id used) (topics w) = Some row ∧
              chat = t_user_id row) →
      run.1 = set_outbox (λ o, o ++ [SetMessageReaction chat target (last_reaction ev)]) w in
  fetchone (λ r, m_received_id r = mid) (messages w) = Some q →
  match fetchone (λ r, m_forwarded_id r = mid) (messages w) with
  | Some p => reaches p (m_received_id p)
  | None => reaches q (m_forwarded_id q)
  end.
Proof.
  intros mid run reaches Hrcv.
  assert (Hreaches : ∀ used target,
            CommandHandler.reaction_pair (messages w) mid = Some (m_topic_id used, target) →
            reaches used target).
  { intros used target Hpair. split; [done|]. intros chat Hchat.
    unfold run. rewrite (handle_reaction_found _ _ _ _ _ _ Hpair).
    destruct Hchat as [[Hchat ->]|(Hchat & row & Hrow & ->)].
    - by rewrite bool_decide_eq_false_2.
    - rewrite bool_decide_eq_true_2 by done. by rewrite Hrow. }
  destruct (fetchone (λ r, m_forwarded_id r = mid) (messages w)) as [p|] eqn:Hfwd;
    apply Hreaches; unfold CommandHandler.reaction_pair; rewrite Hfwd; [done|].
  by rewrite Hrcv.
Qed.

Lemma reaction_forwarded_id_wins_witness :
  let msgs := [Sample.pair 7 100 5 false; Sample.pair 50 7 6 true] in
  let w := Sample.store [Sample.topic 42 5; Sample.topic 43 6] msgs [] ∅ in
  let ev := Sample.reaction_on 7 42 ["+1"] in
  CommandHandler.reaction_pair msgs 7 = Some (6, 50) ∧
  (CommandHandler.handle_reaction Sample.gid Sample.quiet ev w).1
    = set_outbox (λ o, o ++ [SetMessageReaction Sample.gid 50 ["+1"]]) w.
Proof.
  intros msgs w ev.
  destruct (reaction_forwarded_id_wins Sample.gid Sample.quiet ev w
              (Sample.pair 7 100 5 false)) as [Hpair Hrun].
  - reflexivity.
  - split; [exact Hpair|]. apply Hrun.
    left. split; [|reflexivity]. vm_compute. discriminate.
Defined.

(** C7 fails as stated: with a row received as 7 and another row forwarded
    as 7, "received first" would answer the first row and its copy 100; the
    handler answers the second row and sets the reaction on message 50. *)
Lemma reaction_received_id_does_not_win :
  let msgs := [Sample.pair 7 100 5 false; Sample.pair 50 7 6 true] in
  let w := Sample.store [Sample.topic 42 5; Sample.topic 43 6] msgs [] ∅ in
  let ev := Sample.reaction_on 7 42 ["+1"] in
  reaction_pair_received_first msgs 7 = Some (5, 100) ∧
  CommandHandler.reaction_pair msgs 7 = Some (6, 50) ∧
  CommandHandler.reaction_pair msgs 7 ≠ reaction_pair_received_first msgs 7 ∧
  outbox (CommandHandler.handle_reaction Sample.gid Sample.quiet ev w).1
    = [SetMessageReaction Sample.gid 50 ["+1"]].
Proof. vm_compute. repeat split. discriminate. Qed.

(** ** Callbacks *)

(** C9, as the code has it.  A payload that is the text "null" or that is
    not JSON is logged and dropped: no call is made.  In the group, and once
    the query is answered, an action name without a case is logged and
    nothing else happens, and one of the four actions that ask for an "id"
    and come without it has the menu message deleted and "Invalid action"
    sent to the group. *)
Theorem callback_unknown_or_malformed
    (group_id : Z) (tr : string → string) (env : Env)
    (admin_handler : string → CallbackQuery → gmap string jval → M unit)
    (unban_user : Message → jval → M unit)
    (verify_button : CallbackQuery → gmap string jval → M unit)
    (terminate_thread_text : option jval → option jval → M unit)
    (query : CallbackQuery) (w : World) :
  let run := CallbackHandler.handle_callback_query group_id tr env admin_handler unban_user
               verify_button terminate_thread_text query w in
  let answer := AnswerCallbackQuery (c_id query) in
  let delete_menu := DeleteMessage group_id (message_id (c_message query)) in
  let invalid := SendMessage group_id (tr "Invalid action") NoThread in
  (data query = DataNull →
   run = (set_log (λ l, l ++ [LogError (tr "Invalid callback data received")]) w,
          Returned ())) ∧
  (∀ s, data query = DataInvalid s →
   run = (set_log (λ l, l ++ [LogError (tr "Invalid JSON data received")]) w,
          Returned ())) ∧
  (∀ payload name,
     data query = DataJson (JObject payload) →
     payload !! "action" = Some (JStr name) →
     chat_id (c_message query) = group_id →
     raises env answer = None →
     (name ∉ CallbackHandler.known_actions → name ≠ "verify_button" →
      run = (set_log (λ l, l ++ [LogError (tr "Invalid action received" +:+ name)])
               (set_outbox (λ o, o ++ [answer]) w),
             Returned ())) ∧
     (name ∈ id_actions → payload !! "id" = None →
      raises env delete_menu = None → raises env invalid = None →
      run = (set_outbox (λ o, o ++ [answer; delete_menu; invalid]) w, Returned ()))).
Proof.
  intros run answer delete_menu invalid.
  unfold run, CallbackHandler.handle_callback_query. clear run.
  split; [|split].
  - by intros ->.
  - intros s ->. by run.
  - intros payload name -> Haction Hchat Hanswer.
    unfold CallbackHandler.json_loads, CallbackHandler.subscript. run.
    rewrite Haction. simpl. fold answer. rewrite Hanswer.
    rewrite (bool_decide_eq_false_2 (chat_id (c_message query) ≠ group_id)) by tauto.
    unfold CallbackHandler._handle_admin_callback. split.
    + intros Hunknown Hverify. unfold CallbackHandler.known_actions in Hunknown.
      rewrite !not_elem_of_cons in Hunknown. destruct_and!.
      rewrite !bool_decide_eq_false_2 by congruence. by run.
    + intros Hid Hmissing Hdelete Hinvalid. unfold id_actions in Hid.
      rewrite !elem_of_cons in Hid.
      unfold CallbackHandler.with_id, CallbackHandler.invalid_action.
      destruct Hid as [->|[->|[->|[->|Hid]]]]; [| | | |by apply elem_of_nil in Hid];
        simpl; rewrite Hmissing; run; fold delete_menu invalid;
        rewrite Hdelete; simpl; rewrite Hinvalid; simpl;
        unfold set_outbox; simpl; by rewrite <- !app_assoc.
Qed.

Lemma callback_unknown_or_malformed_witness :
  let handle := CallbackHandler.handle_callback_query Sample.gid Sample.tr Sample.quiet
                  Sample.idle_admin_handler Sample.idle_unban_user
                  Sample.idle_verify_button
                  Sample.idle_terminate_thread_text in
  let unknown := Sample.query_of (DataJson (JObject {["action" := JStr "frobnicate"]})) in
  let no_id := Sample.query_of (DataJson (JObject {["action" := JStr "unban_user"]})) in
  handle unknown Sample.empty
    = (set_log (λ l, l ++ [LogError "Invalid action receivedfrobnicate"])
         (set_outbox (λ o, o ++ [AnswerCallbackQuery 500]) Sample.empty),
       Returned ()) ∧
  handle no_id Sample.empty
    = (set_outbox (λ o, o ++ [AnswerCallbackQuery 500; DeleteMessage Sample.gid 60;
                              SendMessage Sample.gid "Invalid action" NoThread])
         Sample.empty,
       Returned ()).
Proof.
  intros handle unknown no_id. split.
  - destruct (callback_unknown_or_malformed Sample.gid Sample.tr Sample.quiet
                Sample.idle_admin_handler Sample.idle_unban_user Sample.idle_verify_button
                Sample.idle_terminate_thread_text
                unknown Sample.empty) as (_ & _ & Hobject).
    apply (Hobject {["action" := JStr "frobnicate"]} "frobnicate");
      try reflexivity.
    + vm_compute. intros Hin.
      repeat (apply elem_of_cons in Hin as [Heq|Hin]; [discriminate Heq|]).
      by apply elem_of_nil in Hin.
    + discriminate.
  - destruct (callback_unknown_or_malformed Sample.gid Sample.tr Sample.quiet
                Sample.idle_admin_handler Sample.idle_unban_user Sample.idle_verify_button
                Sample.idle_terminate_thread_text
                no_id Sample.empty) as (_ & _ & Hobject).
    apply (Hobject {["action" := JStr "unban_user"]} "unban_user");
      try reflexivity.
    vm_compute. do 2 right. left.
Defined.

(** C9 fails as stated: a payload that is not JSON is logged and no reply is
    sent; a JSON object without an "action", and a "set_captcha" without its
    "value", end in [KeyError], again without the "Invalid action" reply. *)
Lemma malformed_payload_gets_no_reply :
  let handle := CallbackHandler.handle_callback_query Sample.gid Sample.tr Sample.quiet
                  Sample.idle_admin_handler Sample.idle_unban_user
                  Sample.idle_verify_button
                  Sample.idle_terminate_thread_text in
  let not_json := Sample.query_of (DataInvalid "{oops") in
  let no_action := Sample.query_of (DataJson (JObject {["id" := JInt 3]})) in
  let no_value := Sample.query_of (DataJson (JObject {["action" := JStr "set_captcha"]})) in
  (handle not_json Sample.empty).2 = Returned () ∧
  outbox (handle not_json Sample.empty).1 = [] ∧
  log (handle not_json Sample.empty).1 = [LogError "Invalid JSON data received"] ∧
  handle no_action Sample.empty = (Sample.empty, Raised KeyError) ∧
  (handle no_value Sample.empty).2 = Raised KeyError ∧
  outbox (handle no_value Sample.empty).1 = [AnswerCallbackQuery 500].
Proof. vm_compute. repeat split. Qed.

(** * Further properties of the handlers *)

(** ** Auto-response rules: [TGBot.manage_auto_response] *)

Lemma fetchone_update_auto_response key value action rows row :
  fetchone (λ r, a_key r = key) rows = Some row →
  fetchone (λ r, a_key r = key) (TGBot.update_auto_response key value action rows)
  = Some {| a_key := key; a_value := value; a_topic_action := action |}.
Proof.
  unfold fetchone, TGBot.update_auto_response.
  induction rows as [|r rows IH]; [done|]. simpl.
  destruct (decide (a_key r = key)) as [Hkey|Hkey].
  - intros _. rewrite bool_decide_eq_true_2 by done.
    rewrite filter_cons_True by done. simpl. by rewrite Hkey.
  - rewrite bool_decide_eq_false_2 by done.
    rewrite !filter_cons_False by done. apply IH.
Qed.

Lemma keys_update_auto_response key value action rows :
  a_key <$> TGBot.update_auto_response key value action rows = a_key <$> rows.
Proof.
  unfold TGBot.update_auto_response. rewrite <- list_fmap_compose.
  apply list_fmap_ext. intros i r _. simpl. by case_bool_decide.
Qed.

Lemma others_update_auto_response key value action rows :
  filter (λ r, a_key r ≠ key) (TGBot.update_auto_response key value action rows)
  = filter (λ r, a_key r ≠ key) rows.
Proof.
  unfold TGBot.update_auto_response.
  induction rows as [|r rows IH]; [done|]. simpl.
  case_bool_decide as Hkey.
  - rewrite !filter_cons_False by (simpl; tauto). apply IH.
  - rewrite !filter_cons_True by done. f_equal. apply IH.
Qed.

Lemma unique_keys_delete_from (P : auto_response_row → Prop) `{∀ r, Decision (P r)} rows :
  unique_keys rows → unique_keys (delete_from P rows).
Proof.
  unfold unique_keys, delete_from.
  induction rows as [|r rows IH]; [done|]. simpl.
  rewrite NoDup_cons. intros [Hnew Hrest].
  destruct (decide (¬ P r)).
  - rewrite filter_cons_True by done. simpl. apply NoDup_cons. split; [|by apply IH].
    intros Hin. apply Hnew.
    apply list_elem_of_fmap in Hin as (r' & -> & Hin').
    apply list_elem_of_filter in Hin' as [_ Hin'].
    apply list_elem_of_fmap. by exists r'.
  - rewrite filter_cons_False by done. by apply IH.
Qed.

Lemma fetchone_key_None key rows :
  fetchone (λ r, a_key r = key) rows = None → key ∉ a_key <$> rows.
Proof.
  intros Hnone Hin. apply list_elem_of_fmap in Hin as (r & -> & Hin).
  by apply (proj1 (fetchone_None _ rows) Hnone r).
Qed.

Lemma fetchone_key_text key rows :
  fetchone (λ r, Some (a_key r) = Some key) rows = fetchone (λ r, a_key r = key) rows.
Proof.
  unfold fetchone. f_equal. apply list_filter_iff. intros r. split; [by intros [= ->]|by intros ->].
Qed.

(** The run of an acknowledged [/auto_response set]. *)
Lemma manage_auto_response_set_run
    (group_id : Z) (tr : string → string) (int : string → option Z) (env : Env)
    (message : Message) (w : World) (t cmd key value : string)
    (given : option string) (action : Z) :
  chat_id message = group_id →
  text message = Some t →
  split t = [cmd; "set"; key; value] ++ option_list given →
  match given with Some a => int a = Some action | None => action = 0 end →
  sqlite_int action →
  raises env (ReplyTo (chat_id message) (message_id message) (tr "Auto response set") []) = None →
  TGBot.manage_auto_response group_id tr int env message w
  = (set_outbox (λ o, o ++ [ReplyTo (chat_id message) (message_id message)
                                    (tr "Auto response set") []])
       (set_auto_response
          (match fetchone (λ r, a_key r = key) (auto_response w) with
           | Some _ => TGBot.update_auto_response key value action
           | None => λ rows, rows ++ [{| a_key := key; a_value := value;
                                         a_topic_action := action |}]
           end) w),
     Returned ()).
Proof.
  intros Hchat Htext Hsplit Haction Hint Hreply.
  unfold TGBot.manage_auto_response, with_connection.
  rewrite bool_decide_eq_true_2, Htext, Hsplit by done.
  assert (Hstep : ∀ k : Z → M (),
            bind (match given with
                  | Some a => match int a with Some n => ret n | None => raise ValueError end
                  | None => ret 0
                  end) k = k action).
  { intros k. destruct given as [a|]; rewrite Haction; done. }
  destruct given as [a|]; simpl; rewrite Hstep; run;
    destruct (fetchone (λ r, a_key r = key) (auto_response w)); simpl;
    rewrite bind_int_sqlite by done; simpl; by rewrite Hreply.
Qed.

(** The run of an [/auto_response set] whose action sqlite cannot store:
    the binding raises, and the [with] block is left with the tables it
    found. *)
Lemma manage_auto_response_set_overflow
    (group_id : Z) (tr : string → string) (int : string → option Z) (env : Env)
    (message : Message) (w : World) (t cmd key value : string)
    (given : option string) (action : Z) :
  chat_id message = group_id →
  text message = Some t →
  split t = [cmd; "set"; key; value] ++ option_list given →
  match given with Some a => int a = Some action | None => action = 0 end →
  ¬ sqlite_int action →
  TGBot.manage_auto_response group_id tr int env message w = (w, Raised OverflowError).
Proof.
  intros Hchat Htext Hsplit Haction Hint.
  unfold TGBot.manage_auto_response, with_connection.
  rewrite bool_decide_eq_true_2, Htext, Hsplit by done.
  assert (Hstep : ∀ k : Z → M (),
            bind (match given with
                  | Some a => match int a with Some n => ret n | None => raise ValueError end
                  | None => ret 0
                  end) k = k action).
  { intros k. destruct given as [a|]; rewrite Haction; done. }
  destruct given as [a|]; simpl; rewrite Hstep; run;
    destruct (fetchone (λ r, a_key r = key) (auto_response w)); simpl;
    rewrite bind_int_overflow by done; simpl; unfold rollback; by destruct w.
Qed.

(** X1. [/auto_response set <key> <value> [topic_action]] sent in the group,
    for an action that sqlite can store (a 64-bit signed integer; 0 when
    none is given) and once acknowledged, stores the rule so that a lookup
    by the key answers the value and the action given: the rows of the key
    are rewritten where they stand when the key is known, one row is added
    at the end when it is not, and the rows of other keys are as before.
    An action out of that range is refused when it is bound
    ([OverflowError]): nothing is stored and nothing is sent. *)
Theorem auto_response_set_then_lookup
    (group_id : Z) (tr : string → string) (int : string → option Z) (env : Env)
    (message : Message) (w : World) (t cmd key value : string)
    (given : option string) (action : Z) :
  let run := TGBot.manage_auto_response group_id tr int env message w in
  let keys := a_key <$> auto_response w in
  chat_id message = group_id →
  text message = Some t →
  split t = [cmd; "set"; key; value] ++ option_list given →
  match given with Some a => int a = Some action | None => action = 0 end →
  (sqlite_int action →
   raises env (ReplyTo (chat_id message) (message_id message) (tr "Auto response set") [])
     = None →
   run.2 = Returned () ∧
   fetchone (λ r, a_key r = key) (auto_response run.1)
     = Some {| a_key := key; a_value := value; a_topic_action := action |} ∧
   filter (λ r, a_key r ≠ key) (auto_response run.1)
     = filter (λ r, a_key r ≠ key) (auto_response w) ∧
   a_key <$> auto_response run.1 = (if decide (key ∈ keys) then keys else keys ++ [key])) ∧
  (¬ sqlite_int action → run = (w, Raised OverflowError)).
Proof.
  intros run keys Hchat Htext Hsplit Haction. split.
  - intros Hint Hreply. unfold run.
    rewrite (manage_auto_response_set_run _ _ _ _ _ _ _ _ _ _ _ _
               Hchat Htext Hsplit Haction Hint Hreply).
    simpl. split; [done|].
    destruct (fetchone (λ r, a_key r = key) (auto_response w)) as [row|] eqn:Hrow.
    + split; [by eapply fetchone_update_auto_response|].
      split; [apply others_update_auto_response|].
      rewrite keys_update_auto_response. rewrite decide_True; [done|].
      apply fetchone_Some in Hrow as [<- Hin]. apply list_elem_of_fmap. by exists row.
    + split; [by apply fetchone_snoc_None|]. split.
      * rewrite filter_app, filter_cons_False, filter_nil by (simpl; tauto).
        by rewrite app_nil_r.
      * rewrite fmap_app. simpl. rewrite decide_False; [done|].
        by apply fetchone_key_None.
  - intros Hint. unfold run.
    by rewrite (manage_auto_response_set_overflow _ _ _ _ _ _ _ _ _ _ _ _
                  Hchat Htext Hsplit Haction Hint).
Qed.

Lemma auto_response_set_then_lookup_witness :
  let w := Sample.store [] [] [Sample.rule "hello" "old" 0; Sample.rule "bye" "ciao" 0] ∅ in
  let command := Sample.message_of 80 Sample.gid Sample.admin None "text"
                   (Some "/auto_response set hello hi 1") in
  let too_large := Sample.message_of 82 Sample.gid Sample.admin None "text"
                     (Some "/auto_response set hello hi 9223372036854775808") in
  let run := TGBot.manage_auto_response Sample.gid Sample.tr Sample.int Sample.quiet command w in
  (run.2 = Returned () ∧
   fetchone (λ r, a_key r = "hello") (auto_response run.1) = Some (Sample.rule "hello" "hi" 1) ∧
   a_key <$> auto_response run.1 = ["hello"; "bye"]) ∧
  TGBot.manage_auto_response Sample.gid Sample.tr Sample.int Sample.quiet too_large w
    = (w, Raised OverflowError).
Proof.
  intros w command too_large run. split.
  - destruct (auto_response_set_then_lookup Sample.gid Sample.tr Sample.int Sample.quiet
                command w "/auto_response set hello hi 1" "/auto_response" "hello" "hi"
                (Some "1") 1) as [Hstored _];
      [reflexivity|reflexivity|reflexivity|reflexivity|].
    destruct Hstored as (Hreturn & Hlookup & _ & Hkeys);
      [unfold sqlite_int; lia|reflexivity|].
    split; [exact Hreturn|]. split; [exact Hlookup|]. exact Hkeys.
  - destruct (auto_response_set_then_lookup Sample.gid Sample.tr Sample.int Sample.quiet
                too_large w "/auto_response set hello hi 9223372036854775808"
                "/auto_response" "hello" "hi" (Some "9223372036854775808")
                9223372036854775808) as [_ Hrefused];
      [reflexivity|reflexivity|reflexivity|reflexivity|].
    apply Hrefused. unfold sqlite_int. lia.
Defined.

(** X2. [/auto_response delete <key>] sent in the group and acknowledged
    leaves no rule for the key, and the rows of other keys as they were, in
    their order; this is so whether or not the key had a rule. *)
Theorem auto_response_delete_then_lookup
    (group_id : Z) (tr : string → string) (int : string → option Z) (env : Env)
    (message : Message) (w : World) (t cmd key : string) :
  let run := TGBot.manage_auto_response group_id tr int env message w in
  chat_id message = group_id →
  text message = Some t →
  split t = [cmd; "delete"; key] →
  raises env (ReplyTo (chat_id message) (message_id message)
                      (tr "Auto response deleted") []) = None →
  run.2 = Returned () ∧
  fetchone (λ r, a_key r = key) (auto_response run.1) = None ∧
  auto_response run.1 = filter (λ r, a_key r ≠ key) (auto_response w) ∧
  outbox run.1 = outbox w ++ [ReplyTo (chat_id message) (message_id message)
                                      (tr "Auto response deleted") []].
Proof.
  intros run Hchat Htext Hsplit Hreply.
  unfold run, TGBot.manage_auto_response, with_connection. clear run.
  rewrite bool_decide_eq_true_2, Htext, Hsplit by done.
  run. rewrite Hreply. simpl.
  split; [done|]. split; [apply fetchone_delete_from|done].
Qed.

Lemma auto_response_delete_then_lookup_witness :
  let w := Sample.store [] [] [Sample.rule "hello" "old" 0; Sample.rule "bye" "ciao" 0] ∅ in
  let command := Sample.message_of 81 Sample.gid Sample.admin None "text"
                   (Some "/auto_response delete hello") in
  let run := TGBot.manage_auto_response Sample.gid Sample.tr Sample.int Sample.quiet command w in
  run.2 = Returned () ∧ auto_response run.1 = [Sample.rule "bye" "ciao" 0].
Proof.
  intros w command run.
  destruct (auto_response_delete_then_lookup Sample.gid Sample.tr Sample.int Sample.quiet
              command w "/auto_response delete hello" "/auto_response" "hello")
    as (Hreturn & _ & Hrows & _); try reflexivity.
  split; [exact Hreturn|exact Hrows].
Defined.

(** X3. A rule set by [/auto_response set], for an action that sqlite can
    store and once acknowledged, is the one the next message of a user with
    that text is answered with: the first call of [handle_messages] is the
    value of the rule sent to the user, and with action 0 it is the only
    call.  After a [set] whose action is out of range the rules are those
    there were, and the next message is handled as if the command had not
    been sent. *)
Theorem auto_response_set_then_message
    (group_id : Z) (tr : string → string) (int : string → option Z) (env env' : Env)
    (command message : Message) (w : World) (t cmd key value : string)
    (given : option string) (action : Z) :
  let w1 := (TGBot.manage_auto_response group_id tr int env command w).1 in
  let run := TGBot.handle_messages group_id tr env' message w1 in
  chat_id command = group_id →
  text command = Some t →
  split t = [cmd; "set"; key; value] ++ option_list given →
  match given with Some a => int a = Some action | None => action = 0 end →
  chat_id message ≠ group_id →
  text message = Some key →
  (sqlite_int action →
   raises env (ReplyTo (chat_id command) (message_id command) (tr "Auto response set") [])
     = None →
   ∃ rest,
     outbox run.1 = outbox w1 ++ SendMessage (chat_id message) value NoThread :: rest ∧
     (action = 0 → rest = [] ∧ topics run.1 = topics w1)) ∧
  (¬ sqlite_int action →
   w1 = w ∧ run = TGBot.handle_messages group_id tr env' message w).
Proof.
  intros w1 run Hchat Htext Hsplit Haction Huser Hkey.
  split; [intros Hint Hreply|].
  2: { intros Hint. unfold run, w1.
       by rewrite (manage_auto_response_set_overflow _ _ _ _ _ _ _ _ _ _ _ _
                     Hchat Htext Hsplit Haction Hint). }
  assert (Hlookup : fetchone (λ r, a_key r = key) (auto_response w1)
                    = Some {| a_key := key; a_value := value; a_topic_action := action |}).
  { unfold w1.
    rewrite (manage_auto_response_set_run _ _ _ _ _ _ _ _ _ _ _ _
               Hchat Htext Hsplit Haction Hint Hreply). simpl.
    destruct (fetchone (λ r, a_key r = key) (auto_response w)) as [row|] eqn:Hrow.
    - by eapply fetchone_update_auto_response.
    - by apply fetchone_snoc_None. }
  clearbody w1.
  unfold run, TGBot.handle_messages. clear run.
  rewrite bool_decide_eq_false_2 by tauto.
  rewrite bool_decide_eq_true_2 by done.
  run. rewrite Hkey, fetchone_key_text, Hlookup. simpl.
  destruct (raises env' (SendMessage (chat_id message) value NoThread)) as [e|]; simpl.
  { exists []. split; [done|]. intros _. by split. }
  case_bool_decide as Hzero; simpl.
  { exists []. split; [done|]. intros _. by split. }
  match goal with
  | |- context [TGBot.forward_to_group ?g ?t ?e ?m ?h ?w0] =>
      destruct (TGBot.forward_to_group g t e m h w0) as [w2 o] eqn:Hforward
  end.
  assert (Hgrows : ∃ rest, outbox w2
            = (outbox w1 ++ [SendMessage (chat_id message) value NoThread]) ++ rest).
  { revert Hforward.
    unfold TGBot.forward_to_group, TGBot.resolve_or_create_thread. run.
    repeat match goal with
           | |- context [fetchone ?P ?l] => destruct (fetchone P l)
           | |- context [raises ?e ?c] => destruct (raises e c)
           | |- context [bool_decide ?P] => destruct (bool_decide P)
           | |- context [except_ApiTelegramException ?e] =>
               destruct (except_ApiTelegramException e)
           end; simpl;
      intros [= <- _]; simpl; rewrite <- ?app_assoc;
      eexists; rewrite <- app_assoc; reflexivity. }
  destruct Hgrows as [rest Hrest]. exists rest. simpl.
  split; [|done]. by rewrite Hrest, <- app_assoc.
Qed.

Lemma auto_response_set_then_message_witness :
  let command := Sample.message_of 80 Sample.gid Sample.admin None "text"
                   (Some "/auto_response set hello hi") in
  let w1 := (TGBot.manage_auto_response Sample.gid Sample.tr Sample.int Sample.quiet
               command Sample.empty).1 in
  let run := TGBot.handle_messages Sample.gid Sample.tr Sample.quiet Sample.hello w1 in
  outbox run.1 = outbox w1 ++ [SendMessage 42 "hi" NoThread] ∧ topics run.1 = [].
Proof.
  intros command w1 run.
  destruct (auto_response_set_then_message Sample.gid Sample.tr Sample.int Sample.quiet
              Sample.quiet command Sample.hello Sample.empty
              "/auto_response set hello hi" "/auto_response" "hello" "hi" None 0)
    as [Hanswered _];
    [reflexivity|reflexivity|reflexivity|reflexivity|vm_compute; discriminate|reflexivity|].
  destruct Hanswered as (rest & Hsent & Hzero); [unfold sqlite_int; lia|reflexivity|].
  destruct Hzero as [-> Htopics]; [reflexivity|]. split; [exact Hsent|exact Htopics].
Defined.

(** What a run of [manage_auto_response] can make of the rules: nothing, the
    rewrite of a known key, one row for an unknown key, or the removal of a
    key; it makes nothing of them when it raises. *)
Lemma manage_auto_response_cases
    (group_id : Z) (tr : string → string) (int : string → option Z) (env : Env)
    (message : Message) (w : World) :
  let run := TGBot.manage_auto_response group_id tr int env message w in
  let rows := auto_response w in
  (topics run.1 = topics w ∧ messages run.1 = messages w ∧ cache run.1 = cache w) ∧
  (auto_response run.1 = rows ∨
   run.2 = Returned () ∧
   ((∃ key value action row,
       fetchone (λ r, a_key r = key) rows = Some row ∧
       auto_response run.1 = TGBot.update_auto_response key value action rows) ∨
    (∃ key value action,
       fetchone (λ r, a_key r = key) rows = None ∧
       auto_response run.1
       = rows ++ [{| a_key := key; a_value := value; a_topic_action := action |}]) ∨
    (∃ key, auto_response run.1 = delete_from (λ r, a_key r = key) rows))).
Proof.
  intros run rows. unfold run, rows, TGBot.manage_auto_response, with_connection.
  clear run rows.
  assert (Hsame : ∀ (w' : World) (P : Prop),
            topics w' = topics w → messages w' = messages w → cache w' = cache w →
            auto_response w' = auto_response w →
            (topics w' = topics w ∧ messages w' = messages w ∧ cache w' = cache w) ∧
            (auto_response w' = auto_response w ∨ P)).
  { intros w' P ? ? ? ?. split; [done|]. by left. }
  case_bool_decide; [|by apply Hsame].
  destruct (text message) as [t|]; [|by apply Hsame].
  case_bool_decide; [run; by apply Hsame|].
  set (op := default "" (split t !! 1%nat)). unfold rollback.
  destruct (String.eqb op "list"); [run; destruct (raises env _); by apply Hsame|].
  destruct (String.eqb op "set").
  { case_bool_decide; [run; destruct (raises env _); by apply Hsame|].
    set (parsed := if bool_decide (length (split t) = 5%nat) then _ else _).
    unfold bind.
    assert (Hparsed : (∃ a, parsed w = (w, Returned a)) ∨ ∃ e, parsed w = (w, Raised e)).
    { unfold parsed. case_bool_decide; [|left; by eexists].
      destruct (int _); [left|right]; by eexists. }
    destruct Hparsed as [[a ->]|[e ->]]; [|simpl; by apply Hsame].
    unfold rollback. run.
    destruct (fetchone _ (auto_response w)) as [row|] eqn:Hrow; simpl;
      (unfold bind_int; case_bool_decide; run; [|by apply Hsame]);
      (destruct (raises env _); simpl; [by apply Hsame|]);
      (split; [done|]); right; (split; [done|]).
    - left. by do 4 eexists.
    - right. left. by do 3 eexists. }
  destruct (String.eqb op "delete").
  { case_bool_decide; [run; destruct (raises env _); by apply Hsame|].
    run. destruct (raises env _); simpl; [by apply Hsame|].
    split; [done|]. right. split; [done|]. right. right. by eexists. }
  run. destruct (raises env _); by apply Hsame.
Qed.

(** X4. [manage_auto_response] is all or nothing: it never touches Topics,
    Message Pairs or the cache; from a chat that is not the group it does
    nothing at all; and when it raises, as when the acknowledgement of a
    [set] or a [delete] cannot be sent, the rules are those it found. *)
Theorem manage_auto_response_all_or_nothing
    (group_id : Z) (tr : string → string) (int : string → option Z) (env : Env)
    (message : Message) (w : World) :
  let run := TGBot.manage_auto_response group_id tr int env message w in
  topics run.1 = topics w ∧ messages run.1 = messages w ∧ cache run.1 = cache w ∧
  (chat_id message ≠ group_id → run = (w, Returned ())) ∧
  (∀ e, run.2 = Raised e → auto_response run.1 = auto_response w).
Proof.
  intros run.
  destruct (manage_auto_response_cases group_id tr int env message w)
    as ((Htopics & Hmessages & Hcache) & Hrows).
  fold run in Htopics, Hmessages, Hcache, Hrows.
  split; [done|]. split; [done|]. split; [done|]. split.
  - intros Hchat. unfold run, TGBot.manage_auto_response.
    by rewrite bool_decide_eq_false_2.
  - intros e Hraised. destruct Hrows as [Hsame|[Hreturn _]]; [done|].
    rewrite Hraised in Hreturn. discriminate.
Qed.

Lemma manage_auto_response_all_or_nothing_witness :
  let w := Sample.store [] [] [Sample.rule "hello" "old" 0] ∅ in
  let command := Sample.message_of 80 Sample.gid Sample.admin None "text"
                   (Some "/auto_response set hello hi 1") in
  let run := TGBot.manage_auto_response Sample.gid Sample.tr Sample.int
               (Sample.down ApiTelegramException) command w in
  run.2 = Raised ApiTelegramException ∧ auto_response run.1 = [Sample.rule "hello" "old" 0].
Proof.
  intros w command run. split; [reflexivity|].
  apply (manage_auto_response_all_or_nothing Sample.gid Sample.tr Sample.int
           (Sample.down ApiTelegramException) command w) with ApiTelegramException.
  reflexivity.
Defined.

(** X5. [manage_auto_response] keeps the keys of the rules distinct:
    whatever the command and whatever the Bot API answers, a table with one
    rule per key is left with one rule per key. *)
Theorem manage_auto_response_keeps_keys_unique
    (group_id : Z) (tr : string → string) (int : string → option Z) (env : Env)
    (message : Message) (w : World) :
  unique_keys (auto_response w) →
  unique_keys (auto_response (TGBot.manage_auto_response group_id tr int env message w).1).
Proof.
  intros Hunique.
  destruct (manage_auto_response_cases group_id tr int env message w) as [_ Hrows].
  simpl in Hrows. unfold unique_keys in *.
  destruct Hrows as [->|[_ [(key & value & action & row & _ & ->)
                           |[(key & value & action & Hnone & ->)|(key & ->)]]]].
  - done.
  - by rewrite keys_update_auto_response.
  - rewrite fmap_app. apply NoDup_app. split; [done|]. split; [|apply NoDup_singleton].
    intros k Hin Hk. apply list_elem_of_singleton in Hk as ->.
    by apply (fetchone_key_None key (auto_response w)).
  - by apply unique_keys_delete_from.
Qed.

Lemma manage_auto_response_keeps_keys_unique_witness :
  let w := Sample.store [] [] [Sample.rule "hello" "old" 0; Sample.rule "bye" "ciao" 0] ∅ in
  let command := Sample.message_of 80 Sample.gid Sample.admin None "text"
                   (Some "/auto_response set hello hi 1") in
  unique_keys (auto_response
                 (TGBot.manage_auto_response Sample.gid Sample.tr Sample.int Sample.quiet
                    command w).1).
Proof.
  intros w command.
  apply (manage_auto_response_keeps_keys_unique Sample.gid Sample.tr Sample.int Sample.quiet).
  unfold unique_keys. simpl. apply NoDup_cons. split.
  - intros Hin%list_elem_of_singleton. discriminate.
  - apply NoDup_singleton.
Defined.

(** X6. A command that [manage_auto_response] cannot read changes no rule.
    With fewer than two words, a [set] that has not four or five words or a
    [delete] that has not three, the only call is the reply with the usage
    text; with another operation it is the reply "Invalid operation"; and a
    [set] whose fifth word is no number raises [ValueError] before anything
    is sent. *)
Theorem manage_auto_response_malformed
    (group_id : Z) (tr : string → string) (int : string → option Z) (env : Env)
    (message : Message) (w : World) (t : string) :
  let run := TGBot.manage_auto_response group_id tr int env message w in
  let words := split t in
  let reply txt := ReplyTo (chat_id message) (message_id message) txt [] in
  chat_id message = group_id →
  text message = Some t →
  (((length words < 2)%nat ∨
    (words !! 1%nat = Some "set" ∧ length words ≠ 4%nat ∧ length words ≠ 5%nat) ∨
    (words !! 1%nat = Some "delete" ∧ length words ≠ 3%nat)) →
   outbox run.1 = outbox w ++ [reply (TGBot.get_auto_response_help tr)] ∧
   auto_response run.1 = auto_response w) ∧
  (∀ operation, words !! 1%nat = Some operation →
     operation ≠ "list" → operation ≠ "set" → operation ≠ "delete" →
     outbox run.1 = outbox w ++ [reply (tr "Invalid operation")] ∧
     auto_response run.1 = auto_response w) ∧
  (∀ fifth, words !! 1%nat = Some "set" → length words = 5%nat →
     words !! 4%nat = Some fifth → int fifth = None →
     run = (w, Raised ValueError)).
Proof.
  intros run words reply Hchat Htext.
  unfold run, TGBot.manage_auto_response, with_connection. clear run.
  rewrite bool_decide_eq_true_2, Htext by done. fold words.
  split; [|split].
  - intros [Hshort|[(Hop & Hfour & Hfive)|(Hop & Hthree)]].
    + rewrite bool_decide_eq_true_2 by done. by run.
    + rewrite bool_decide_eq_false_2
        by (apply lookup_lt_Some in Hop; lia).
      rewrite Hop. simpl.
      rewrite bool_decide_eq_true_2 by done. run. by destruct (raises env _).
    + rewrite bool_decide_eq_false_2
        by (apply lookup_lt_Some in Hop; lia).
      rewrite Hop. simpl.
      rewrite bool_decide_eq_true_2 by done. run. by destruct (raises env _).
  - intros operation Hop Hlist Hset Hdelete.
    rewrite bool_decide_eq_false_2
      by (apply lookup_lt_Some in Hop; lia).
    rewrite Hop. simpl.
    rewrite !(proj2 (String.eqb_neq _ _)) by done.
    run. by destruct (raises env _).
  - intros fifth Hop Hlength Hfifth Hint.
    rewrite bool_decide_eq_false_2 by lia.
    rewrite Hop. simpl.
    rewrite bool_decide_eq_false_2 by lia.
    rewrite bool_decide_eq_true_2 by done.
    rewrite Hfifth. simpl. rewrite Hint. by destruct w.
Qed.

Lemma manage_auto_response_malformed_witness :
  let w := Sample.store [] [] [Sample.rule "hello" "old" 0] ∅ in
  let command txt := Sample.message_of 80 Sample.gid Sample.admin None "text" (Some txt) in
  let run txt := TGBot.manage_auto_response Sample.gid Sample.tr Sample.int Sample.quiet
                   (command txt) w in
  (outbox (run "/auto_response set hello").1
     = [ReplyTo Sample.gid 80 (TGBot.get_auto_response_help Sample.tr) []] ∧
   auto_response (run "/auto_response set hello").1 = [Sample.rule "hello" "old" 0]) ∧
  (outbox (run "/auto_response drop hello").1 = [ReplyTo Sample.gid 80 "Invalid operation" []] ∧
   auto_response (run "/auto_response drop hello").1 = [Sample.rule "hello" "old" 0]) ∧
  run "/auto_response set hello hi yes" = (w, Raised ValueError).
Proof.
  intros w command run. split; [|split].
  - apply (manage_auto_response_malformed Sample.gid Sample.tr Sample.int Sample.quiet
             (command "/auto_response set hello") w "/auto_response set hello");
      [reflexivity|reflexivity|].
    right. left. split; [reflexivity|]. simpl. lia.
  - apply (proj1 (proj2 (manage_auto_response_malformed Sample.gid Sample.tr Sample.int
             Sample.quiet (command "/auto_response drop hello") w
             "/auto_response drop hello" eq_refl eq_refl)) "drop");
      [reflexivity|discriminate..].
  - apply (proj2 (proj2 (manage_auto_response_malformed Sample.gid Sample.tr Sample.int
             Sample.quiet (command "/auto_response set hello hi yes") w
             "/auto_response set hello hi yes" eq_refl eq_refl)) "yes"); reflexivity.
Defined.

(** ** Deletions: [CommandHandler.delete_message] *)

(** What [delete_pair] does when the pair and, in the group, its Topic are
    found: the counterpart call, then the removal of the pair. *)
Lemma delete_pair_found
    (group_id : Z) (tr : string → string) (env : Env)
    (message : Message) (msg_id : Z) (w : World) (p : messages_row) (counterpart : Call) :
  let in_group := bool_decide (chat_id message = group_id) in
  fetchone (λ r, m_received_id r = msg_id ∧ m_in_group r = in_group) (messages w) = Some p →
  (chat_id message = group_id ∧
   ∃ row, fetchone (λ r, t_thread_id r = m_topic_id p) (topics w) = Some row ∧
          counterpart = DeleteMessage (t_user_id row) (m_forwarded_id p)) ∨
  (chat_id message ≠ group_id ∧
   counterpart = ReplyTo group_id (m_forwarded_id p)
                   (tr "[Alert]" +:+ tr "Message deleted by user") []) →
  CommandHandler.delete_pair group_id tr env message msg_id w =
    match raises env counterpart with
    | Some e => (set_outbox (λ o, o ++ [counterpart]) w, Raised e)
    | None =>
        (set_messages
           (delete_from (λ r, m_received_id r = msg_id ∧ m_in_group r = in_group))
           (set_outbox (λ o, o ++ [counterpart]) w),
         Returned true)
    end.
Proof.
  intros in_group Hpair Hside.
  unfold CommandHandler.delete_pair. run. fold in_group. rewrite Hpair.
  destruct Hside as [(Hchat & row & Hrow & ->)|(Hchat & ->)]; unfold in_group.
  - rewrite bool_decide_eq_true_2 by done. rewrite Hrow. simpl.
    by destruct (raises env _).
  - rewrite bool_decide_eq_false_2 by done. simpl.
    by destruct (raises env _).
Qed.

(** X7. A /delete command that replies to a relayed message removes both
    sides: in a thread of the group the copy held by the user of the Topic
    is deleted, in a user chat an alert is posted in the group as a reply to
    the copy; then the Message Pair is removed, and the replied message and
    the command are deleted in the chat of the command.  Other pairs stay as
    they are. *)
Theorem delete_message_removes_both_sides
    (group_id : Z) (tr : string → string) (env : Env)
    (message : Message) (msg_id : Z) (w : World) (p : messages_row) (counterpart : Call) :
  let in_group := bool_decide (chat_id message = group_id) in
  let run := CommandHandler.delete_message group_id tr env message w in
  CommandHandler.check_valid_chat group_id message = false →
  reply_to_message message = Some msg_id →
  fetchone (λ r, m_received_id r = msg_id ∧ m_in_group r = in_group) (messages w) = Some p →
  (chat_id message = group_id ∧
   ∃ row, fetchone (λ r, t_thread_id r = m_topic_id p) (topics w) = Some row ∧
          counterpart = DeleteMessage (t_user_id row) (m_forwarded_id p)) ∨
  (chat_id message ≠ group_id ∧
   counterpart = ReplyTo group_id (m_forwarded_id p)
                   (tr "[Alert]" +:+ tr "Message deleted by user") []) →
  (∀ c, raises env c = None) →
  run.2 = Returned () ∧
  outbox run.1 = outbox w ++ [counterpart;
                              DeleteMessage (chat_id message) msg_id;
                              DeleteMessage (chat_id message) (message_id message)] ∧
  messages run.1
    = filter (λ r, ¬ (m_received_id r = msg_id ∧ m_in_group r = in_group)) (messages w) ∧
  (p ∉ messages run.1) ∧
  topics run.1 = topics w.
Proof.
  intros in_group run Hvalid Hreply Hpair Hside Hapi.
  unfold run, CommandHandler.delete_message. clear run.
  rewrite Hvalid, Hreply. unfold bind.
  rewrite (delete_pair_found group_id tr env message msg_id w p counterpart Hpair Hside).
  rewrite Hapi. run. rewrite !Hapi. simpl.
  split; [done|]. split; [by rewrite <- ?app_assoc|]. split; [done|]. split; [|done].
  fold in_group. intros Hin. apply list_elem_of_filter in Hin as [Hnot _].
  apply Hnot. by apply fetchone_Some in Hpair as [Hp _].
Qed.

Lemma delete_message_removes_both_sides_witness :
  let w := Sample.store [Sample.topic 42 5]
             [Sample.pair 10 20 5 false; Sample.pair 30 11 5 true] [] ∅ in
  let by_user := Sample.reply_of 12 42 Sample.alice None "/delete" 10 in
  let by_staff := Sample.reply_of 31 Sample.gid Sample.admin (Some 5) "/delete" 30 in
  let user_run := CommandHandler.delete_message Sample.gid Sample.tr Sample.quiet by_user w in
  let staff_run := CommandHandler.delete_message Sample.gid Sample.tr Sample.quiet by_staff w in
  (outbox user_run.1 = [ReplyTo Sample.gid 20 "[Alert]Message deleted by user" [];
                        DeleteMessage 42 10; DeleteMessage 42 12] ∧
   messages user_run.1 = [Sample.pair 30 11 5 true]) ∧
  (outbox staff_run.1 = [DeleteMessage 42 11; DeleteMessage Sample.gid 30;
                         DeleteMessage Sample.gid 31] ∧
   messages staff_run.1 = [Sample.pair 10 20 5 false]).
Proof.
  intros w by_user by_staff user_run staff_run. split.
  - destruct (delete_message_removes_both_sides Sample.gid Sample.tr Sample.quiet by_user 10 w
                (Sample.pair 10 20 5 false)
                (ReplyTo Sample.gid 20 "[Alert]Message deleted by user" []))
      as (_ & Hsent & Hpairs & _); try reflexivity.
    + right. split; [|reflexivity]. vm_compute. discriminate.
    + split; [exact Hsent|exact Hpairs].
  - destruct (delete_message_removes_both_sides Sample.gid Sample.tr Sample.quiet by_staff 30 w
                (Sample.pair 30 11 5 true) (DeleteMessage 42 11))
      as (_ & Hsent & Hpairs & _); try reflexivity.
    + left. split; [reflexivity|]. exists (Sample.topic 42 5). split; reflexivity.
    + split; [exact Hsent|exact Hpairs].
Defined.

(** X8. Once /delete has removed the pair of a message, an edit of that
    message is propagated nowhere: whatever the Bot API answers, then and
    later, [handle_edit] on a message of the same chat with the id of the
    replied message returns without a call and without a change.  It is
    enough that the counterpart call of the deletion went through. *)
Theorem delete_message_then_edit_is_noop
    (group_id : Z) (tr : string → string) (env env' : Env)
    (message edited : Message) (msg_id : Z) (w : World) (p : messages_row)
    (counterpart : Call) :
  let in_group := bool_decide (chat_id message = group_id) in
  let w1 := (CommandHandler.delete_message group_id tr env message w).1 in
  CommandHandler.check_valid_chat group_id message = false →
  reply_to_message message = Some msg_id →
  fetchone (λ r, m_received_id r = msg_id ∧ m_in_group r = in_group) (messages w) = Some p →
  (chat_id message = group_id ∧
   ∃ row, fetchone (λ r, t_thread_id r = m_topic_id p) (topics w) = Some row ∧
          counterpart = DeleteMessage (t_user_id row) (m_forwarded_id p)) ∨
  (chat_id message ≠ group_id ∧
   counterpart = ReplyTo group_id (m_forwarded_id p)
                   (tr "[Alert]" +:+ tr "Message deleted by user") []) →
  raises env counterpart = None →
  message_id edited = msg_id →
  chat_id edited = chat_id message →
  CommandHandler.handle_edit group_id tr env' edited w1 = (w1, Returned ()).
Proof.
  intros in_group w1 Hvalid Hreply Hpair Hside Hcounterpart Hid Hchat.
  assert (Hgone : fetchone (λ r, m_received_id r = msg_id ∧ m_in_group r = in_group)
                    (messages w1) = None).
  { unfold w1, CommandHandler.delete_message.
    rewrite Hvalid, Hreply. unfold bind at 1.
    rewrite (delete_pair_found group_id tr env message msg_id w p counterpart Hpair Hside).
    rewrite Hcounterpart. run.
    repeat destruct (raises env _); simpl; apply fetchone_delete_from. }
  clearbody w1.
  apply handle_edit_miss. left. by rewrite Hid, Hchat.
Qed.

Lemma delete_message_then_edit_is_noop_witness :
  let w := Sample.store [Sample.topic 42 5] [Sample.pair 10 20 5 false] [] ∅ in
  let command := Sample.reply_of 12 42 Sample.alice None "/delete" 10 in
  let w1 := (CommandHandler.delete_message Sample.gid Sample.tr Sample.quiet command w).1 in
  CommandHandler.handle_edit Sample.gid Sample.tr Sample.quiet Sample.hello w1
    = (w1, Returned ()).
Proof.
  intros w command w1.
  apply (delete_message_then_edit_is_noop Sample.gid Sample.tr Sample.quiet Sample.quiet
           command Sample.hello 10 w (Sample.pair 10 20 5 false)
           (ReplyTo Sample.gid 20 "[Alert]Message deleted by user" []));
    try reflexivity.
  right. split; [|reflexivity]. vm_compute. discriminate.
Defined.

(** X9. /delete removes a pair only after its counterpart was reached.  A
    command that replies to nothing gets a hint; a replied message without
    a pair, or in the group a pair without its Topic, ends the handler with
    nothing done, the command itself is not deleted; and when the
    counterpart call raises, the exception leaves the handler with the pair
    still stored. *)
Theorem delete_message_edge_cases
    (group_id : Z) (tr : string → string) (env : Env) (message : Message) (w : World) :
  let in_group := bool_decide (chat_id message = group_id) in
  let run := CommandHandler.delete_message group_id tr env message w in
  CommandHandler.check_valid_chat group_id message = false →
  (reply_to_message message = None →
   run.1 = set_outbox
             (λ o, o ++ [ReplyTo (chat_id message) (message_id message)
                                 (tr "Please reply to the message you want to delete") []])
             w) ∧
  (∀ msg_id,
     reply_to_message message = Some msg_id →
     fetchone (λ r, m_received_id r = msg_id ∧ m_in_group r = in_group) (messages w) = None →
     run = (w, Returned ())) ∧
  (∀ msg_id p,
     reply_to_message message = Some msg_id →
     fetchone (λ r, m_received_id r = msg_id ∧ m_in_group r = in_group) (messages w) = Some p →
     (chat_id message = group_id →
      fetchone (λ r, t_thread_id r = m_topic_id p) (topics w) = None →
      run = (w, Returned ())) ∧
     (∀ counterpart e,
        (chat_id message = group_id ∧
         ∃ row, fetchone (λ r, t_thread_id r = m_topic_id p) (topics w) = Some row ∧
                counterpart = DeleteMessage (t_user_id row) (m_forwarded_id p)) ∨
        (chat_id message ≠ group_id ∧
         counterpart = ReplyTo group_id (m_forwarded_id p)
                         (tr "[Alert]" +:+ tr "Message deleted by user") []) →
        raises env counterpart = Some e →
        run = (set_outbox (λ o, o ++ [counterpart]) w, Raised e))).
Proof.
  intros in_group run Hvalid.
  unfold run, CommandHandler.delete_message. clear run. rewrite Hvalid.
  split; [|split].
  - intros ->. by run.
  - intros msg_id -> Hnone. unfold CommandHandler.delete_pair. run.
    fold in_group. by rewrite Hnone.
  - intros msg_id p -> Hpair. split.
    + intros Hchat Hnone. unfold CommandHandler.delete_pair. run.
      fold in_group. rewrite Hpair. unfold in_group.
      rewrite bool_decide_eq_true_2 by done. by rewrite Hnone.
    + intros counterpart e Hside Hraises. unfold bind.
      rewrite (delete_pair_found group_id tr env message msg_id w p counterpart Hpair Hside).
      by rewrite Hraises.
Qed.

Lemma delete_message_edge_cases_witness :
  let w := Sample.store [Sample.topic 42 5] [Sample.pair 10 20 5 false] [] ∅ in
  let stray := Sample.reply_of 12 42 Sample.alice None "/delete" 99 in
  let command := Sample.reply_of 12 42 Sample.alice None "/delete" 10 in
  CommandHandler.delete_message Sample.gid Sample.tr Sample.quiet stray w = (w, Returned ()) ∧
  CommandHandler.delete_message Sample.gid Sample.tr (Sample.down ApiTelegramException)
    command w
  = (set_outbox (λ o, o ++ [ReplyTo Sample.gid 20 "[Alert]Message deleted by user" []]) w,
     Raised ApiTelegramException).
Proof.
  intros w stray command. split.
  - apply (proj1 (proj2 (delete_message_edge_cases Sample.gid Sample.tr Sample.quiet stray w
                           eq_refl)) 99); reflexivity.
  - apply (proj2 (proj2 (proj2 (delete_message_edge_cases Sample.gid Sample.tr
                                  (Sample.down ApiTelegramException) command w eq_refl))
                        10 (Sample.pair 10 20 5 false) eq_refl eq_refl)).
    + right. split; [|reflexivity]. vm_compute. discriminate.
    + reflexivity.
Defined.

(** ** The relay: [TGBot.handle_messages] *)

(** X10. [handle_messages] keeps the store in shape: whatever the message
    and whatever the Bot API answers, Message Pairs, rules and cache are
    untouched, the Topics already stored stay where they are, at most one
    Topic is added, for the sender and only when the sender has none, so
    that a store with one Topic per user is left with one Topic per user. *)
Theorem handle_messages_keeps_one_topic_per_user
    (group_id : Z) (tr : string → string) (env : Env) (message : Message) (w : World) :
  let run := TGBot.handle_messages group_id tr env message w in
  messages run.1 = messages w ∧ auto_response run.1 = auto_response w ∧
  cache run.1 = cache w ∧
  (∃ added, topics run.1 = topics w ++ added ∧
            (added = [] ∨
             fetchone (λ r, t_user_id r = u_id (from_user message)) (topics w) = None ∧
             added = [{| t_user_id := u_id (from_user message);
                         t_thread_id := created_thread env; t_ban := false |}])) ∧
  (one_topic_per_user (topics w) → one_topic_per_user (topics run.1)).
Proof.
  intros run.
  assert (Hframe : messages run.1 = messages w ∧ auto_response run.1 = auto_response w ∧
            cache run.1 = cache w ∧
            ∃ added, topics run.1 = topics w ++ added ∧
              (added = [] ∨
               fetchone (λ r, t_user_id r = u_id (from_user message)) (topics w) = None ∧
               added = [{| t_user_id := u_id (from_user message);
                           t_thread_id := created_thread env; t_ban := false |}])).
  { unfold run, TGBot.handle_messages, TGBot.forward_to_user, TGBot.forward_to_group,
      TGBot.resolve_or_create_thread. clear run.
    assert (Hsame : ∀ w', messages w' = messages w → auto_response w' = auto_response w →
              cache w' = cache w → topics w' = topics w →
              messages w' = messages w ∧ auto_response w' = auto_response w ∧
              cache w' = cache w ∧
              ∃ added, topics w' = topics w ++ added ∧
                (added = [] ∨
                 fetchone (λ r, t_user_id r = u_id (from_user message)) (topics w) = None ∧
                 added = [{| t_user_id := u_id (from_user message);
                             t_thread_id := created_thread env; t_ban := false |}])).
    { intros w' ? ? ? Htopics. do 3 (split; [done|]). exists [].
      split; [by rewrite app_nil_r|by left]. }
    run.
    repeat first
      [ progress simpl
      | match goal with
        | |- context [bool_decide ?P] => destruct (bool_decide P)
        | |- context [String.eqb ?a ?b] => destruct (String.eqb a b)
        | |- context [match fetchone ?P ?l with _ => _ end] =>
            let H := fresh "Hfetch" in destruct (fetchone P l) eqn:H
        | |- context [match raises ?e ?c with _ => _ end] => destruct (raises e c)
        | |- context [except_ApiTelegramException ?e] =>
            destruct (except_ApiTelegramException e)
        | |- context [match last ?l with _ => _ end] => destruct (last l)
        | |- context [match text ?m with _ => _ end] => destruct (text m)
        | |- context [match sticker ?m with _ => _ end] => destruct (sticker m)
        | |- context [match video ?m with _ => _ end] => destruct (video m)
        | |- context [match document ?m with _ => _ end] => destruct (document m)
        end ];
      try (by apply Hsame);
      (do 3 (split; [done|])); eexists; (split; [reflexivity|]); right; by split. }
  destruct Hframe as (Hmessages & Hrules & Hcache & added & Htopics & Hadded).
  do 3 (split; [done|]). split; [by exists added|].
  unfold one_topic_per_user. rewrite Htopics, fmap_app.
  destruct Hadded as [->|[Hnone ->]]; [by rewrite app_nil_r|].
  intros Hunique. apply NoDup_app. split; [done|]. split; [|apply NoDup_singleton].
  intros u Hin Hu. apply list_elem_of_singleton in Hu as ->.
  apply list_elem_of_fmap in Hin as (row & Heq & Hin).
  by apply (proj1 (fetchone_None _ (topics w)) Hnone row).
Qed.

Lemma handle_messages_keeps_one_topic_per_user_witness :
  let w := Sample.store [Sample.topic 43 6] [] [] ∅ in
  let run := TGBot.handle_messages Sample.gid Sample.tr Sample.quiet Sample.hello w in
  topics run.1 = [Sample.topic 43 6; Sample.topic 42 7] ∧ one_topic_per_user (topics run.1).
Proof.
  intros w run. split; [reflexivity|].
  apply (handle_messages_keeps_one_topic_per_user Sample.gid Sample.tr Sample.quiet
           Sample.hello w).
  unfold one_topic_per_user. simpl. apply NoDup_singleton.
Defined.

(** X11. A message of the staff in the thread of a Topic goes to the user of
    that Topic and to nobody else: the handler makes at most one call, its
    recipient is the user of the first Topic row of the thread, and nothing
    is stored.  A text is sent as it is, a photo by the file of its last
    size, and a content type without a case is only logged. *)
Theorem staff_message_reaches_only_the_user
    (group_id : Z) (tr : string → string) (env : Env) (message : Message) (w : World)
    (row : topics_row) :
  let run := TGBot.handle_messages group_id tr env message w in
  let user := t_user_id row in
  chat_id message = group_id →
  fetchone (λ r, Some (t_thread_id r) = message_thread_id message) (topics w) = Some row →
  topics run.1 = topics w ∧ messages run.1 = messages w ∧
  auto_response run.1 = auto_response w ∧ cache run.1 = cache w ∧
  (∃ sent, outbox run.1 = outbox w ++ sent ∧ (length sent ≤ 1)%nat ∧
           ∀ c, c ∈ sent → recipient c = Some user) ∧
  (∀ t, content_type message = "text" → text message = Some t →
        outbox run.1 = outbox w ++ [SendMessage user t NoThread]) ∧
  (∀ file, content_type message = "photo" → last (photo message) = Some file →
        outbox run.1 = outbox w ++ [SendPhoto user file (caption message)]) ∧
  (content_type message ∉ ["photo"; "text"; "sticker"; "video"; "document"] →
   run = (set_log (λ l, l ++ [LogError (tr "Unsupported message type" +:+ content_type message)])
            w, Returned ())).
Proof.
  intros run user Hchat Hrow.
  assert (Hthread : message_thread_id message ≠ None).
  { apply fetchone_Some in Hrow as [Heq _]. by rewrite <- Heq. }
  unfold run, TGBot.handle_messages, TGBot.forward_to_user. clear run.
  rewrite bool_decide_eq_false_2 by tauto.
  rewrite bool_decide_eq_false_2 by tauto.
  run. rewrite Hrow. fold user.
  assert (Hone : ∀ c o, recipient c = Some user →
            ∃ sent, outbox (set_outbox (λ o, o ++ [c]) w, o : outcome ()).1 = outbox w ++ sent ∧
                    (length sent ≤ 1)%nat ∧ ∀ c', c' ∈ sent → recipient c' = Some user).
  { intros c o Hc. exists [c]. split; [done|]. split; [simpl; lia|].
    by intros c' ->%list_elem_of_singleton. }
  assert (Hnone : ∀ (w' : World) (o : outcome ()), outbox w' = outbox w →
            ∃ sent, outbox (w', o).1 = outbox w ++ sent ∧
                    (length sent ≤ 1)%nat ∧ ∀ c', c' ∈ sent → recipient c' = Some user).
  { intros w' o Hw'. exists []. split; [by rewrite app_nil_r|]. split; [simpl; lia|].
    by intros c' ?%elem_of_nil. }
  do 4 (split; [repeat case_match; done|]).
  split; [|split; [|split]].
  - repeat case_match; simplify_eq; try (by apply Hone); by apply Hnone.
  - intros t Hkind Htext. rewrite Hkind, Htext. done.
  - intros file Hkind Hfile. rewrite Hkind, Hfile. done.
  - intros Hkind. rewrite !not_elem_of_cons in Hkind. destruct_and!.
    by rewrite !(proj2 (String.eqb_neq _ _)) by done.
Qed.

Lemma staff_message_reaches_only_the_user_witness :
  let w := Sample.store [Sample.topic 42 5; Sample.topic 43 6] [] [] ∅ in
  let answer := Sample.message_of 31 Sample.gid Sample.admin (Some 5) "text"
                                  (Some "we are on it") in
  outbox (TGBot.handle_messages Sample.gid Sample.tr Sample.quiet answer w).1
    = [SendMessage 42 "we are on it" NoThread].
Proof.
  intros w answer.
  destruct (staff_message_reaches_only_the_user Sample.gid Sample.tr Sample.quiet answer w
              (Sample.topic 42 5)) as (_ & _ & _ & _ & _ & Htext & _);
    [reflexivity|reflexivity|].
  by apply Htext.
Defined.

(** X12. When the forward to the thread of the user is refused by the Bot
    API ([ApiTelegramException]), the message is not lost: a notice of the
    failure goes to the group without a thread and the message is forwarded
    to the group without a thread; the Topic is kept.  Any other exception
    of the forward leaves the handler at once. *)
Theorem refused_forward_falls_back_to_the_group
    (group_id : Z) (tr : string → string) (env : Env) (message : Message) (w : World)
    (row : topics_row) (e : exn) :
  let run := TGBot.handle_messages group_id tr env message w in
  let thread := ThreadRow (t_thread_id row) in
  let forward a := ForwardMessage group_id (chat_id message) a (message_id message) in
  let notice := SendMessage group_id
                  (tr (format "Failed to forward message from user {}"
                              [str (u_id (from_user message))])) NoThread in
  chat_id message ≠ group_id →
  fetchone (λ r, Some (a_key r) = text message) (auto_response w) = None →
  fetchone (λ r, t_user_id r = u_id (from_user message)) (topics w) = Some row →
  raises env (forward thread) = Some e →
  topics run.1 = topics w ∧
  if decide (e = ApiTelegramException) then
    raises env notice = None → raises env (forward NoThread) = None →
    run.2 = Returned () ∧
    outbox run.1 = outbox w ++ [forward thread; notice; forward NoThread]
  else
    run.2 = Raised e ∧ outbox run.1 = outbox w ++ [forward thread].
Proof.
  intros run thread forward notice Hchat Hrule Hrow Hforward.
  unfold run, TGBot.handle_messages, TGBot.forward_to_group,
    TGBot.resolve_or_create_thread. clear run.
  rewrite bool_decide_eq_false_2 by tauto.
  rewrite bool_decide_eq_true_2 by done.
  run. rewrite Hrule. simpl. rewrite Hrow. simpl. fold thread. fold (forward thread).
  rewrite Hforward. simpl. unfold except_ApiTelegramException.
  destruct (decide (e = ApiTelegramException)) as [->|Hother].
  - rewrite bool_decide_eq_true_2 by done. simpl. fold notice. fold (forward NoThread).
    split; [by destruct (raises env notice); simpl; [|destruct (raises env (forward NoThread))]|].
    intros -> ->. simpl. split; [done|]. by rewrite <- !app_assoc.
  - rewrite bool_decide_eq_false_2 by done. by simpl.
Qed.

Lemma refused_forward_falls_back_to_the_group_witness :
  let w := Sample.store [Sample.topic 42 5] [] [] ∅ in
  let refused : Env :=
    {| raises := λ c, match c with
                      | ForwardMessage _ _ (ThreadRow _) _ => Some ApiTelegramException
                      | _ => None
                      end;
       created_thread := 7; sent_message_id := λ _, 900;
       member_status := λ _ _, "administrator"; now := "" |} in
  let run := TGBot.handle_messages Sample.gid Sample.tr refused Sample.hello w in
  run.2 = Returned () ∧
  outbox run.1 = [ForwardMessage Sample.gid 42 (ThreadRow 5) 10;
                  SendMessage Sample.gid "Failed to forward message from user 42" NoThread;
                  ForwardMessage Sample.gid 42 NoThread 10].
Proof.
  intros w refused run.
  destruct (refused_forward_falls_back_to_the_group Sample.gid Sample.tr refused Sample.hello w
              (Sample.topic 42 5) ApiTelegramException) as [_ Hfallback];
    [vm_compute; discriminate|reflexivity|reflexivity|reflexivity|].
  apply Hfallback; reflexivity.
Defined.

(** ** Termination by command and by keyboard *)

(** X13. [/terminate <user ID>] sent in the General topic of the group, as
    [TGBot.handle_terminate] treats it.  With a Topic of the user, all the
    Topic rows of the user are deleted, the forum thread of the first one is
    deleted remotely and the command is answered "Thread terminated"; an
    [ApiTelegramException] of the remote deletion does not change that, any
    other exception is reported by "Failed to terminate the thread" with
    the rows deleted all the same.  Without a Topic of the user the lookup
    fails, nothing is deleted and the failure is reported.  Message Pairs,
    rules and cache are never touched. *)
Theorem handle_terminate_by_user_id
    (group_id : Z) (tr : string → string) (int : string → option Z) (env : Env)
    (message : Message) (w : World) (txt cmd arg : string) (u : Z) :
  let run := TGBot.handle_terminate group_id tr int env message w in
  let reply t := ReplyTo group_id (message_id message) (tr t) [] in
  chat_id message = group_id →
  message_thread_id message = None →
  text message = Some txt → split txt = [cmd; arg] → int arg = Some u →
  messages run.1 = messages w ∧ auto_response run.1 = auto_response w ∧
  cache run.1 = cache w ∧
  (∀ row, fetchone (λ r, t_user_id r = u) (topics w) = Some row →
     let delete := DeleteForumTopic group_id (ThreadId (t_thread_id row)) in
     topics run.1 = delete_from (λ r, t_user_id r = u) (topics w) ∧
     (raises env delete = None ∨ raises env delete = Some ApiTelegramException →
      raises env (reply "Thread terminated") = None →
      run.2 = Returned () ∧
      outbox run.1 = outbox w ++ [delete; reply "Thread terminated"]) ∧
     (∀ e, raises env delete = Some e → e ≠ ApiTelegramException →
      outbox run.1 = outbox w ++ [delete; reply "Failed to terminate the thread"])) ∧
  (fetchone (λ r, t_user_id r = u) (topics w) = None →
     topics run.1 = topics w ∧
     outbox run.1 = outbox w ++ [reply "Failed to terminate the thread"] ∧
     log run.1 = log w ++ [LogError (tr "Failed to terminate the thread" +:+ "None")]).
Proof.
  intros run reply Hchat Hthread Htext Hsplit Hint.
  unfold run, TGBot.handle_terminate, TGBot.terminate_thread. clear run.
  rewrite bool_decide_eq_true_2 by done.
  rewrite Hthread, Htext. simpl. rewrite Hsplit. simpl.
  rewrite Hint. run. rewrite Hchat.
  fold (reply "Thread terminated") (reply "Failed to terminate the thread").
  unfold except_ApiTelegramException.
  destruct (bind_id_cases t_user_id (topics w) u w) as [->|(_ & Hnone & ->)]; simpl.
  2: { rewrite Hnone. run.
       destruct (raises env (reply "Failed to terminate the thread")); by repeat split. }
  split; [|split; [|split; [|split]]].
  1-3: by destruct (fetchone _ (topics w)); simpl;
    repeat (destruct (raises env _); simpl; try case_bool_decide; run).
  - intros row Hrow. rewrite Hrow. simpl.
    set (delete := DeleteForumTopic group_id (ThreadId (t_thread_id row))).
    destruct (raises env delete) as [e|] eqn:Hdel; simpl;
      [case_bool_decide as Hcls; run|];
      destruct (raises env (reply "Thread terminated")) eqn:Hok; run;
      (split; [done|]); (split; [intros [?|?] ?|intros e' ? ?]); simplify_eq;
      try split; try done; by rewrite <- ?app_assoc.
  - intros Hrow. rewrite Hrow. run. by repeat case_match.
Qed.

Lemma handle_terminate_by_user_id_witness :
  let w := Sample.store [Sample.topic 42 5; Sample.topic 43 6]
                        [Sample.pair 10 20 5 false] [] ∅ in
  let command := Sample.message_of 70 Sample.gid Sample.admin None "text"
                                   (Some "/terminate 42") in
  let run := TGBot.handle_terminate Sample.gid Sample.tr Sample.int Sample.quiet command w in
  topics run.1 = [Sample.topic 43 6] ∧
  messages run.1 = [Sample.pair 10 20 5 false] ∧
  outbox run.1 = [DeleteForumTopic Sample.gid (ThreadId 5);
                  ReplyTo Sample.gid 70 "Thread terminated" []].
Proof.
  intros w command run.
  destruct (handle_terminate_by_user_id Sample.gid Sample.tr Sample.int Sample.quiet
              command w "/terminate 42" "/terminate" "42" 42)
    as (Hpairs & _ & _ & Hfound & _);
    [reflexivity|reflexivity|reflexivity|reflexivity|reflexivity|].
  destruct (Hfound (Sample.topic 42 5)) as (Htopics & Hsent & _); [reflexivity|].
  split; [exact Htopics|]. split; [exact Hpairs|].
  apply Hsent; [by left|reflexivity].
Defined.

(** A callback of the group whose payload names an action, once the query
    is answered, is the admin callback of that action. *)
Lemma callback_in_group group_id tr env admin_handler unban_user verify_button
    terminate_thread_text query payload name w :
  data query = DataJson (JObject payload) →
  payload !! "action" = Some (JStr name) →
  name ≠ "verify_button" →
  chat_id (c_message query) = group_id →
  raises env (AnswerCallbackQuery (c_id query)) = None →
  CallbackHandler.handle_callback_query group_id tr env admin_handler unban_user
    verify_button terminate_thread_text query w
  = CallbackHandler._handle_admin_callback group_id tr env admin_handler unban_user
      terminate_thread_text query (JStr name) payload
      (set_outbox (λ o, o ++ [AnswerCallbackQuery (c_id query)]) w).
Proof.
  intros Hdata Haction Hname Hchat Hanswer.
  unfold CallbackHandler.handle_callback_query,
    CallbackHandler.json_loads, CallbackHandler.subscript.
  rewrite Hdata. run. rewrite Haction. simpl. rewrite Hanswer.
  rewrite bool_decide_eq_false_2 by congruence.
  by rewrite (bool_decide_eq_false_2 (chat_id (c_message query) ≠ group_id)) by tauto.
Qed.

(** The payload of the confirm button of [handle_terminate] is read back by
    the [confirm_terminate] case as the ids the button was made of. *)
Lemma confirm_terminate_button group_id tr env terminate_thread_text thread_id user_id :
  CallbackHandler.confirm_terminate group_id tr env terminate_thread_text
    (CommandHandler.confirm_button thread_id user_id)
  = try_except
      (CommandHandler.terminate_thread group_id tr env thread_id user_id)
      except_Exception
      (λ _, logger (LogError (tr "Failed to terminate the thread")) ;;
            call env (SendMessage group_id (tr "Failed to terminate the thread") NoThread)).
Proof.
  unfold CallbackHandler.confirm_terminate, CommandHandler.confirm_button.
  destruct thread_id as [t|]; [|destruct user_id as [u|]].
  - rewrite lookup_insert_ne, lookup_singleton_eq by done. by destruct user_id.
  - rewrite !lookup_insert_ne, lookup_singleton_eq, lookup_singleton_ne by done. done.
  - rewrite !lookup_singleton_ne by done. done.
Qed.

Lemma confirm_button_action thread_id user_id :
  CommandHandler.confirm_button thread_id user_id !! "action"
  = Some (JStr "confirm_terminate").
Proof.
  unfold CommandHandler.confirm_button.
  destruct thread_id; [|destruct user_id]; apply lookup_insert_eq.
Qed.

(** X14. [CommandHandler.handle_terminate] deletes nothing by itself:
    whatever the command and whatever the Bot API answers, Topics, Message
    Pairs, rules and cache are as before; it makes at most two calls, the
    membership query and one message, and that message goes to the chat of
    the command.  From outside the group, or for a sender who is neither
    administrator nor creator of the group, the message is the refusal. *)
Theorem terminate_command_only_asks
    (group_id : Z) (tr : string → string) (int : string → option Z) (env : Env)
    (message : Message) (w : World) :
  let run := CommandHandler.handle_terminate group_id tr int env message w in
  let member := GetChatMember (chat_id message) (u_id (from_user message)) in
  let refusal := SendMessage (chat_id message)
                   (tr "This command is only available to admin users.") NoThread in
  topics run.1 = topics w ∧ messages run.1 = messages w ∧
  auto_response run.1 = auto_response w ∧ cache run.1 = cache w ∧
  (∃ sent, outbox run.1 = outbox w ++ sent ∧ (length sent ≤ 2)%nat ∧
           ∀ c, c ∈ sent → c = member ∨ recipient c = Some (chat_id message)) ∧
  (chat_id message ≠ group_id → outbox run.1 = outbox w ++ [refusal]) ∧
  (chat_id message = group_id → raises env member = None →
   CommandHandler.is_admin
     (member_status env (chat_id message) (u_id (from_user message))) = false →
   outbox run.1 = outbox w ++ [member; refusal]).
Proof.
  intros run member refusal.
  unfold run, CommandHandler.handle_terminate. clear run.
  assert (Hsent : ∀ (o : list Call) sent,
            o = outbox w ++ sent → (length sent ≤ 2)%nat →
            (∀ c, c ∈ sent → c = member ∨ recipient c = Some (chat_id message)) →
            ∃ sent, o = outbox w ++ sent ∧ (length sent ≤ 2)%nat ∧
                    ∀ c, c ∈ sent → c = member ∨ recipient c = Some (chat_id message)).
  { intros o sent Hout Hlen Hall. by exists sent. }
  assert (Hmember : ∃ sent, outbox w ++ [member] = outbox w ++ sent ∧ (length sent ≤ 2)%nat ∧
                    ∀ c, c ∈ sent → c = member ∨ recipient c = Some (chat_id message)).
  { apply (Hsent _ [member]); [done|simpl; lia|].
    intros c ->%list_elem_of_singleton. by left. }
  assert (Htwo : ∀ c, recipient c = Some (chat_id message) →
            ∃ sent, (outbox w ++ [member]) ++ [c] = outbox w ++ sent ∧ (length sent ≤ 2)%nat ∧
                    ∀ c, c ∈ sent → c = member ∨ recipient c = Some (chat_id message)).
  { intros c Hc. apply (Hsent _ [member; c]); [by rewrite <- app_assoc|simpl; lia|].
    intros c' [->|[->|[]%elem_of_nil]%elem_of_cons]%elem_of_cons; [by left|by right]. }
  case_bool_decide as Hchat.
  - run. fold member.
    destruct (raises env member) as [e|] eqn:Hraises; simpl; [done|].
    destruct (CommandHandler.is_admin _) eqn:Hadmin; simpl.
    + destruct (message_thread_id message) as [t|]; simpl.
      * case_bool_decide; run; repeat split; try done; by apply Htwo.
      * destruct (text message) as [txt|]; simpl; [|done].
        case_bool_decide; run.
        -- destruct (raises env (ReplyTo _ _ _ _)); simpl; repeat split; try done;
             by apply Htwo.
        -- destruct (int _); run;
             repeat split; try done; by apply Htwo.
    + fold refusal. repeat split; try done.
      * by apply Htwo.
      * intros. simpl. by rewrite <- app_assoc.
  - run. fold refusal. repeat split; try done.
    apply (Hsent _ [refusal]); [done|simpl; lia|].
    intros c ->%list_elem_of_singleton. by right.
Qed.

Lemma terminate_command_only_asks_witness :
  let w := Sample.store [Sample.topic 42 5] [Sample.pair 10 20 5 false] [] ∅ in
  let command := Sample.message_of 70 42 Sample.alice None "text" (Some "/terminate 42") in
  outbox (CommandHandler.handle_terminate Sample.gid Sample.tr Sample.int Sample.quiet
            command w).1
  = [SendMessage 42 "This command is only available to admin users." NoThread].
Proof.
  intros w command.
  destruct (terminate_command_only_asks Sample.gid Sample.tr Sample.int Sample.quiet
              command w) as (_ & _ & _ & _ & _ & Houtside & _).
  apply Houtside. vm_compute. discriminate.
Defined.

(** X15. The keyboard of [/terminate] round trip.  For an administrator of
    the group, the command sent in a thread other than the General one, or
    in the General topic with a user id, is answered by a question whose
    keyboard is the confirm button of the thread (resp. the user) and the
    cancel button, and nothing is deleted.  A press on that confirm button
    in the group does what [terminate_thread] does for those ids: the Topic
    rows of the request are deleted whatever the Bot API answers to the
    deletion, and when [terminate_thread] returns, its world is the world of
    the callback.  A press on the cancel button answers the query, edits
    the question to "Operation cancelled" and stores nothing. *)
Theorem confirm_button_terminates_the_thread
    (group_id : Z) (tr : string → string) (int : string → option Z) (env env' : Env)
    (admin_handler : string → CallbackQuery → gmap string jval → M unit)
    (unban_user : Message → jval → M unit)
    (verify_button : CallbackQuery → gmap string jval → M unit)
    (terminate_thread_text : option jval → option jval → M unit)
    (message question : Message) (cid : Z) (w w' : World)
    (thread_id user_id : option Z) :
  let ask := CommandHandler.handle_terminate group_id tr int env message w in
  let member := GetChatMember group_id (u_id (from_user message)) in
  let confirm := CommandHandler.confirm_button thread_id user_id in
  let cancel := CommandHandler.cancel_button in
  let asked := ReplyTo group_id (message_id message)
                 (tr "Are you sure you want to terminate this thread?") [confirm; cancel] in
  let press button :=
    CallbackHandler.handle_callback_query group_id tr env' admin_handler unban_user
      verify_button terminate_thread_text
      {| c_id := cid; data := DataJson (JObject button);
                       c_message := question |} w' in
  let answer := AnswerCallbackQuery cid in
  let edit := EditMessageText (tr "Operation cancelled") group_id (message_id question) in
  chat_id message = group_id →
  match message_thread_id message with
  | Some t => t ≠ 1 ∧ thread_id = Some t ∧ user_id = None
  | None => ∃ txt cmd arg u, text message = Some txt ∧ split txt = [cmd; arg] ∧
                             int arg = Some u ∧ thread_id = None ∧ user_id = Some u
  end →
  raises env member = None →
  CommandHandler.is_admin (member_status env group_id (u_id (from_user message))) = true →
  chat_id question = group_id →
  raises env' answer = None →
  ask.1 = set_outbox (λ o, o ++ [member; asked]) w ∧
  topics (press confirm).1 = terminated_topics thread_id user_id (topics w') ∧
  (∀ w1, CommandHandler.terminate_thread group_id tr env' thread_id user_id
           (set_outbox (λ o, o ++ [answer]) w') = (w1, Returned ()) →
         press confirm = (w1, Returned ())) ∧
  (press cancel).1 = set_outbox (λ o, o ++ [answer; edit]) w'.
Proof.
  intros ask member confirm cancel asked press answer edit
    Hchat Hrequest Hmember Hadmin Hquestion Hanswer.
  split; [|split; [|split]].
  - unfold ask, CommandHandler.handle_terminate.
    rewrite bool_decide_eq_true_2 by done. rewrite Hchat. run.
    fold member. rewrite Hmember. simpl. rewrite Hadmin.
    destruct (message_thread_id message) as [t|].
    + destruct Hrequest as (Ht & Hthread & Huser). simpl.
      rewrite bool_decide_eq_false_2 by congruence.
      unfold asked, confirm, cancel. rewrite Hthread, Huser.
      repeat (unfold set_outbox; simpl). rewrite ?Hchat. by rewrite <- app_assoc.
    + destruct Hrequest as (txt & cmd & arg & u & Htext & Hsplit & Hint & Hthread & Huser).
      rewrite Htext. simpl. rewrite Hsplit. simpl. rewrite Hint. simpl.
      unfold asked, confirm, cancel. rewrite Hthread, Huser.
      repeat (unfold set_outbox; simpl). rewrite ?Hchat. by rewrite <- app_assoc.
  - unfold press.
    rewrite (callback_in_group _ _ _ _ _ _ _ _ confirm "confirm_terminate");
      [|done|apply confirm_button_action|done|done|done].
    unfold CallbackHandler._handle_admin_callback. simpl.
    unfold confirm. rewrite confirm_terminate_button. unfold try_except.
    pose proof (terminate_thread_topics group_id tr env' thread_id user_id
                  (set_outbox (λ o, o ++ [answer]) w')) as Htopics.
    destruct (CommandHandler.terminate_thread _ _ _ _ _ _) as [w1 [[]|e]]; simpl in *; [done|].
    run. by destruct (raises env' _).
  - intros w1 Hrun. unfold press.
    rewrite (callback_in_group _ _ _ _ _ _ _ _ confirm "confirm_terminate");
      [|done|apply confirm_button_action|done|done|done].
    unfold CallbackHandler._handle_admin_callback. simpl.
    unfold confirm. rewrite confirm_terminate_button. unfold try_except.
    fold answer. by rewrite Hrun.
  - unfold press.
    rewrite (callback_in_group _ _ _ _ _ _ _ _ cancel "cancel_terminate");
      [|done|done|done|done|done].
    unfold CallbackHandler._handle_admin_callback. simpl. rewrite Hquestion.
    run. unfold set_outbox. simpl. by rewrite <- app_assoc.
Qed.

Lemma confirm_button_terminates_the_thread_witness :
  let w := Sample.store [Sample.topic 42 5; Sample.topic 43 6]
                        [Sample.pair 10 20 5 false; Sample.pair 11 21 6 false] [] ∅ in
  let command := Sample.message_of 70 Sample.gid Sample.admin (Some 5) "text"
                                   (Some "/terminate") in
  let asked := ReplyTo Sample.gid 70 "Are you sure you want to terminate this thread?"
                 [CommandHandler.confirm_button (Some 5) None;
                  CommandHandler.cancel_button] in
  let press :=
    CallbackHandler.handle_callback_query Sample.gid Sample.tr Sample.quiet
      Sample.idle_admin_handler Sample.idle_unban_user Sample.idle_verify_button
      Sample.idle_terminate_thread_text
      {| c_id := 500;
         data := DataJson (JObject (CommandHandler.confirm_button (Some 5) None));
         c_message := Sample.menu |} w in
  outbox (CommandHandler.handle_terminate Sample.gid Sample.tr Sample.int Sample.quiet
            command w).1 = [GetChatMember Sample.gid 1; asked] ∧
  topics press.1 = [Sample.topic 43 6] ∧
  messages press.1 = [Sample.pair 11 21 6 false] ∧
  outbox press.1 = [AnswerCallbackQuery 500; DeleteForumTopic Sample.gid (ThreadId 5)].
Proof.
  intros w command asked press.
  destruct (confirm_button_terminates_the_thread Sample.gid Sample.tr Sample.int
              Sample.quiet Sample.quiet Sample.idle_admin_handler Sample.idle_unban_user
              Sample.idle_verify_button
              Sample.idle_terminate_thread_text command Sample.menu 500 w w (Some 5) None)
    as (Hask & Htopics & Hpress & _);
    [reflexivity|by repeat split|reflexivity|reflexivity|reflexivity|reflexivity|].
  split; [by rewrite Hask|]. split; [exact Htopics|].
  unfold press. by erewrite Hpress by (vm_compute; reflexivity).
Defined.

(** X16. A confirmed termination that fails is reported, not raised.  When
    the remote deletion of the thread raises anything but
    [ApiTelegramException], the [confirm_terminate] case catches it: the
    failure is logged, "Failed to terminate the thread" is sent to the group
    and the callback returns.  By then the Topic rows and the two cache
    entries are gone, while the Message Pairs of the thread are all still
    stored and the "Terminating thread" line is not logged. *)
Theorem confirm_terminate_reports_failure
    (group_id : Z) (tr : string → string) (env : Env)
    (admin_handler : string → CallbackQuery → gmap string jval → M unit)
    (unban_user : Message → jval → M unit)
    (verify_button : CallbackQuery → gmap string jval → M unit)
    (terminate_thread_text : option jval → option jval → M unit)
    (question : Message) (cid : Z) (w : World) (t : Z) (row : topics_row) (e : exn) :
  let run :=
    CallbackHandler.handle_callback_query group_id tr env admin_handler unban_user
      verify_button terminate_thread_text
      {| c_id := cid;
         data := DataJson (JObject (CommandHandler.confirm_button (Some t) None));
         c_message := question |} w in
  let answer := AnswerCallbackQuery cid in
  let removal := DeleteForumTopic group_id (ThreadId t) in
  let failed := SendMessage group_id (tr "Failed to terminate the thread") NoThread in
  chat_id question = group_id →
  raises env answer = None →
  fetchone (λ r, t_thread_id r = t) (topics w) = Some row →
  t_user_id row ≠ 0 → t ≠ 0 →
  raises env removal = Some e → e ≠ ApiTelegramException →
  raises env failed = None →
  run.2 = Returned () ∧
  outbox run.1 = outbox w ++ [answer; removal; failed] ∧
  log run.1 = log w ++ [LogError (tr "Failed to terminate the thread")] ∧
  topics run.1 = delete_from (λ r, t_thread_id r = t) (topics w) ∧
  messages run.1 = messages w ∧
  cache run.1 = delete (CommandHandler.thread_key t)
                  (delete (CommandHandler.chat_key (t_user_id row)) (cache w)).
Proof.
  intros run answer removal failed Hquestion Hanswer Hrow Huser Ht Hdelete Hother Hfailed.
  unfold run. clear run.
  set (button := CommandHandler.confirm_button (Some t) None).
  rewrite (callback_in_group _ _ _ _ _ _ _ _ button "confirm_terminate");
    [|done|apply confirm_button_action|done|done|done].
  unfold CallbackHandler._handle_admin_callback. simpl.
  unfold button. rewrite confirm_terminate_button.
  unfold CommandHandler.terminate_thread, CommandHandler.resolve_topic. run.
  rewrite (bind_id_found _ _ _ _ _ Hrow). simpl.
  rewrite Hrow. simpl. rewrite bool_decide_eq_true_2 by done. simpl.
  fold removal. rewrite Hdelete. simpl.
  unfold except_ApiTelegramException. rewrite bool_decide_eq_false_2 by done. simpl.
  fold failed. rewrite Hfailed. simpl.
  repeat split. by rewrite <- !app_assoc.
Qed.

Lemma confirm_terminate_reports_failure_witness :
  let w := Sample.store [Sample.topic 42 5] [Sample.pair 10 20 5 false] [] ∅ in
  let run :=
    CallbackHandler.handle_callback_query Sample.gid Sample.tr
      (Sample.delete_raises (OtherException "ReadTimeout"))
      Sample.idle_admin_handler Sample.idle_unban_user Sample.idle_verify_button
      Sample.idle_terminate_thread_text
      {| c_id := 500;
         data := DataJson (JObject (CommandHandler.confirm_button (Some 5) None));
         c_message := Sample.menu |} w in
  run.2 = Returned () ∧ topics run.1 = [] ∧
  messages run.1 = [Sample.pair 10 20 5 false] ∧
  outbox run.1 = [AnswerCallbackQuery 500; DeleteForumTopic Sample.gid (ThreadId 5);
                  SendMessage Sample.gid "Failed to terminate the thread" NoThread].
Proof.
  intros w run.
  destruct (confirm_terminate_reports_failure Sample.gid Sample.tr
              (Sample.delete_raises (OtherException "ReadTimeout"))
              Sample.idle_admin_handler Sample.idle_unban_user Sample.idle_verify_button
              Sample.idle_terminate_thread_text
              Sample.menu 500 w 5 (Sample.topic 42 5) (OtherException "ReadTimeout"))
    as (Hreturned & Hsent & _ & Htopics & Hpairs & _);
    [reflexivity|reflexivity|reflexivity|done|done|reflexivity|done|reflexivity|].
  by repeat split.
Defined.

(** X17. [CommandHandler.terminate_thread] does its work once.  After a
    first run for a thread or a user, whatever the Bot API answered and even
    when that run was left by an exception, a second run of the same request
    finds no Topic: it makes no call and changes neither the tables nor the
    cache.  When the id it looks up is one sqlite can bind, or when no id is
    given, it returns and the log gets the line "Terminating thread"; when
    that id is out of range the lookup raises [OverflowError], as it does
    in every run, and nothing is logged.  In particular a remote deletion
    that was refused is not tried again. *)
Theorem terminate_thread_twice
    (group_id : Z) (tr : string → string) (env env' : Env)
    (thread_id user_id : option Z) (w : World) :
  let w1 := (CommandHandler.terminate_thread group_id tr env thread_id user_id w).1 in
  let again := CommandHandler.terminate_thread group_id tr env' thread_id user_id w1 in
  topics again.1 = topics w1 ∧ messages again.1 = messages w1 ∧
  auto_response again.1 = auto_response w1 ∧ cache again.1 = cache w1 ∧
  outbox again.1 = outbox w1 ∧
  ((∀ n, looked_up thread_id user_id = Some n → sqlite_int n) →
   again.2 = Returned () ∧
   ∃ line, log again.1 = log w1 ++ [LogInfo (tr "Terminating thread" +:+ line)]) ∧
  (∀ n, looked_up thread_id user_id = Some n → ¬ sqlite_int n →
   again = (w1, Raised OverflowError)).
Proof.
  intros w1 again.
  pose proof (terminate_thread_topics group_id tr env thread_id user_id w) as Htopics.
  fold w1 in Htopics. unfold again. clearbody w1. clear again.
  unfold CommandHandler.terminate_thread, CommandHandler.resolve_topic. run.
  destruct thread_id as [t|]; [|destruct user_id as [u|]]; simpl in *.
  - assert (Hnone : fetchone (λ r, t_thread_id r = t) (topics w1) = None).
    { rewrite Htopics. apply fetchone_delete_from. }
    destruct (decide (sqlite_int t)) as [Hin|Hout].
    + rewrite bind_id_sqlite by done. simpl. rewrite Hnone. simpl.
      do 5 (split; [done|]). split.
      * intros _. split; [done|]. by eexists.
      * by intros n [= <-] Hout.
    + rewrite (bind_id_overflow _ _ _ _ Hnone Hout). simpl.
      do 5 (split; [done|]). split; [|done].
      intros Hin. destruct Hout. by apply Hin.
  - assert (Hnone : fetchone (λ r, t_user_id r = u) (topics w1) = None).
    { rewrite Htopics. apply fetchone_delete_from. }
    destruct (decide (sqlite_int u)) as [Hin|Hout].
    + rewrite bind_id_sqlite by done. simpl. rewrite Hnone. simpl.
      do 5 (split; [done|]). split.
      * intros _. split; [done|]. by eexists.
      * by intros n [= <-] Hout.
    + rewrite (bind_id_overflow _ _ _ _ Hnone Hout). simpl.
      do 5 (split; [done|]). split; [|done].
      intros Hin. destruct Hout. by apply Hin.
  - do 5 (split; [done|]). split; [|done].
    intros _. split; [done|]. by eexists.
Qed.

Lemma terminate_thread_twice_witness :
  let w := Sample.store [Sample.topic 42 5] [Sample.pair 10 20 5 false] [] ∅ in
  let refused := Sample.delete_raises ApiTelegramException in
  let w1 := (CommandHandler.terminate_thread Sample.gid Sample.tr refused (Some 5) None w).1 in
  let again := CommandHandler.terminate_thread Sample.gid Sample.tr Sample.quiet
                 (Some 5) None w1 in
  let w2 := (CommandHandler.terminate_thread Sample.gid Sample.tr Sample.quiet
               None (Some 9223372036854775808) w).1 in
  (again.2 = Returned () ∧ outbox again.1 = [DeleteForumTopic Sample.gid (ThreadId 5)]) ∧
  CommandHandler.terminate_thread Sample.gid Sample.tr Sample.quiet
    None (Some 9223372036854775808) w2 = (w2, Raised OverflowError).
Proof.
  intros w refused w1 again w2. split.
  - destruct (terminate_thread_twice Sample.gid Sample.tr refused Sample.quiet
                (Some 5) None w) as (_ & _ & _ & _ & Hsent & Hreturns & _).
    destruct Hreturns as [Hreturned _].
    + intros n [= <-]. unfold sqlite_int. lia.
    + split; [exact Hreturned|]. unfold again, w1. rewrite Hsent. reflexivity.
  - destruct (terminate_thread_twice Sample.gid Sample.tr Sample.quiet Sample.quiet
                None (Some 9223372036854775808) w) as (_ & _ & _ & _ & _ & _ & Hrefused).
    apply (Hrefused 9223372036854775808); [reflexivity|].
    unfold sqlite_int. lia.
Defined.

(** X18. Edits and reactions are relayed, never stored: whatever the event
    and whatever the Bot API answers, [handle_edit] and [handle_reaction]
    leave Topics, Message Pairs, rules and cache as they are, and each makes
    at most one call, an [edit_message_text] resp. a
    [set_message_reaction]. *)
Theorem edit_and_reaction_store_nothing
    (group_id : Z) (tr : string → string) (env : Env)
    (message : Message) (ev : Reaction) (w : World) :
  let edited := CommandHandler.handle_edit group_id tr env message w in
  let reacted := CommandHandler.handle_reaction group_id env ev w in
  let same (w' : World) :=
    topics w' = topics w ∧ messages w' = messages w ∧
    auto_response w' = auto_response w ∧ cache w' = cache w ∧ log w' = log w in
  same edited.1 ∧ same reacted.1 ∧
  (outbox edited.1 = outbox w ∨
   ∃ txt chat mid, outbox edited.1 = outbox w ++ [EditMessageText txt chat mid]) ∧
  (outbox reacted.1 = outbox w ∨
   ∃ chat mid, outbox reacted.1
               = outbox w ++ [SetMessageReaction chat mid (last_reaction ev)]).
Proof.
  intros edited reacted same.
  assert (Hcall : ∀ c, same (call env c w).1).
  { intros c. by unfold call, same. }
  assert (Hsame : same w) by done.
  split; [|split; [|split]].
  - unfold edited, CommandHandler.handle_edit. run.
    by repeat case_match.
  - unfold reacted, CommandHandler.handle_reaction. run.
    by repeat case_match.
  - unfold edited, CommandHandler.handle_edit. run.
    repeat case_match; simpl; eauto.
  - unfold reacted, CommandHandler.handle_reaction, last_reaction. run.
    repeat case_match; simpl; eauto.
Qed.

(** X19. The group is the only place admin callbacks are served from.  A
    callback on a message of any other chat, whatever action its payload
    names other than the verify button, is answered and dropped: no admin
    menu, no unban and no termination runs, whatever these would do.  The
    verify button is served from every chat. *)
Theorem foreign_callback_is_dropped
    (group_id : Z) (tr : string → string) (env : Env)
    (admin_handler : string → CallbackQuery → gmap string jval → M unit)
    (unban_user : Message → jval → M unit)
    (verify_button : CallbackQuery → gmap string jval → M unit)
    (terminate_thread_text : option jval → option jval → M unit)
    (query : CallbackQuery) (payload : gmap string jval) (action : jval) (w : World) :
  let run := CallbackHandler.handle_callback_query group_id tr env admin_handler unban_user
               verify_button terminate_thread_text query w in
  let answer := AnswerCallbackQuery (c_id query) in
  data query = DataJson (JObject payload) →
  payload !! "action" = Some action →
  (action ≠ JStr "verify_button" → chat_id (c_message query) ≠ group_id →
   run = call env answer w) ∧
  (action = JStr "verify_button" → raises env answer = None →
   run = verify_button query payload (set_outbox (λ o, o ++ [answer]) w)).
Proof.
  intros run answer Hdata Haction.
  unfold run, CallbackHandler.handle_callback_query,
    CallbackHandler.json_loads, CallbackHandler.subscript. clear run.
  rewrite Hdata. run. rewrite Haction. simpl. fold answer. split.
  - intros Hverify Hchat.
    destruct (raises env answer); simpl; [done|].
    rewrite bool_decide_eq_false_2 by done.
    by rewrite bool_decide_eq_true_2 by done.
  - intros -> ->. done.
Qed.

Lemma foreign_callback_is_dropped_witness :
  let pressed :=
    {| c_id := 500;
       data := DataJson (JObject (CommandHandler.confirm_button (Some 5) None));
       c_message := Sample.message_of 61 42 Sample.alice None "text" (Some "menu") |} in
  let w := Sample.store [Sample.topic 42 5] [Sample.pair 10 20 5 false] [] ∅ in
  CallbackHandler.handle_callback_query Sample.gid Sample.tr Sample.quiet
    Sample.idle_admin_handler Sample.idle_unban_user Sample.idle_verify_button
    Sample.idle_terminate_thread_text pressed w
  = (set_outbox (λ o, o ++ [AnswerCallbackQuery 500]) w, Returned ()).
Proof.
  intros pressed w.
  destruct (foreign_callback_is_dropped Sample.gid Sample.tr Sample.quiet
              Sample.idle_admin_handler Sample.idle_unban_user Sample.idle_verify_button
              Sample.idle_terminate_thread_text
              pressed (CommandHandler.confirm_button (Some 5) None)
              (JStr "confirm_terminate") w) as [Hdropped _];
    [reflexivity|reflexivity|].
  rewrite Hdropped; [reflexivity|discriminate|vm_compute; discriminate].
Defined.

(** ** Thread creation that fails *)

(** X20. When the forum thread of a new user cannot be created, whatever the
    exception, [handle_messages] returns as if nothing had happened: no
    Topic is stored, the message is not forwarded, neither the user nor the
    group is told, and only the log keeps the exception. *)
Theorem failed_creation_drops_the_message
    (group_id : Z) (tr : string → string) (env : Env) (message : Message) (w : World)
    (e : exn) :
  let run := TGBot.handle_messages group_id tr env message w in
  let create := CreateForumTopic group_id (first_name (from_user message)) in
  chat_id message ≠ group_id →
  fetchone (λ r, Some (a_key r) = text message) (auto_response w) = None →
  fetchone (λ r, t_user_id r = u_id (from_user message)) (topics w) = None →
  raises env create = Some e →
  run.2 = Returned () ∧
  topics run.1 = topics w ∧ messages run.1 = messages w ∧
  outbox run.1 = outbox w ++ [create] ∧
  ∃ received creating, log run.1 = log w ++ [received; creating; LogException "" e].
Proof.
  intros run create Hchat Hrule Hnone Hcreate.
  unfold run, TGBot.handle_messages, TGBot.forward_to_group,
    TGBot.resolve_or_create_thread. clear run.
  rewrite bool_decide_eq_false_2 by tauto.
  rewrite bool_decide_eq_true_2 by done.
  run. rewrite Hrule. simpl. rewrite Hnone. simpl. fold create. rewrite Hcreate. simpl.
  repeat split. do 2 eexists. by rewrite <- !app_assoc.
Qed.

Lemma failed_creation_drops_the_message_witness :
  let run := TGBot.handle_messages Sample.gid Sample.tr
               (Sample.down (OtherException "ReadTimeout")) Sample.hello Sample.empty in
  run.2 = Returned () ∧ topics run.1 = [] ∧
  outbox run.1 = [CreateForumTopic Sample.gid "Alice"].
Proof.
  intros run.
  destruct (failed_creation_drops_the_message Sample.gid Sample.tr
              (Sample.down (OtherException "ReadTimeout")) Sample.hello Sample.empty
              (OtherException "ReadTimeout")) as (Hreturned & Htopics & _ & Hsent & _);
    [vm_compute; discriminate|reflexivity|reflexivity|reflexivity|].
  by repeat split.
Defined.

(** X21. The Topic is stored before its card is sent.  When the thread of a
    new user is created and the card with the identity of the user cannot
    be sent, the exception leaves [handle_messages] with the Topic stored
    and the message not forwarded; the next message of the user finds the
    Topic and is forwarded to that thread, with no thread created and no
    card sent any more. *)
Theorem topic_survives_a_failed_card
    (group_id : Z) (tr : string → string) (env env' : Env) (message next : Message)
    (w : World) (e : exn) :
  let T := created_thread env in
  let create := CreateForumTopic group_id (first_name (from_user message)) in
  let card := TGBot.identity_card group_id tr message (ThreadId T) in
  let forward := ForwardMessage group_id (chat_id next) (ThreadRow T) (message_id next) in
  let first := TGBot.handle_messages group_id tr env message w in
  let second := TGBot.handle_messages group_id tr env' next first.1 in
  chat_id message ≠ group_id → chat_id next ≠ group_id →
  u_id (from_user next) = u_id (from_user message) →
  fetchone (λ r, Some (a_key r) = text message) (auto_response w) = None →
  fetchone (λ r, Some (a_key r) = text next) (auto_response w) = None →
  fetchone (λ r, t_user_id r = u_id (from_user message)) (topics w) = None →
  raises env create = None → raises env card = Some e →
  raises env' forward = None →
  first.2 = Raised e ∧
  topics first.1 = topics w ++ [{| t_user_id := u_id (from_user message);
                                   t_thread_id := T; t_ban := false |}] ∧
  outbox first.1 = outbox w ++ [create; card] ∧
  second.2 = Returned () ∧
  topics second.1 = topics first.1 ∧
  outbox second.1 = outbox first.1 ++ [forward].
Proof.
  intros T create card forward first second
    Hchat Hchat' Huser Hrule Hrule' Hnone Hcreate Hcard Hforward.
  assert (Hfirst : first = (set_outbox (λ o, o ++ [create; card])
                    (set_topics (λ t, t ++ [{| t_user_id := u_id (from_user message);
                                               t_thread_id := T; t_ban := false |}])
                       (set_log (λ l, l ++
                          [LogInfo (format (tr "Received message from {}, content: {}, type: {}")
                                      [str (u_id (from_user message));
                                       str_opt id (text message); content_type message]);
                           LogInfo (format (tr "Creating a new thread for user {}")
                                      [str (u_id (from_user message))])]) w)),
                    Raised e)).
  { unfold first, TGBot.handle_messages, TGBot.forward_to_group,
      TGBot.resolve_or_create_thread.
    rewrite bool_decide_eq_false_2 by tauto.
    rewrite bool_decide_eq_true_2 by done.
    run. rewrite Hrule. simpl. rewrite Hnone. simpl. fold create. rewrite Hcreate. simpl.
    fold T. fold card. rewrite Hcard. simpl.
    unfold set_outbox, set_topics, set_log. simpl. by rewrite <- !app_assoc. }
  unfold second. rewrite Hfirst. simpl. clear first second Hfirst.
  do 3 (split; [done|]).
  unfold TGBot.handle_messages, TGBot.forward_to_group, TGBot.resolve_or_create_thread.
  rewrite bool_decide_eq_false_2 by tauto.
  rewrite bool_decide_eq_true_2 by done.
  run. rewrite Hrule'. simpl. rewrite Huser.
  erewrite fetchone_snoc_None; [|done|done]. simpl.
  fold T. fold forward. by rewrite Hforward.
Qed.

Lemma topic_survives_a_failed_card_witness :
  let no_card : Env :=
    {| raises := λ c, match c with
                      | SendMessage _ _ (ThreadId _) => Some ApiTelegramException
                      | _ => None
                      end;
       created_thread := 7; sent_message_id := λ _, 900;
       member_status := λ _ _, "administrator"; now := "" |} in
  let again := Sample.message_of 11 42 Sample.alice None "text" (Some "anyone there?") in
  let first := TGBot.handle_messages Sample.gid Sample.tr no_card Sample.hello Sample.empty in
  let second := TGBot.handle_messages Sample.gid Sample.tr Sample.quiet again first.1 in
  first.2 = Raised ApiTelegramException ∧
  topics second.1 = [Sample.topic 42 7] ∧
  last (outbox second.1) = Some (ForwardMessage Sample.gid 42 (ThreadRow 7) 11).
Proof.
  intros no_card again first second.
  destruct (topic_survives_a_failed_card Sample.gid Sample.tr no_card Sample.quiet
              Sample.hello again Sample.empty ApiTelegramException)
    as (Hraised & Hstored & _ & _ & Hkept & Hsent);
    [vm_compute; discriminate|vm_compute; discriminate|reflexivity|reflexivity
    |reflexivity|reflexivity|reflexivity|reflexivity|reflexivity|].
  split; [exact Hraised|]. split.
  - unfold second, first. rewrite Hkept. exact Hstored.
  - unfold second, first. rewrite Hsent. by rewrite last_snoc.
Defined.
